(** * Sales-tax calculator: device price ingestion, cache and refresh policy

    A shallow embedding of [tax_data.py] and of the ingestion, caching and
    refresh code of [web_app.py], with the properties of the specification.

    Conventions of the embedding.
    - A Python [str] is a [string]; a character stands for the code point of
      the same number (0..255), and the character classes below are
      Python's on that range.
    - A Python [float] is an IEEE 754 binary64 value, [spec_float] with
      precision 53 and [emax] 1024; arithmetic is correctly rounded.
    - A Python [dict] is an association list in insertion order, without
      duplicate keys.
    - Files, the clock and the network are explicit: a function that reads
      or writes them takes and returns the state of the disk, and what the
      network or a library reader answers is an argument. *)

From Stdlib Require Import ZArith List String Ascii Bool Lia.
From Stdlib Require Import Floats.SpecFloat.
From Stdlib Require Import DecimalString.
Import ListNotations.
Open Scope string_scope.
Open Scope Z_scope.

(** ** Python strings *)

Module PyStr.

Definition code (c : ascii) : Z := Z.of_nat (nat_of_ascii c).

Definition between (lo hi x : Z) : bool := (lo <=? x) && (x <=? hi).

(** [str.isspace] on one character. *)
Definition isspace (c : ascii) : bool :=
  let n := code c in
  between 9 13 n || between 28 32 n || (n =? 133) || (n =? 160).

(** [str.isdigit]: the ASCII digits and the superscripts 2, 3 and 1. *)
Definition isdigit (c : ascii) : bool :=
  let n := code c in
  between 48 57 n || (n =? 178) || (n =? 179) || (n =? 185).

Definition is_ascii_digit (c : ascii) : bool := between 48 57 (code c).

Definition isupper (c : ascii) : bool :=
  let n := code c in
  between 65 90 n || between 192 214 n || between 216 222 n.

(** [str.isalpha] on one character. *)
Definition isalpha (c : ascii) : bool :=
  let n := code c in
  between 65 90 n || between 97 122 n || (n =? 170) || (n =? 181) ||
  (n =? 186) || between 192 214 n || between 216 246 n || between 248 255 n.

Definition lower_char (c : ascii) : ascii :=
  if isupper c then ascii_of_nat (nat_of_ascii c + 32) else c.

(** [str.lower]. *)
Fixpoint lower (s : string) : string :=
  match s with
  | EmptyString => EmptyString
  | String c r => String (lower_char c) (lower r)
  end.

Fixpoint lstrip (s : string) : string :=
  match s with
  | String c r => if isspace c then lstrip r else s
  | EmptyString => EmptyString
  end.

(** Drops trailing white space: a character is kept when something that is
    kept follows it, or when it is not white space itself. *)
Fixpoint rstrip (s : string) : string :=
  match s with
  | EmptyString => EmptyString
  | String c r =>
      match rstrip r with
      | EmptyString => if isspace c then EmptyString else String c EmptyString
      | r' => String c r'
      end
  end.

(** [str.strip()]. *)
Definition strip (s : string) : string := rstrip (lstrip s).

(** [s.replace(c, '')] for a one-character [c]. *)
Fixpoint remove_char (c : ascii) (s : string) : string :=
  match s with
  | EmptyString => EmptyString
  | String d r => if Ascii.eqb c d then remove_char c r else String d (remove_char c r)
  end.

(** [s.startswith(p)]. *)
Fixpoint startswith (p s : string) : bool :=
  match p, s with
  | EmptyString, _ => true
  | String a p', String b s' => Ascii.eqb a b && startswith p' s'
  | String _ _, EmptyString => false
  end.

(** [s.endswith(p)]: [p] is [s] or ends what follows its first character. *)
Fixpoint endswith (p s : string) : bool :=
  String.eqb p s ||
  match s with
  | EmptyString => false
  | String _ r => endswith p r
  end.

(** [p in s]: [p] occurs in [s] as a substring. *)
Fixpoint contains (p s : string) : bool :=
  startswith p s ||
  match s with
  | EmptyString => false
  | String _ r => contains p r
  end.

(** Truth value of a string: [bool(s)]. *)
Definition truthy (s : string) : bool :=
  match s with EmptyString => false | String _ _ => true end.

(** [len(s)]. *)
Definition len (s : string) : Z := Z.of_nat (String.length s).

Fixpoint all_chars (p : ascii -> bool) (s : string) : bool :=
  match s with
  | EmptyString => true
  | String c r => p c && all_chars p r
  end.

Fixpoint any_char (p : ascii -> bool) (s : string) : bool :=
  match s with
  | EmptyString => false
  | String c r => p c || any_char p r
  end.

(** [s.isdigit()]: non-empty and every character a digit. *)
Definition str_isdigit (s : string) : bool := truthy s && all_chars isdigit s.

(** The first item of [s.split()], if there is one: the first maximal run
    of characters that are not white space. *)
Fixpoint take_word (s : string) : string :=
  match s with
  | EmptyString => EmptyString
  | String c r => if isspace c then EmptyString else String c (take_word r)
  end.

Definition first_word (s : string) : option string :=
  match lstrip s with
  | EmptyString => None
  | w => Some (take_word w)
  end.

(** [str(n)] for an integer. *)
Definition of_Z (n : Z) : string := NilZero.string_of_int (Z.to_int n).

End PyStr.

(** ** Python floats *)

Module PyFloat.

Definition float := spec_float.

Definition prec : Z := 53.
Definition emax : Z := 1024.

Definition add : float -> float -> float := SFadd prec emax.
Definition sub : float -> float -> float := SFsub prec emax.
Definition mul : float -> float -> float := SFmul prec emax.
Definition div : float -> float -> float := SFdiv prec emax.

(** [x < y], [x <= y] and [x == y]; all three are false on a NaN. *)
Definition ltb : float -> float -> bool := SFltb.
Definition leb : float -> float -> bool := SFleb.
Definition eqb : float -> float -> bool := SFeqb.
Definition gtb (x y : float) : bool := ltb y x.
Definition geb (x y : float) : bool := leb y x.

Definition zero : float := S754_zero false.
Definition nan : float := S754_nan.

(** The float nearest to an integer, as in the conversion of an [int]
    operand. *)
Definition of_int (n : Z) : float := binary_normalize prec emax n 0 false.

(** The float nearest to [(-1)^s * n / d]. *)
Definition of_ratio (s : bool) (n d : positive) : float :=
  SFdiv prec emax (S754_finite s n 0) (S754_finite false d 0).

(** The float nearest to [(-1)^s * m * 10^e], for [m >= 0]. *)
Definition of_decimal (s : bool) (m e : Z) : float :=
  match m with
  | Zpos p =>
      match e with
      | Zneg k => of_ratio s p (Pos.pow 10 k)
      | _ => binary_normalize prec emax (if s then - (m * 10 ^ e) else m * 10 ^ e) 0 s
      end
  | _ => S754_zero s
  end.

(** [bool(x)]: every float but the two zeros is true. *)
Definition truthy (x : float) : bool :=
  match x with S754_zero _ => false | _ => true end.

Definition is_finite (x : float) : bool :=
  match x with S754_zero _ | S754_finite _ _ _ => true | _ => false end.

(** [x] is zero or a finite float of magnitude below [2 ^ D]: its mantissa
    [m] and exponent [e] have [m < 2 ^ (D - e)], and [e] is an exponent of
    the format. *)
Definition below_pow2 (D : Z) (x : float) : Prop :=
  match x with
  | S754_zero _ => True
  | S754_finite _ m e => e <= 971 /\ Zpos (digits2_pos m) + e <= D
  | _ => False
  end.

(** *** [round(x, 2)]

    The value of [x] is rounded to the nearest multiple of 1/100, ties to
    the even multiple, on its exact value; the result is the float nearest
    to that decimal. *)

Definition round_half_even_div (n d : Z) : Z :=
  let q := n / d in
  match (2 * (n mod d)) ?= d with
  | Lt => q
  | Gt => q + 1
  | Eq => if Z.even q then q else q + 1
  end.

Definition hundredths (m : positive) (e : Z) : Z :=
  match e with
  | Zneg k => round_half_even_div (Zpos m * 100) (2 ^ Zpos k)
  | _ => Zpos m * 2 ^ e * 100
  end.

Definition round2 (x : float) : float :=
  match x with
  | S754_finite s m e =>
      match hundredths m e with
      | Zpos n => of_ratio s n 100
      | _ => S754_zero s
      end
  | _ => x
  end.

(** *** [float(s)] for a string

    [None] stands for [ValueError]. *)

Definition digit_value (c : ascii) : Z := PyStr.code c - 48.

(** A run of digits in which single underscores may separate digits:
    the value read with [acc] as the digits before, the number of digits
    read added to [n], and what is left of the string. *)
Fixpoint digitpart (acc : Z) (n : nat) (s : string) : Z * nat * string :=
  match s with
  | String c r =>
      if PyStr.is_ascii_digit c then digitpart (acc * 10 + digit_value c) (S n) r
      else if Ascii.eqb c "_" then
        match n, r with
        | S _, String d _ => if PyStr.is_ascii_digit d then digitpart acc n r else (acc, n, s)
        | _, _ => (acc, n, s)
        end
      else (acc, n, s)
  | EmptyString => (acc, n, s)
  end.

Definition read_sign (s : string) : bool * string :=
  match s with
  | String "-" r => (true, r)
  | String "+" r => (false, r)
  | _ => (false, s)
  end.

(** The exponent part: empty, or [e] or [E], an optional sign and digits,
    up to the end of the string. *)
Definition read_exponent (s : string) : option Z :=
  match s with
  | EmptyString => Some 0
  | String c r =>
      if Ascii.eqb c "e" || Ascii.eqb c "E" then
        let '(neg, r1) := read_sign r in
        match digitpart 0 0 r1 with
        | (v, S _, EmptyString) => Some (if neg then - v else v)
        | _ => None
        end
      else None
  end.

(** Mantissa: digits, optionally a point and more digits, or a point and
    digits. Gives the digits as an integer and the number of them after
    the point. *)
Definition read_mantissa (s : string) : option (Z * nat * string) :=
  let '(v, n, r) := digitpart 0 0 s in
  match r with
  | String "." r1 =>
      let '(v1, n1, r2) := digitpart v 0 r1 in
      match n, n1 with
      | O, O => None
      | _, _ => Some (v1, n1, r2)
      end
  | _ => match n with O => None | S _ => Some (v, O, r) end
  end.

Definition read_number (neg : bool) (s : string) : option float :=
  match read_mantissa s with
  | Some (m, nfrac, r) =>
      match read_exponent r with
      | Some e => Some (of_decimal neg m (e - Z.of_nat nfrac))
      | None => None
      end
  | None => None
  end.

Definition read_inf_nan (neg : bool) (s : string) : option float :=
  let l := PyStr.lower s in
  if String.eqb l "inf" || String.eqb l "infinity" then Some (S754_infinity neg)
  else if String.eqb l "nan" then Some S754_nan
  else None.

(** The white space [float] drops at both ends: on a string of ASCII
    characters the C white space, otherwise what [str.isspace] accepts. *)
Definition is_c_space (c : ascii) : bool :=
  let n := PyStr.code c in PyStr.between 9 13 n || (n =? 32).

Definition is_ascii_char (c : ascii) : bool := PyStr.code c <? 128.

Fixpoint strip_with (sp : ascii -> bool) (s : string) : string :=
  let fix rs (s : string) : string :=
    match s with
    | EmptyString => EmptyString
    | String c r =>
        match rs r with
        | EmptyString => if sp c then EmptyString else String c EmptyString
        | r' => String c r'
        end
    end in
  match s with
  | String c r => if sp c then strip_with sp r else rs s
  | EmptyString => EmptyString
  end.

Definition of_string (s : string) : option float :=
  let sp := if PyStr.all_chars is_ascii_char s then is_c_space else PyStr.isspace in
  let '(neg, r) := read_sign (strip_with sp s) in
  match read_number neg r with
  | Some x => Some x
  | None => read_inf_nan neg r
  end.

(** *** Floor division and [int]

    [fmod x y] for finite [x] and a positive integer [y]: the exact
    remainder of the truncated quotient, with the sign of [x]. *)
Definition fmod_int (x : float) (y : positive) : float :=
  match x with
  | S754_finite s m e =>
      match e with
      | Zneg k =>
          match Zpos m mod (Zpos y * 2 ^ Zpos k) with
          | Zpos r => binary_normalize prec emax (if s then Zneg r else Zpos r) e s
          | _ => S754_zero s
          end
      | _ =>
          match (Zpos m * 2 ^ e) mod Zpos y with
          | Zpos r => binary_normalize prec emax (if s then Zneg r else Zpos r) 0 s
          | _ => S754_zero s
          end
      end
  | S754_zero s => x
  | _ => S754_nan
  end.

(** The integer part of a finite float towards minus infinity; [None] on
    an infinity or a NaN. *)
Definition floor_Z (x : float) : option Z :=
  match x with
  | S754_zero _ => Some 0
  | S754_finite s m e =>
      let n := if s then Zneg m else Zpos m in
      Some (match e with
            | Zneg k => n / 2 ^ Zpos k
            | _ => n * 2 ^ e
            end)
  | _ => None
  end.

(** [math.floor] as a float: exact, and the sign of a zero result is that
    of [x]. *)
Definition floor (x : float) : float :=
  match x, floor_Z x with
  | S754_finite s _ _, Some n => binary_normalize prec emax n 0 s
  | _, _ => x
  end.

Definition half : float := S754_finite false 4503599627370496 (-53).
Definition one : float := S754_finite false 4503599627370496 (-52).

Definition sign_of (x : float) : bool :=
  match x with
  | S754_zero s | S754_infinity s | S754_finite s _ _ => s
  | S754_nan => false
  end.

(** [x // y] for a positive integer [y], after [_float_div_mod] of the
    interpreter: quotient of [x - fmod x y] by [y], moved down by one when
    the remainder is negative, then snapped to the nearest integer. *)
Definition floordiv_int (x : float) (y : positive) : float :=
  let wy := of_int (Zpos y) in
  let md := fmod_int x y in
  let d0 := div (sub x md) wy in
  let d := if truthy md && ltb md zero then sub d0 one else d0 in
  if truthy d then
    let f := floor d in
    if gtb (sub d f) half then add f one else f
  else S754_zero (sign_of (div x wy)).

(** [int(x)]: [None] stands for the [ValueError] on a NaN and the
    [OverflowError] on an infinity. *)
Definition to_int (x : float) : option Z :=
  match x with
  | S754_zero _ => Some 0
  | S754_finite s m e =>
      let n := match e with
               | Zneg k => Zpos m / 2 ^ Zpos k
               | _ => Zpos m * 2 ^ e
               end in
      Some (if s then - n else n)
  | _ => None
  end.

End PyFloat.

(** ** Exceptions

    A computation that may raise returns [Ok] with its value or [Raise]
    with the exception. *)

Inductive exn : Type :=
| ValueError | AttributeError | TypeError | IndexError | KeyError
| OverflowError | CsvError | IOError | JSONDecodeError | RequestException.

Inductive res (A : Type) : Type :=
| Ok (a : A)
| Raise (e : exn).
Arguments Ok {A} a.
Arguments Raise {A} e.

Definition bind {A B : Type} (m : res A) (k : A -> res B) : res B :=
  match m with
  | Ok a => k a
  | Raise e => Raise e
  end.

Notation "x <- m ;; k" := (bind m (fun x => k))
  (at level 61, m at next level, right associativity).

(** [try: m except (e1, e2, ...): h]. *)
Definition try_except {A : Type} (m : res A) (caught : exn -> bool) (h : res A) : res A :=
  match m with
  | Ok a => Ok a
  | Raise e => if caught e then h else Raise e
  end.

Definition is_ok {A : Type} (m : res A) : bool :=
  match m with Ok _ => true | Raise _ => false end.

(** [float(s)] as a computation. *)
Definition py_float (s : string) : res PyFloat.float :=
  match PyFloat.of_string s with
  | Some x => Ok x
  | None => Raise ValueError
  end.

(** ** tax_data.py *)

Module TaxData.
Import PyFloat.

Definition calculate_sales_tax (amount tax_rate : float) : float * float :=
  if ltb amount (of_int 0) then (zero, zero)
  else
    let tax_amount := mul amount (div tax_rate (of_int 100)) in
    let total_amount := add amount tax_amount in
    (round2 tax_amount, round2 total_amount).

End TaxData.

(** ** Python dictionaries keyed by strings *)

Module PyDict.
Section Dict.
Context {V : Type}.

Definition dict := list (string * V).

(** [d.get(k)]. *)
Fixpoint get (d : dict) (k : string) : option V :=
  match d with
  | [] => None
  | (k', v) :: r => if String.eqb k' k then Some v else get r k
  end.

(** [k in d]. *)
Definition mem (d : dict) (k : string) : bool :=
  match get d k with Some _ => true | None => false end.

(** [d[k] = v]: the value of an existing key is replaced where the key
    stands, a new key goes to the end. *)
Fixpoint set (d : dict) (k : string) (v : V) : dict :=
  match d with
  | [] => [(k, v)]
  | (k', v') :: r => if String.eqb k' k then (k', v) :: r else (k', v') :: set r k v
  end.

(** [d.update(other)]. *)
Fixpoint update (d other : dict) : dict :=
  match other with
  | [] => d
  | (k, v) :: r => update (set d k v) r
  end.

(** [list(d.keys())]. *)
Definition keys (d : dict) : list string := map fst d.

(** [del d[k]] for a key that may be absent. *)
Fixpoint remove (d : dict) (k : string) : dict :=
  match d with
  | [] => []
  | (k', v) :: r => if String.eqb k' k then r else (k', v) :: remove r k
  end.

Fixpoint nodup_keys (d : dict) : Prop :=
  match d with
  | [] => True
  | (k, _) :: r => get r k = None /\ nodup_keys r
  end.

End Dict.
Arguments dict V : clear implicits.
End PyDict.

(** ** The catalog *)

(** What the catalog holds for a device: a price record, a dictionary with
    the keys [msrp] and [prepaid], either of which may be absent in a
    catalog read from disk; or, in the old format, the bare price. *)
Inductive device_data : Type :=
| PriceRecord (msrp : option PyFloat.float) (prepaid : option PyFloat.float)
| BarePrice (price : PyFloat.float).

Definition catalog := PyDict.dict device_data.

(** ** StreamingCSVProcessor *)

Module StreamingCSVProcessor.
Import PyFloat.

Definition _parse_price (price_str : string) : res float :=
  try_except
    (let cleaned := PyStr.strip (PyStr.remove_char "," (PyStr.remove_char "$" price_str)) in
     py_float cleaned)
    (fun e => match e with ValueError | AttributeError => true | _ => false end)
    (Ok zero).

Definition any_pattern (patterns : list string) (field_lower : string) : bool :=
  existsb (fun pattern => PyStr.contains pattern field_lower) patterns.

(** The loop shared by the three detectors: the first field one of whose
    patterns occurs in the field's lower-cased, stripped name. *)
Fixpoint first_matching (patterns : list string) (fieldnames : list string) : option string :=
  match fieldnames with
  | [] => None
  | field :: rest =>
      let field_lower := PyStr.strip (PyStr.lower field) in
      if any_pattern patterns field_lower then Some field
      else first_matching patterns rest
  end.

(** [fieldnames[i] if len(fieldnames) > i else None]. *)
Definition item_or_none (fieldnames : list string) (i : nat) : option string :=
  if Nat.ltb i (List.length fieldnames) then nth_error fieldnames i else None.

Definition phone_patterns : list string := ["phone"; "device"; "model"; "name"; "product"].
Definition msrp_patterns : list string := ["msrp"; "price"; "cost"; "amount"; "value"].
Definition prepaid_patterns : list string := ["prepaid"; "prepay"; "suggested"].

Definition _detect_phone_column (fieldnames : list string) : option string :=
  match first_matching phone_patterns fieldnames with
  | Some field => Some field
  | None => item_or_none fieldnames 1
  end.

Definition _detect_msrp_column (fieldnames : list string) : option string :=
  match first_matching msrp_patterns fieldnames with
  | Some field => Some field
  | None => item_or_none fieldnames 4
  end.

Definition _detect_prepaid_column (fieldnames : list string) : option string :=
  match first_matching prepaid_patterns fieldnames with
  | Some field => Some field
  | None => item_or_none fieldnames 8
  end.

(** Truth value of a detected column: [None] and the empty name are
    false. *)
Definition col_truthy (c : option string) : bool :=
  match c with Some s => PyStr.truthy s | None => false end.

(** What [csv.DictReader] yields for one record: the value under [col] of
    the dictionary built from the field names and the record's fields. A
    name that occurs twice keeps its last value, and a field name beyond
    the end of a short record is bound to [None]. The outer [option] is the
    absence of the key, the inner one the value [None]. *)
Fixpoint row_lookup (fieldnames row : list string) (col : string)
    (found : option (option string)) : option (option string) :=
  match fieldnames with
  | [] => found
  | f :: fs =>
      let v := match row with [] => None | x :: _ => Some x end in
      row_lookup fs (List.tl row) col (if String.eqb f col then Some v else found)
  end.

(** [str(row.get(col, ''))]. *)
Definition row_get_str (fieldnames row : list string) (col : string) : string :=
  match row_lookup fieldnames row col None with
  | None => ""
  | Some None => "None"
  | Some (Some s) => s
  end.

(** Truth value of [row.get(col)]. *)
Definition row_get_truthy (fieldnames row : list string) (col : string) : bool :=
  match row_lookup fieldnames row col None with
  | Some (Some s) => PyStr.truthy s
  | _ => false
  end.

(** The state of the loop over the records. *)
Record ingest_state : Type := {
  devices : catalog;
  processed_count : Z;
  skipped_count : Z
}.

Definition skip (st : ingest_state) : ingest_state :=
  {| devices := devices st;
     processed_count := processed_count st;
     skipped_count := skipped_count st + 1 |}.

Definition emit (st : ingest_state) (phone_name : string) (d : device_data) : ingest_state :=
  {| devices := PyDict.set (devices st) phone_name d;
     processed_count := processed_count st + 1;
     skipped_count := skipped_count st |}.

(** What one pass of the loop's [try] block decides for a record, before
    the counters move: [None] for [continue] after a skip, or the name and
    the record to store. *)
Definition row_outcome (fieldnames : list string) (phone_col msrp_col : string)
    (prepaid_col : option string) (row : list string)
    : res (option (string * device_data)) :=
  let phone_name := PyStr.strip (row_get_str fieldnames row phone_col) in
  let msrp_str := PyStr.strip (row_get_str fieldnames row msrp_col) in
  if negb (PyStr.truthy phone_name) || negb (PyStr.truthy msrp_str) then Ok None
  else
    msrp <- _parse_price msrp_str ;;
    if leb msrp (of_int 0) then Ok None
    else
      prepaid <-
        (match prepaid_col with
         | Some pc =>
             if PyStr.truthy pc && row_get_truthy fieldnames row pc then
               prepaid_price <- _parse_price (PyStr.strip (row_get_str fieldnames row pc)) ;;
               Ok (if gtb prepaid_price (of_int 0) then Some prepaid_price else None)
             else Ok None
         | None => Ok None
         end) ;;
      Ok (Some (phone_name, PriceRecord (Some msrp) prepaid)).

(** One record: the [try] block, and [except Exception] counting a skip. *)
Definition process_row (fieldnames : list string) (phone_col msrp_col : string)
    (prepaid_col : option string) (st : ingest_state) (row : list string) : ingest_state :=
  match row_outcome fieldnames phone_col msrp_col prepaid_col row with
  | Ok (Some (phone_name, d)) => emit st phone_name d
  | Ok None => skip st
  | Raise _ => skip st
  end.

(** What the reader gives after the header: a record, or an error raised
    while reading on. A record without any field is an empty line, which
    [DictReader] passes over. *)
Inductive csv_event : Type :=
| Record_ (fields : list string)
| ReaderError.

(** A file as [csv] reads it: opening the file, sniffing the delimiter and
    reading the header give the field names ([None] when the file has no
    line at all) or raise; then come the records. *)
Record csv_file : Type := {
  header : res (option (list string));
  records : list csv_event
}.

Inductive stream_result : Type :=
| StreamOk (devices : catalog) (processed_count skipped_count : Z)
    (phone_column msrp_column : string) (prepaid_column : option string)
| StreamNoColumns (detected_columns : list string)
| StreamError.

Fixpoint process_rows (fieldnames : list string) (phone_col msrp_col : string)
    (prepaid_col : option string) (evs : list csv_event) (st : ingest_state)
    : res ingest_state :=
  match evs with
  | [] => Ok st
  | ReaderError :: _ => Raise CsvError
  | Record_ [] :: rest => process_rows fieldnames phone_col msrp_col prepaid_col rest st
  | Record_ row :: rest =>
      process_rows fieldnames phone_col msrp_col prepaid_col rest
        (process_row fieldnames phone_col msrp_col prepaid_col st row)
  end.

Definition initial : ingest_state :=
  {| devices := []; processed_count := 0; skipped_count := 0 |}.

Definition process_csv_stream (file : csv_file) : stream_result :=
  match header file with
  | Raise _ => StreamError
  | Ok h =>
      let fieldnames := match h with Some names => names | None => [] end in
      let phone_col := _detect_phone_column fieldnames in
      let msrp_col := _detect_msrp_column fieldnames in
      let prepaid_col := _detect_prepaid_column fieldnames in
      match phone_col, msrp_col with
      | Some pc, Some mc =>
          if negb (PyStr.truthy pc) || negb (PyStr.truthy mc) then StreamNoColumns fieldnames
          else
            match process_rows fieldnames pc mc prepaid_col (records file) initial with
            | Ok st =>
                StreamOk (devices st) (processed_count st) (skipped_count st) pc mc prepaid_col
            | Raise _ => StreamError
            end
      | _, _ => StreamNoColumns fieldnames
      end
  end.

End StreamingCSVProcessor.

(** ** OptimizedDeviceCache *)

Module OptimizedDeviceCache.
Import PyFloat.

Record cache : Type := {
  devices : catalog;
  device_index : PyDict.dict (list string);
  price_index : PyDict.dict (list string);
  search_cache : PyDict.dict (list string);
  max_cache_size : Z;
  last_modified : option Z
}.

(** [OptimizedDeviceCache(max_cache_size)]. *)
Definition new (max_cache_size : Z) : cache :=
  {| devices := []; device_index := []; price_index := []; search_cache := [];
     max_cache_size := max_cache_size; last_modified := None |}.

Definition with_indexes (c : cache) (di pi : PyDict.dict (list string)) : cache :=
  {| devices := devices c; device_index := di; price_index := pi;
     search_cache := search_cache c; max_cache_size := max_cache_size c;
     last_modified := last_modified c |}.

Definition with_search_cache (c : cache) (sc : PyDict.dict (list string)) : cache :=
  {| devices := devices c; device_index := device_index c; price_index := price_index c;
     search_cache := sc; max_cache_size := max_cache_size c;
     last_modified := last_modified c |}.

(** [index[key].append(name)] on a [defaultdict(list)]. *)
Definition index_append (index : PyDict.dict (list string)) (key name : string)
    : PyDict.dict (list string) :=
  match PyDict.get index key with
  | Some names => PyDict.set index key (names ++ [name])%list
  | None => PyDict.set index key [name]
  end.

(** [device_name.split()[0].lower() if device_name else '']. *)
Definition brand_of (device_name : string) : res string :=
  if PyStr.truthy device_name then
    match PyStr.first_word device_name with
    | Some w => Ok (PyStr.lower w)
    | None => Raise IndexError
    end
  else Ok "".

(** [int(x)] as a computation. *)
Definition py_int (x : float) : res Z :=
  match to_int x with
  | Some n => Ok n
  | None => Raise (match x with S754_nan => ValueError | _ => OverflowError end)
  end.

(** The label of the 100-wide range of a price. *)
Definition price_range_of (price : float) : res string :=
  lo <- py_int (floordiv_int price 100) ;;
  hi <- py_int (floordiv_int price 100) ;;
  Ok (PyStr.of_Z (lo * 100) ++ "-" ++ PyStr.of_Z (hi * 100 + 99)).

(** [device_data.get('msrp', 0) if isinstance(device_data, dict) else
    device_data]; the integer 0 of an absent key is the float zero here. *)
Definition price_of (d : device_data) : float :=
  match d with
  | PriceRecord (Some m) _ => m
  | PriceRecord None _ => zero
  | BarePrice p => p
  end.

(** The loop of [_build_indexes]: the indexes built so far, and whether a
    pass raised; the indexes keep what the passes before it did, and the
    brand entry of the failing pass when the price raised. *)
Fixpoint index_items (items : catalog) (di pi : PyDict.dict (list string))
    : PyDict.dict (list string) * PyDict.dict (list string) * res unit :=
  match items with
  | [] => (di, pi, Ok tt)
  | (device_name, d) :: rest =>
      match brand_of device_name with
      | Raise e => (di, pi, Raise e)
      | Ok brand =>
          let di' := index_append di brand device_name in
          let price := price_of d in
          if truthy price then
            match price_range_of price with
            | Raise e => (di', pi, Raise e)
            | Ok range => index_items rest di' (index_append pi range device_name)
            end
          else index_items rest di' pi
      end
  end.

Definition _build_indexes (c : cache) : cache * res unit :=
  let '(di, pi, r) := index_items (devices c) [] [] in
  (with_indexes c di pi, r).

(** [load_devices(devices_data)]; [now] is what the clock reads. *)
Definition load_devices (c : cache) (devices_data : catalog) (now : Z) : cache * res unit :=
  let c1 := {| devices := devices_data; device_index := device_index c;
               price_index := price_index c; search_cache := search_cache c;
               max_cache_size := max_cache_size c; last_modified := last_modified c |} in
  match _build_indexes c1 with
  | (c2, Raise e) => (c2, Raise e)
  | (c2, Ok _) =>
      ({| devices := devices c2; device_index := device_index c2;
          price_index := price_index c2; search_cache := [];
          max_cache_size := max_cache_size c2; last_modified := Some now |}, Ok tt)
  end.

Definition get_device (c : cache) (device_name : string) : option device_data :=
  PyDict.get (devices c) device_name.

(** [l[:limit]]: a negative limit counts from the end. *)
Definition slice_to {A : Type} (l : list A) (limit : Z) : list A :=
  if limit <? 0 then firstn (Z.to_nat (Z.of_nat (List.length l) + limit)) l
  else firstn (Z.to_nat limit) l.

(** The search loop: matches are appended until there are [limit] of them. *)
Fixpoint search_loop (query_lower : string) (limit : Z) (names : list string)
    (results : list string) : list string :=
  match names with
  | [] => results
  | device_name :: rest =>
      if PyStr.contains query_lower (PyStr.lower device_name) then
        let results' := (results ++ [device_name])%list in
        if Z.of_nat (List.length results') >=? limit then results'
        else search_loop query_lower limit rest results'
      else search_loop query_lower limit rest results
  end.

(** [f"{query.lower()}:{limit}"]. *)
Definition cache_key (query : string) (limit : Z) : string :=
  PyStr.lower query ++ ":" ++ PyStr.of_Z limit.

(** [OrderedDict.move_to_end(key)] for a key that is present. *)
Definition move_to_end {V : Type} (d : PyDict.dict V) (key : string) : PyDict.dict V :=
  match PyDict.get d key with
  | Some v => (PyDict.remove d key ++ [(key, v)])%list
  | None => d
  end.

(** [OrderedDict.popitem(last=False)]. *)
Definition popitem_first {V : Type} (d : PyDict.dict V) : res (PyDict.dict V) :=
  match d with
  | [] => Raise KeyError
  | _ :: rest => Ok rest
  end.

Definition search_devices (c : cache) (query : string) (limit : Z)
    : cache * res (list string) :=
  if negb (PyStr.truthy query) then (c, Ok (slice_to (PyDict.keys (devices c)) limit))
  else
    let key := cache_key query limit in
    match PyDict.get (search_cache c) key with
    | Some cached => (with_search_cache c (move_to_end (search_cache c) key), Ok cached)
    | None =>
        let query_lower := PyStr.lower query in
        let results := search_loop query_lower limit (PyDict.keys (devices c)) [] in
        if Z.of_nat (List.length (search_cache c)) >=? max_cache_size c then
          match popitem_first (search_cache c) with
          | Raise e => (c, Raise e)
          | Ok sc => (with_search_cache c (PyDict.set sc key results), Ok results)
          end
        else (with_search_cache c (PyDict.set (search_cache c) key results), Ok results)
    end.

End OptimizedDeviceCache.

(** ** Tabular data as pandas reads it *)

Module Frame.
Import PyFloat.

(** A cell of a data frame: a string or a number; the missing value is the
    NaN. *)
Inductive cell : Type :=
| CStr (s : string)
| CNum (x : float).

(** A frame: the column labels and the rows, a cell per column. *)
Record data_frame : Type := {
  columns : list string;
  rows : list (list cell)
}.

(** [pd.isna(v)]. *)
Definition isna (v : cell) : bool :=
  match v with
  | CNum S754_nan => true
  | _ => false
  end.

(** [row[col]]: the cell under the first column of that label; a row that
    is too short reads as missing there. *)
Fixpoint cell_at (cols : list string) (row : list cell) (col : string) : cell :=
  match cols with
  | [] => CNum S754_nan
  | c :: cs =>
      if String.eqb c col then
        match row with
        | v :: _ => v
        | [] => CNum S754_nan
        end
      else cell_at cs (List.tl row) col
  end.

(** [col in row]. *)
Definition has_column (cols : list string) (col : string) : bool :=
  existsb (String.eqb col) cols.

(** [df[col].dropna().head(n)]. *)
Definition sample (df : data_frame) (col : string) (n : nat) : list cell :=
  firstn n (filter (fun v => negb (isna v))
                   (map (fun row => cell_at (columns df) row col) (rows df))).

Fixpoint select {A : Type} (flags : list bool) (l : list A) : list A :=
  match flags, l with
  | true :: fs, x :: r => x :: select fs r
  | false :: fs, _ :: r => select fs r
  | _, _ => []
  end.

Fixpoint column_flags (n : nat) (width : nat) (rs : list (list cell)) : list bool :=
  match width with
  | O => []
  | S w =>
      existsb (fun row => match nth_error row n with
                          | Some v => negb (isna v)
                          | None => false
                          end) rs
      :: column_flags (S n) w rs
  end.

(** [df.dropna(axis=1, how='all')]: the columns with no value at all go. *)
Definition dropna_columns (df : data_frame) : data_frame :=
  let flags := column_flags 0 (List.length (columns df)) (rows df) in
  {| columns := select flags (columns df);
     rows := map (select flags) (rows df) |}.

End Frame.

(** ** WebSalesTaxCalculator *)

Module WebSalesTaxCalculator.
Import PyFloat Frame.

Section Calculator.

(** [str(x)] of a float, the interpreter's shortest representation that
    reads back as [x]. *)
Variable float_repr : float -> string.

(** *** Column detection of [process_price_sheet] *)

Record roles : Type := {
  phone_col : option string;
  msrp_col : option string;
  prepaid_col : option string
}.

(** [not col]. *)
Definition unresolved (c : option string) : bool :=
  negb (StreamingCSVProcessor.col_truthy c).


(** First tier: columns B, E and I by position. *)
Definition positional_guess (columns_list : list string) : roles :=
  {| phone_col := StreamingCSVProcessor.item_or_none columns_list 1;
     msrp_col := StreamingCSVProcessor.item_or_none columns_list 4;
     prepaid_col := StreamingCSVProcessor.item_or_none columns_list 8 |}.

(** The loop looking for the column named [Phone]. *)
Fixpoint exact_phone (cols : list string) (phone : option string) : option string :=
  match cols with
  | [] => phone
  | col :: rest =>
      let col_str := PyStr.strip col in
      let col_lower := PyStr.lower col_str in
      exact_phone rest
        (if (String.eqb col_str "Phone" || String.eqb col_lower "phone") && unresolved phone
         then Some col else phone)
  end.

(** The loop looking for [RIC Purchase Payment] and [Suggested Prepaid]. *)
Fixpoint exact_prices (cols : list string) (msrp prepaid : option string)
    : option string * option string :=
  match cols with
  | [] => (msrp, prepaid)
  | col :: rest =>
      let col_str := PyStr.strip col in
      let col_lower := PyStr.lower col_str in
      let msrp' :=
        if (PyStr.contains "ric purchase payment" col_lower
            || String.eqb col_str "RIC Purchase Payment") && unresolved msrp
        then Some col else msrp in
      let prepaid' :=
        if (PyStr.contains "suggested prepaid" col_lower
            || PyStr.contains "prepaid" col_lower) && unresolved prepaid
        then Some col else prepaid in
      exact_prices rest msrp' prepaid'
  end.

Definition phone_name_keywords : list string :=
  ["phone"; "device"; "product"; "model"; "equipment"; "item"; "name"].
Definition exclude_keywords : list string := ["sap"; "code"; "id"; "number"; "sku"; "#"].
Definition price_keywords : list string :=
  ["msrp"; "price"; "cost"; "payment"; "amount"; "value"; "retail"].

Definition has_keyword (keywords : list string) (s : string) : bool :=
  existsb (fun keyword => PyStr.contains keyword s) keywords.

Fixpoint keyword_phone (cols : list string) : option string :=
  match cols with
  | [] => None
  | col :: rest =>
      let col_lower := PyStr.strip (PyStr.lower col) in
      if has_keyword phone_name_keywords col_lower && negb (has_keyword exclude_keywords col_lower)
      then Some col else keyword_phone rest
  end.

Fixpoint keyword_msrp (cols : list string) : option string :=
  match cols with
  | [] => None
  | col :: rest =>
      let col_lower := PyStr.strip (PyStr.lower col) in
      if has_keyword price_keywords col_lower then Some col else keyword_msrp rest
  end.

Definition or_keep (found current : option string) : option string :=
  match found with Some c => Some c | None => current end.

(** Second tier: matching on the names, entered when a role is open; every
    assignment in it is guarded by the role being open. *)
Definition name_tier (cols : list string) (r : roles) : roles :=
  if unresolved (phone_col r) || unresolved (msrp_col r) || unresolved (prepaid_col r) then
    let phone1 := exact_phone cols (phone_col r) in
    let '(msrp1, prepaid1) := exact_prices cols (msrp_col r) (prepaid_col r) in
    let phone2 := if unresolved phone1 then or_keep (keyword_phone cols) phone1 else phone1 in
    let msrp2 := if unresolved msrp1 then or_keep (keyword_msrp cols) msrp1 else msrp1 in
    {| phone_col := phone2; msrp_col := msrp2; prepaid_col := prepaid1 |}
  else r.

(** [float(v)] for a cell. *)
Definition cell_float (v : cell) : res float :=
  match v with
  | CStr s => py_float s
  | CNum x => Ok x
  end.

(** A string cell without currency sign and separators, stripped. *)
Definition clean_cell (v : cell) : cell :=
  match v with
  | CStr s => CStr (PyStr.strip (PyStr.remove_char "," (PyStr.remove_char "$" s)))
  | CNum _ => v
  end.

(** The body counting a sample as a price: it reads as a number above
    zero; a value that does not read as a number raises and is passed
    over. *)
Definition counts_as_price (v : cell) : bool :=
  match try_except (float_val <- cell_float (clean_cell v) ;; Ok (gtb float_val (of_int 0)))
          (fun e => match e with ValueError | TypeError => true | _ => false end)
          (Ok false) with
  | Ok b => b
  | Raise _ => false
  end.

Definition count {A : Type} (p : A -> bool) (l : list A) : Z :=
  Z.of_nat (List.length (filter p l)).

(** [str(v)] for a cell. *)
Definition cell_str (v : cell) : string :=
  match v with
  | CStr s => s
  | CNum x => float_repr x
  end.

Definition counts_as_text (v : cell) : bool :=
  match v with
  | CStr s => 3 <? PyStr.len (PyStr.strip s)
  | CNum _ => false
  end.

(** [n >= len(sample_values) * share]. *)
Definition reaches (n : Z) (sample_values : list cell) (share : float) : bool :=
  geb (of_int n) (mul (of_int (Z.of_nat (List.length sample_values))) share).

Definition share_70 : float := of_decimal false 7 (-1).
Definition share_60 : float := of_decimal false 6 (-1).

(** Third tier: the content of the columns. *)
Fixpoint content_loop (df : data_frame) (cols : list string) (phone msrp : option string)
    : option string * option string :=
  match cols with
  | [] => (phone, msrp)
  | col :: rest =>
      if PyStr.startswith "Unnamed" col then content_loop df rest phone msrp
      else
        let sample_values := sample df col 10 in
        match sample_values with
        | [] => content_loop df rest phone msrp
        | _ =>
            let phone' :=
              if unresolved phone then
                if reaches (count counts_as_text sample_values) sample_values share_70
                then Some col else phone
              else phone in
            let msrp' :=
              if unresolved msrp then
                if reaches (count counts_as_price sample_values) sample_values share_70
                then Some col else msrp
              else msrp in
            content_loop df rest phone' msrp'
        end
  end.

Definition content_tier (df : data_frame) (r : roles) : roles :=
  if unresolved (phone_col r) || unresolved (msrp_col r) then
    let '(phone, msrp) := content_loop df (columns df) (phone_col r) (msrp_col r) in
    {| phone_col := phone; msrp_col := msrp; prepaid_col := prepaid_col r |}
  else r.

(** A value that looks like a device name: longer than a code, with a
    letter, and not a number. *)
Definition looks_like_name (v : cell) : bool :=
  let val_str := PyStr.strip (cell_str v) in
  (5 <? PyStr.len val_str)
  && PyStr.any_char PyStr.isalpha val_str
  && negb (PyStr.str_isdigit val_str)
  && negb (PyStr.str_isdigit (PyStr.remove_char "-" (PyStr.remove_char "." val_str))).

Fixpoint text_loop (df : data_frame) (cols : list string) : option string :=
  match cols with
  | [] => None
  | col :: rest =>
      if has_keyword exclude_keywords (PyStr.lower col) then text_loop df rest
      else
        let sample_values := sample df col 10 in
        if reaches (count looks_like_name sample_values) sample_values share_70
        then Some col else text_loop df rest
  end.

(** Fourth tier, for the device name only. *)
Definition text_tier (df : data_frame) (r : roles) : roles :=
  if unresolved (phone_col r) then
    {| phone_col := or_keep (text_loop df (columns df)) (phone_col r);
       msrp_col := msrp_col r; prepaid_col := prepaid_col r |}
  else r.

Fixpoint unnamed_numeric (df : data_frame) (cols : list string) : option string :=
  match cols with
  | [] => None
  | col :: rest =>
      if PyStr.startswith "Unnamed" col then
        let sample_values := sample df col 5 in
        if reaches (count counts_as_price sample_values) sample_values share_60
        then Some col else unnamed_numeric df rest
      else unnamed_numeric df rest
  end.

(** Last tier: the named columns that are not codes, in order. *)
Definition fallback_tier (df : data_frame) (r : roles) : roles :=
  if unresolved (phone_col r) || unresolved (msrp_col r) then
    let non_unnamed_cols :=
      filter (fun col => negb (PyStr.startswith "Unnamed" col)
                         && negb (has_keyword exclude_keywords (PyStr.lower col)))
             (columns df) in
    match non_unnamed_cols with
    | [] => r
    | first :: others =>
        let phone := if unresolved (phone_col r) then Some first else phone_col r in
        let msrp1 :=
          if unresolved (msrp_col r) then
            match others with
            | second :: _ => Some second
            | [] => msrp_col r
            end
          else msrp_col r in
        let msrp2 :=
          if unresolved msrp1 then or_keep (unnamed_numeric df (columns df)) msrp1
          else msrp1 in
        {| phone_col := phone; msrp_col := msrp2; prepaid_col := prepaid_col r |}
    end
  else r.

(** The detection of [process_price_sheet], all tiers in the order of the
    code. *)
Definition detect_columns (df : data_frame) : roles :=
  fallback_tier df
    (text_tier df
       (content_tier df
          (name_tier (columns df) (positional_guess (columns df))))).

(** *** The loop over the rows of a frame *)

Definition placeholder_names : list string := ["nan"; ""; "null"; "none"].

(** The prepaid price of a row, when the column is there and its cell
    reads as a number above zero. *)
Definition frame_prepaid (cols : list string) (prepaid : option string) (row : list cell)
    : option float :=
  match prepaid with
  | Some pc =>
      if PyStr.truthy pc && has_column cols pc then
        let prepaid_value := cell_at cols row pc in
        if isna prepaid_value then None
        else
          match try_except
                  (match clean_cell prepaid_value with
                   | CStr EmptyString => Ok None
                   | v =>
                       prepaid_float <- cell_float v ;;
                       Ok (if gtb prepaid_float (of_int 0) then Some prepaid_float else None)
                   end)
                  (fun e => match e with ValueError | TypeError => true | _ => false end)
                  (Ok None) with
          | Ok r => r
          | Raise _ => None
          end
      else None
  | None => None
  end.

(** The [try] block of one row: [None] when the row is skipped, or the
    name and the record to store. *)
Definition frame_row_outcome (cols : list string) (phone msrp : string)
    (prepaid : option string) (row : list cell) : res (option (string * device_data)) :=
  let phone_name := PyStr.strip (cell_str (cell_at cols row phone)) in
  let msrp_value := cell_at cols row msrp in
  if existsb (String.eqb (PyStr.lower phone_name)) placeholder_names
     || (PyStr.len phone_name <? 2) then Ok None
  else if isna msrp_value then Ok None
  else
    let msrp_clean := clean_cell msrp_value in
    match msrp_clean with
    | CStr EmptyString => Ok None
    | _ =>
        msrp_float <- cell_float msrp_clean ;;
        if gtb msrp_float (of_int 0) then
          Ok (Some (phone_name, PriceRecord (Some msrp_float) (frame_prepaid cols prepaid row)))
        else Ok None
    end.

(** One row; [except (ValueError, TypeError)] counts a skip, another
    exception leaves the loop. *)
Definition process_frame_row (cols : list string) (phone msrp : string)
    (prepaid : option string) (st : StreamingCSVProcessor.ingest_state) (row : list cell)
    : res StreamingCSVProcessor.ingest_state :=
  match frame_row_outcome cols phone msrp prepaid row with
  | Ok (Some (phone_name, d)) => Ok (StreamingCSVProcessor.emit st phone_name d)
  | Ok None => Ok (StreamingCSVProcessor.skip st)
  | Raise (ValueError | TypeError) => Ok (StreamingCSVProcessor.skip st)
  | Raise e => Raise e
  end.

Fixpoint process_frame_rows (cols : list string) (phone msrp : string)
    (prepaid : option string) (rs : list (list cell))
    (st : StreamingCSVProcessor.ingest_state) : res StreamingCSVProcessor.ingest_state :=
  match rs with
  | [] => Ok st
  | row :: rest =>
      st' <- process_frame_row cols phone msrp prepaid st row ;;
      process_frame_rows cols phone msrp prepaid rest st'
  end.

(** *** The calculator and the files it owns *)

(** What a file holds: what was last written in full, or the remains of a
    write that failed under way. *)
Inductive file_content (A : Type) : Type :=
| Intact (a : A)
| Damaged.
#[global] Arguments Intact {A} a.
#[global] Arguments Damaged {A}.

(** How a write to a file ends: done, refused at opening (the file is as
    before), or failed after the file was opened for writing. *)
Inductive write_outcome : Type :=
| Written
| OpenFailed
| WriteFailed.

Definition write_file {A : Type} (o : write_outcome) (old : option (file_content A)) (a : A)
    : option (file_content A) * bool :=
  match o with
  | Written => (Some (Intact a), true)
  | OpenFailed => (old, false)
  | WriteFailed => (Some Damaged, false)
  end.

(** A time stamp of the Last-Update Record: a string in ISO format, held
    as the time it denotes in microseconds, or another string. *)
Inductive stamp : Type :=
| IsoTime (t : Z)
| NotIso (s : string).

(** The Last-Update Record, [last_update.json]; every key may be absent. *)
Record update_info : Type := {
  last_check : option stamp;
  last_update : option stamp;
  size : option string;
  devices_count : option Z;
  devices_processed : option Z;
  devices_skipped : option Z
}.

Definition no_info : update_info :=
  {| last_check := None; last_update := None; size := None;
     devices_count := None; devices_processed := None; devices_skipped := None |}.

Record state : Type := {
  device_cache : OptimizedDeviceCache.cache;
  devices : catalog;
  google_sheets_loaded : bool;
  devices_file : option (file_content catalog);
  cache_file : option (file_content string);
  last_update_file : option (file_content update_info)
}.

(** The folder of the files. *)
Variable docs_folder : string.

Definition cache_file_path : string := docs_folder ++ "/" ++ "latest_prices_cache.csv".

(** What the libraries and the system answer during one call of
    [process_price_sheet]. *)
Record sheet_env : Type := {
  csv_read : StreamingCSVProcessor.csv_file;
  read_csv : res data_frame;
  read_excel : res data_frame;
  devices_write : write_outcome;
  now_reload : Z
}.

Definition save_devices (env : sheet_env) (st : state) : state * bool :=
  match write_file (devices_write env) (devices_file st) (devices st) with
  | (file', true) =>
      let '(c, r) := OptimizedDeviceCache.load_devices (device_cache st) (devices st)
                       (now_reload env) in
      ({| device_cache := c; devices := devices st;
          google_sheets_loaded := google_sheets_loaded st;
          devices_file := file'; cache_file := cache_file st;
          last_update_file := last_update_file st |}, is_ok r)
  | (file', false) =>
      ({| device_cache := device_cache st; devices := devices st;
          google_sheets_loaded := google_sheets_loaded st;
          devices_file := file'; cache_file := cache_file st;
          last_update_file := last_update_file st |}, false)
  end.

Inductive sheet_result : Type :=
| SheetOk (devices_added : Z) (phone_column msrp_column : string)
    (processed_count skipped_count : option Z)
| SheetFail.

Definition sheet_success (r : sheet_result) : bool :=
  match r with SheetOk _ _ _ _ _ => true | SheetFail => false end.

(** [self.devices.update(new_devices)] followed by [self.save_devices()],
    whose result is not looked at. *)
Definition merge_and_save (env : sheet_env) (st : state) (new_devices : catalog) : state :=
  fst (save_devices env
         {| device_cache := device_cache st;
            devices := PyDict.update (devices st) new_devices;
            google_sheets_loaded := google_sheets_loaded st;
            devices_file := devices_file st; cache_file := cache_file st;
            last_update_file := last_update_file st |}).

(** The part of [process_price_sheet] that works on a frame. *)
Definition process_frame (env : sheet_env) (st : state) (read : res data_frame)
    : state * sheet_result :=
  match read with
  | Raise _ => (st, SheetFail)
  | Ok df0 =>
      let df := dropna_columns df0 in
      let r := detect_columns df in
      match phone_col r, msrp_col r with
      | Some phone, Some msrp =>
          if negb (PyStr.truthy phone) || negb (PyStr.truthy msrp) then (st, SheetFail)
          else
            match process_frame_rows (columns df) phone msrp (prepaid_col r) (rows df)
                    StreamingCSVProcessor.initial with
            | Raise _ => (st, SheetFail)
            | Ok ist =>
                match StreamingCSVProcessor.devices ist with
                | [] => (st, SheetFail)
                | new_devices =>
                    (merge_and_save env st new_devices,
                     SheetOk (Z.of_nat (List.length new_devices)) phone msrp
                       (Some (StreamingCSVProcessor.processed_count ist))
                       (Some (StreamingCSVProcessor.skipped_count ist)))
                end
            end
      | _, _ => (st, SheetFail)
      end
  end.

Definition process_price_sheet (file_path : string) (env : sheet_env) (st : state)
    : state * sheet_result :=
  if PyStr.endswith ".csv" file_path then
    match StreamingCSVProcessor.process_csv_stream (csv_read env) with
    | StreamingCSVProcessor.StreamOk new_devices _ _ phone msrp _ =>
        (merge_and_save env st new_devices,
         SheetOk (Z.of_nat (List.length new_devices)) phone msrp None None)
    | _ => process_frame env st (read_csv env)
    end
  else if PyStr.endswith ".xlsx" file_path || PyStr.endswith ".xls" file_path then
    process_frame env st (read_excel env)
  else (st, SheetFail).

(** *** Refresh from the remote sheet *)

Record http_response : Type := {
  status_code : Z;
  content_length : option string;
  content : string
}.

(** What the network, the clock and the system answer during one call of
    [download_and_process_google_sheets]. *)
Record refresh_env : Type := {
  get_response : res http_response;
  cache_write : write_outcome;
  sheet : sheet_env;
  now_last_check : Z;
  now_last_update : Z;
  info_write : write_outcome
}.

Definition set_cache_file (st : state) (f : option (file_content string)) : state :=
  {| device_cache := device_cache st; devices := devices st;
     google_sheets_loaded := google_sheets_loaded st;
     devices_file := devices_file st; cache_file := f;
     last_update_file := last_update_file st |}.

Definition save_last_update_info (o : write_outcome) (info : update_info) (st : state) : state :=
  {| device_cache := device_cache st; devices := devices st;
     google_sheets_loaded := google_sheets_loaded st;
     devices_file := devices_file st; cache_file := cache_file st;
     last_update_file := fst (write_file o (last_update_file st) info) |}.

Definition load_last_update_info (st : state) : update_info :=
  match last_update_file st with
  | Some (Intact info) => info
  | _ => no_info
  end.

Definition or_zero (n : option Z) : Z :=
  match n with Some v => v | None => 0 end.

Definition download_and_process_google_sheets (env : refresh_env) (st : state) : state * bool :=
  match get_response env with
  | Raise _ => (st, false)
  | Ok response =>
      if negb (status_code response =? 200) then (st, false)
      else
        match write_file (cache_write env) (cache_file st) (content response) with
        | (file', false) => (set_cache_file st file', false)
        | (file', true) =>
            let '(st2, result) :=
              process_price_sheet cache_file_path (sheet env) (set_cache_file st file') in
            match result with
            | SheetOk _ _ _ processed skipped =>
                let update_info :=
                  {| last_check := Some (IsoTime (now_last_check env));
                     last_update := Some (IsoTime (now_last_update env));
                     size := Some (PyStr.of_Z (PyStr.len (content response)));
                     devices_count := Some (Z.of_nat (List.length (devices st2)));
                     devices_processed := Some (or_zero processed);
                     devices_skipped := Some (or_zero skipped) |} in
                (save_last_update_info (info_write env) update_info st2, true)
            | SheetFail => (st2, false)
            end
        end
  end.

(** *** The staleness decision *)

Definition opt_truthy (s : option string) : bool :=
  match s with Some v => PyStr.truthy v | None => false end.

Definition stamp_truthy (s : option stamp) : bool :=
  match s with
  | Some (IsoTime _) => true
  | Some (NotIso v) => PyStr.truthy v
  | None => false
  end.

(** [datetime.fromisoformat]. *)
Definition fromisoformat (s : option stamp) : res Z :=
  match s with
  | Some (IsoTime t) => Ok t
  | Some (NotIso _) => Raise ValueError
  | None => Raise TypeError
  end.

(** [a != b] of a recorded size and the remote one. *)
Definition size_differs (recorded : option string) (remote : string) : bool :=
  match recorded with
  | Some v => negb (String.eqb v remote)
  | None => true
  end.

Definition hour_us : Z := 3600 * 1000000.

(** The value of [should_update] when the chain of conditions is left;
    times are in microseconds. *)
Definition should_update (cache_exists : bool) (remote_size : option string)
    (last_update_info : update_info) (now : Z) : res bool :=
  if negb cache_exists then Ok true
  else if opt_truthy remote_size
          && size_differs (size last_update_info)
                          (match remote_size with Some v => v | None => "" end)
  then Ok true
  else if negb (stamp_truthy (last_check last_update_info)) then Ok true
  else
    last_check_t <- fromisoformat (last_check last_update_info) ;;
    Ok (hour_us <? now - last_check_t).

Record check_env : Type := {
  head_response : res http_response;
  now_check : Z;
  refresh : refresh_env
}.

Definition cache_exists (st : state) : bool :=
  match cache_file st with Some _ => true | None => false end.

Definition check_and_update_from_google_sheets (env : check_env) (st : state) : state * bool :=
  match head_response env with
  | Raise _ => (st, false)
  | Ok response =>
      if negb (status_code response =? 200) then (st, false)
      else
        let remote_size := content_length response in
        let last_update_info := load_last_update_info st in
        match should_update (cache_exists st) remote_size last_update_info (now_check env) with
        | Raise _ => (st, false)
        | Ok true => download_and_process_google_sheets (refresh env) st
        | Ok false => (st, true)
        end
  end.

End Calculator.
End WebSalesTaxCalculator.

(** ** The skip rule of the specification, in its words

    A record of a delimited file is skipped when its device name is empty
    or its primary price parses to a value that is at most 0. *)

Module SkipRule.
Import StreamingCSVProcessor.

(** The device name of a record: the stripped text under the name
    column. *)
Definition device_name (fieldnames : list string) (phone_col : string) (row : list string)
    : string :=
  PyStr.strip (row_get_str fieldnames row phone_col).

(** What the primary price of a record parses to. *)
Definition primary_price (fieldnames : list string) (msrp_col : string) (row : list string)
    : PyFloat.float :=
  match _parse_price (PyStr.strip (row_get_str fieldnames row msrp_col)) with
  | Ok x => x
  | Raise _ => PyFloat.zero
  end.

Definition skipped (fieldnames : list string) (phone_col msrp_col : string)
    (row : list string) : bool :=
  String.eqb (device_name fieldnames phone_col row) ""
  || PyFloat.leb (primary_price fieldnames msrp_col row) (PyFloat.of_int 0).



End SkipRule.

(** ** Histories of searches

    The order of use against which the search cache is read: the keys of a
    sequence of searches, and the distinct keys among them in the order of
    their last use. *)

Module Recency.

Definition remove_key (k : string) (l : list string) : list string :=
  filter (fun x => negb (String.eqb x k)) l.

(** The keys of [acc] and of the uses [h], each once, least recently used
    first. *)
Fixpoint recency (acc h : list string) : list string :=
  match h with
  | [] => acc
  | k :: r => recency (remove_key k acc ++ [k])%list r
  end.

(** The cache keys that a sequence of searches uses: the searches with an
    empty query use none. *)
Definition used_keys (calls : list (string * Z)) : list string :=
  map (fun call => OptimizedDeviceCache.cache_key (fst call) (snd call))
      (filter (fun call => PyStr.truthy (fst call)) calls).

(** The cache after a sequence of searches. *)
Fixpoint run (c : OptimizedDeviceCache.cache) (calls : list (string * Z))
    : OptimizedDeviceCache.cache :=
  match calls with
  | [] => c
  | call :: rest => run (fst (OptimizedDeviceCache.search_devices c (fst call) (snd call))) rest
  end.

End Recency.

(** ** Catalogs that the device cache can index *)

Module Indexable.

(** The key is empty or has a character that is not white space. *)
Definition key (k : string) : bool :=
  negb (PyStr.truthy k) || PyStr.any_char (fun c => negb (PyStr.isspace c)) k.

(** The price is zero or absent, or its range label can be computed. *)
Definition price (d : device_data) : bool :=
  negb (PyFloat.truthy (OptimizedDeviceCache.price_of d))
  || is_ok (OptimizedDeviceCache.price_range_of (OptimizedDeviceCache.price_of d)).

Definition entry (kv : string * device_data) : bool := key (fst kv) && price (snd kv).

(** The price is absent, zero, or finite and below [2 ^ 1000] in
    magnitude. *)
Definition moderate_price (d : device_data) : Prop :=
  PyFloat.below_pow2 1000 (OptimizedDeviceCache.price_of d).

End Indexable.

(** ** The fragment of an ingestion

    What the readers of a sheet hand over to the merge: the devices of the
    streaming result, or the devices that the loop over the rows of the
    frame has gathered. *)

Module Ingested.
Import WebSalesTaxCalculator.

(** The frame was read, its columns of names and prices were found, and
    the loop over its rows ended with [fragment]. *)
Definition by_frame (float_repr : PyFloat.float -> string) (read : res Frame.data_frame)
    (fragment : catalog) : Prop :=
  exists df0 phone msrp ist,
    read = Ok df0 /\
    let df := Frame.dropna_columns df0 in
    let r := detect_columns float_repr df in
    phone_col r = Some phone /\ msrp_col r = Some msrp /\
    process_frame_rows float_repr (Frame.columns df) phone msrp (prepaid_col r)
      (Frame.rows df) StreamingCSVProcessor.initial = Ok ist /\
    fragment = StreamingCSVProcessor.devices ist.

(** [fragment] is what [process_price_sheet] ingests from the file: by the
    streaming reader when the path ends in [.csv] and that reader
    succeeds, by the frame read from the delimited file when it does not,
    and by the frame read from the workbook for the two other suffixes. *)
Definition from_file (float_repr : PyFloat.float -> string) (file_path : string)
    (env : sheet_env) (fragment : catalog) : Prop :=
  if PyStr.endswith ".csv" file_path then
    match StreamingCSVProcessor.process_csv_stream (csv_read env) with
    | StreamingCSVProcessor.StreamOk new_devices _ _ _ _ _ => fragment = new_devices
    | _ => by_frame float_repr (read_csv env) fragment
    end
  else if PyStr.endswith ".xlsx" file_path || PyStr.endswith ".xls" file_path then
    by_frame float_repr (read_excel env) fragment
  else False.

End Ingested.

(** ** Concrete inputs used in the examples *)

Module Examples.
Import PyFloat.

(** The amounts [1.0] and [11.0] and the rate [6.5], the rate of three
    states in the table. *)
Definition one_dollar : float := of_int 1.
Definition eleven_dollars : float := of_int 11.
Definition rate_6_5 : float := of_decimal false 65 (-1).

(** [0.07], [1.06] and [1.07]; [0.71] and [0.72]. *)
Definition cents_7 : float := of_decimal false 7 (-2).
Definition dollars_1_06 : float := of_decimal false 106 (-2).
Definition dollars_1_07 : float := of_decimal false 107 (-2).
Definition cents_71 : float := of_decimal false 71 (-2).
Definition cents_72 : float := of_decimal false 72 (-2).

(** A table of three rows: the second without device name, the third with
    the price -5. *)
Definition three_rows : StreamingCSVProcessor.csv_file :=
  {| StreamingCSVProcessor.header := Ok (Some ["Phone"; "MSRP"]);
     StreamingCSVProcessor.records :=
       [StreamingCSVProcessor.Record_ ["iPhone 15"; "799.99"];
        StreamingCSVProcessor.Record_ [""; "500"];
        StreamingCSVProcessor.Record_ ["Pixel 8"; "-5"]] |}.

Definition price_799_99 : float := of_decimal false 79999 (-2).
Definition price_899_99 : float := of_decimal false 89999 (-2).
Definition price_500 : float := of_int 500.

(** A delimited file whose only record has the price [nan]. *)
Definition nan_price_file : StreamingCSVProcessor.csv_file :=
  {| StreamingCSVProcessor.header := Ok (Some ["Phone"; "MSRP"]);
     StreamingCSVProcessor.records :=
       [StreamingCSVProcessor.Record_ ["Galaxy S25"; "nan"]] |}.

(** A catalog with one device that has a prepaid price, and a delimited
    file that lists the same device with another price and no prepaid
    price. *)
Definition old_catalog : catalog :=
  [("Galaxy S25", PriceRecord (Some price_799_99) (Some price_500));
   ("Pixel 8", PriceRecord (Some price_500) None)].

Definition new_price_file : StreamingCSVProcessor.csv_file :=
  {| StreamingCSVProcessor.header := Ok (Some ["Phone"; "MSRP"]);
     StreamingCSVProcessor.records :=
       [StreamingCSVProcessor.Record_ ["Galaxy S25"; "899.99"];
        StreamingCSVProcessor.Record_ ["iPhone 15"; "799.99"]] |}.

(** [str] of a float is not looked at in the examples. *)
Definition no_repr (x : float) : string := "".

Definition upload_env (file : StreamingCSVProcessor.csv_file)
    : WebSalesTaxCalculator.sheet_env :=
  {| WebSalesTaxCalculator.csv_read := file;
     WebSalesTaxCalculator.read_csv := Raise ValueError;
     WebSalesTaxCalculator.read_excel := Raise ValueError;
     WebSalesTaxCalculator.devices_write := WebSalesTaxCalculator.Written;
     WebSalesTaxCalculator.now_reload := 0 |}.

(** The calculator holding [old_catalog], saved, next to a cache copy of
    an earlier download and its Last-Update Record. *)
Definition old_info : WebSalesTaxCalculator.update_info :=
  {| WebSalesTaxCalculator.last_check := Some (WebSalesTaxCalculator.IsoTime 0);
     WebSalesTaxCalculator.last_update := Some (WebSalesTaxCalculator.IsoTime 0);
     WebSalesTaxCalculator.size := Some "40";
     WebSalesTaxCalculator.devices_count := Some 2;
     WebSalesTaxCalculator.devices_processed := Some 2;
     WebSalesTaxCalculator.devices_skipped := Some 0 |}.

Definition old_state : WebSalesTaxCalculator.state :=
  {| WebSalesTaxCalculator.device_cache :=
       fst (OptimizedDeviceCache.load_devices (OptimizedDeviceCache.new 2000) old_catalog 0);
     WebSalesTaxCalculator.devices := old_catalog;
     WebSalesTaxCalculator.google_sheets_loaded := true;
     WebSalesTaxCalculator.devices_file := Some (WebSalesTaxCalculator.Intact old_catalog);
     WebSalesTaxCalculator.cache_file :=
       Some (WebSalesTaxCalculator.Intact "Phone,MSRP
Galaxy S25,799.99
Pixel 8,500
");
     WebSalesTaxCalculator.last_update_file := Some (WebSalesTaxCalculator.Intact old_info) |}.

(** A download that answers 200 with an empty body: [csv] cannot sniff a
    delimiter in it and [pandas] finds no column to parse. *)
Definition empty_download : WebSalesTaxCalculator.refresh_env :=
  {| WebSalesTaxCalculator.get_response :=
       Ok {| WebSalesTaxCalculator.status_code := 200;
             WebSalesTaxCalculator.content_length := Some "0";
             WebSalesTaxCalculator.content := "" |};
     WebSalesTaxCalculator.cache_write := WebSalesTaxCalculator.Written;
     WebSalesTaxCalculator.sheet :=
       {| WebSalesTaxCalculator.csv_read :=
            {| StreamingCSVProcessor.header := Raise CsvError;
               StreamingCSVProcessor.records := [] |};
          WebSalesTaxCalculator.read_csv := Raise ValueError;
          WebSalesTaxCalculator.read_excel := Raise ValueError;
          WebSalesTaxCalculator.devices_write := WebSalesTaxCalculator.Written;
          WebSalesTaxCalculator.now_reload := 1 |};
     WebSalesTaxCalculator.now_last_check := 1;
     WebSalesTaxCalculator.now_last_update := 1;
     WebSalesTaxCalculator.info_write := WebSalesTaxCalculator.Written |}.

(** A download that is refused. *)
Definition refused_download : WebSalesTaxCalculator.refresh_env :=
  {| WebSalesTaxCalculator.get_response :=
       Ok {| WebSalesTaxCalculator.status_code := 503;
             WebSalesTaxCalculator.content_length := None;
             WebSalesTaxCalculator.content := "" |};
     WebSalesTaxCalculator.cache_write := WebSalesTaxCalculator.Written;
     WebSalesTaxCalculator.sheet := upload_env new_price_file;
     WebSalesTaxCalculator.now_last_check := 1;
     WebSalesTaxCalculator.now_last_update := 1;
     WebSalesTaxCalculator.info_write := WebSalesTaxCalculator.Written |}.

(** A download of a sheet with two devices that is ingested, after which
    the write of the catalog file fails under way. *)
Definition unsaved_download : WebSalesTaxCalculator.refresh_env :=
  {| WebSalesTaxCalculator.get_response :=
       Ok {| WebSalesTaxCalculator.status_code := 200;
             WebSalesTaxCalculator.content_length := Some "46";
             WebSalesTaxCalculator.content := "Phone,MSRP
Galaxy S25,899.99
iPhone 15,799.99
" |};
     WebSalesTaxCalculator.cache_write := WebSalesTaxCalculator.Written;
     WebSalesTaxCalculator.sheet :=
       {| WebSalesTaxCalculator.csv_read := new_price_file;
          WebSalesTaxCalculator.read_csv := Raise ValueError;
          WebSalesTaxCalculator.read_excel := Raise ValueError;
          WebSalesTaxCalculator.devices_write := WebSalesTaxCalculator.WriteFailed;
          WebSalesTaxCalculator.now_reload := 1 |};
     WebSalesTaxCalculator.now_last_check := 1;
     WebSalesTaxCalculator.now_last_update := 1;
     WebSalesTaxCalculator.info_write := WebSalesTaxCalculator.Written |}.

Definition minutes (n : Z) : Z := n * 60 * 1000000.

(** A catalog whose only device has an infinite price, as the ingestion
    of a price cell [inf] stores it. *)
Definition infinite_price_catalog : catalog :=
  [("Galaxy S25", PriceRecord (Some (S754_infinity false)) None)].

(** A catalog with a key of two spaces. *)
Definition blank_key_catalog : catalog :=
  [("  ", PriceRecord (Some price_500) None)].

(** The device cache holding [old_catalog]. *)
Definition loaded_cache : OptimizedDeviceCache.cache :=
  fst (OptimizedDeviceCache.load_devices (OptimizedDeviceCache.new 2000) old_catalog 0).



(** A Last-Update Record with the size ["40"], checked at [t]. *)
Definition checked_at (t : Z) : WebSalesTaxCalculator.update_info :=
  {| WebSalesTaxCalculator.last_check := Some (WebSalesTaxCalculator.IsoTime t);
     WebSalesTaxCalculator.last_update := Some (WebSalesTaxCalculator.IsoTime t);
     WebSalesTaxCalculator.size := Some "40";
     WebSalesTaxCalculator.devices_count := Some 2;
     WebSalesTaxCalculator.devices_processed := Some 2;
     WebSalesTaxCalculator.devices_skipped := Some 0 |}.

End Examples.

(** * Further code of the two files *)

From Stdlib Require Import DecimalPos DecimalZ Permutation.

(** ** tax_data.py: the table of rates *)

Module TaxTable.
Import PyFloat.

(** A rate of the table, written with two decimals: [rate 725] is the
    literal [7.25]. *)
Definition rate (hundredths : Z) : float := of_decimal false hundredths (-2).

Definition STATE_TAX_RATES : PyDict.dict float :=
  [
   ("Alabama", rate 400);
   ("Alaska", rate 0);
   ("Arizona", rate 560);
   ("Arkansas", rate 650);
   ("California", rate 725);
   ("Colorado", rate 290);
   ("Connecticut", rate 635);
   ("Delaware", rate 0);
   ("Florida", rate 600);
   ("Georgia", rate 400);
   ("Hawaii", rate 417);
   ("Idaho", rate 600);
   ("Illinois", rate 625);
   ("Indiana", rate 700);
   ("Iowa", rate 600);
   ("Kansas", rate 650);
   ("Kentucky", rate 600);
   ("Louisiana", rate 445);
   ("Maine", rate 550);
   ("Maryland", rate 600);
   ("Massachusetts", rate 625);
   ("Michigan", rate 600);
   ("Minnesota", rate 688);
   ("Mississippi", rate 700);
   ("Missouri", rate 423);
   ("Montana", rate 0);
   ("Nebraska", rate 550);
   ("Nevada", rate 685);
   ("New Hampshire", rate 0);
   ("New Jersey", rate 663);
   ("New Mexico", rate 513);
   ("New York", rate 400);
   ("North Carolina", rate 475);
   ("North Dakota", rate 500);
   ("Ohio", rate 575);
   ("Oklahoma", rate 450);
   ("Oregon", rate 0);
   ("Pennsylvania", rate 600);
   ("Rhode Island", rate 700);
   ("South Carolina", rate 600);
   ("South Dakota", rate 420);
   ("Tennessee", rate 700);
   ("Texas", rate 625);
   ("Utah", rate 610);
   ("Vermont", rate 600);
   ("Virginia", rate 530);
   ("Washington", rate 650);
   ("West Virginia", rate 600);
   ("Wisconsin", rate 500);
   ("Wyoming", rate 400)
  ].

(** [STATE_TAX_RATES.get(state_name, 0.00)]. *)
Definition get_tax_rate (state_name : string) : float :=
  match PyDict.get STATE_TAX_RATES state_name with
  | Some r => r
  | None => zero
  end.

(** The float is a NaN or has the sign bit [s]. *)
Definition has_sign (s : bool) (x : float) : Prop :=
  match x with
  | S754_nan => True
  | S754_zero s' | S754_infinity s' | S754_finite s' _ _ => s' = s
  end.

(** The float is not below zero: a zero of either sign, a NaN, or a finite
    or infinite float with the sign bit clear. *)
Definition not_negative (x : float) : Prop :=
  match x with
  | S754_zero _ | S754_nan => True
  | S754_infinity s | S754_finite s _ _ => s = false
  end.

End TaxTable.

(** ** OptimizedDeviceCache: the lookup by brand *)

Module DeviceIndex.
Import OptimizedDeviceCache.

(** [self.device_index.get(brand.lower(), [])]. *)
Definition get_devices_by_brand (c : cache) (brand : string) : list string :=
  match PyDict.get (device_index c) (PyStr.lower brand) with
  | Some names => names
  | None => []
  end.

(** The index key of the device name is the lower-cased [brand]. *)
Definition has_brand (brand device_name : string) : bool :=
  match brand_of device_name with
  | Ok b => String.eqb b (PyStr.lower brand)
  | Raise _ => false
  end.

(** The test of the search loop: the lower-cased device name has the
    lower-cased query as a substring. *)
Definition matches (query_lower device_name : string) : bool :=
  PyStr.contains query_lower (PyStr.lower device_name).

(** The character that parts the query from the limit in a key of the
    search cache. *)
Definition is_colon (c : ascii) : bool := Ascii.eqb c ":".

End DeviceIndex.

(** ** WebSalesTaxCalculator: start, lookups and checks *)

Module WebCalculator.
Import PyFloat Frame WebSalesTaxCalculator.

(** *** Loading the catalog at the start *)

(** [load_devices()] of the calculator; [now] is what the clock reads. A
    file that cannot be decoded is caught and gives the empty catalog; what
    the device cache raises while it builds its indexes is not caught. The
    file is one that [save_devices] wrote, in full or in part: a file that
    decodes to something other than a catalog of price records is not a
    value of the type of the file. *)
Definition load_devices (now : Z) (st : state) : state * res unit :=
  let with_catalog (devices_data : catalog) :=
    let '(c, r) := OptimizedDeviceCache.load_devices (device_cache st) devices_data now in
    ({| device_cache := c; devices := devices_data;
        google_sheets_loaded := google_sheets_loaded st;
        devices_file := devices_file st; cache_file := cache_file st;
        last_update_file := last_update_file st |}, r) in
  match devices_file st with
  | Some (Intact devices_data) => with_catalog devices_data
  | Some Damaged => with_catalog []
  | None => with_catalog []
  end.

(** *** Lookups *)

(** [not device_data] for what [get_device] returns: no entry, an empty
    record, or a bare price of zero. *)
Definition falsy (d : option device_data) : bool :=
  match d with
  | None => true
  | Some (PriceRecord None None) => true
  | Some (PriceRecord _ _) => false
  | Some (BarePrice p) => negb (truthy p)
  end.

Definition get_device_list (st : state) : list string :=
  PyDict.keys (OptimizedDeviceCache.devices (device_cache st)).

Definition get_device_price (st : state) (device_name : string) : float :=
  let device_data := OptimizedDeviceCache.get_device (device_cache st) device_name in
  if falsy device_data then zero
  else
    match device_data with
    | Some (PriceRecord (Some msrp) _) => msrp
    | Some (PriceRecord None _) => zero
    | Some (BarePrice p) => p
    | None => zero
    end.

Definition get_device_prepaid_price (st : state) (device_name : string) : option float :=
  let device_data := OptimizedDeviceCache.get_device (device_cache st) device_name in
  if falsy device_data then None
  else
    match device_data with
    | Some (PriceRecord _ prepaid) => prepaid
    | _ => None
    end.

(** The dictionary returned by [get_device_data], as its two keys. *)
Definition get_device_data (st : state) (device_name : string)
    : option float * option float :=
  let device_data := OptimizedDeviceCache.get_device (device_cache st) device_name in
  if falsy device_data then (None, None)
  else
    match device_data with
    | Some (PriceRecord msrp prepaid) => (msrp, prepaid)
    | Some (BarePrice p) => if truthy p then (Some p, None) else (None, None)
    | None => (None, None)
    end.

(** *** Popular devices *)

Definition preferred_devices : list string :=
  ["Apple iPhone 17 - Lavender 256GB";
   "Samsung Galaxy S25 Silver Shadow 128GB";
   "moto g play - 2024";
   "Samsung Galaxy A16 5G"].

Definition display_names : PyDict.dict string :=
  [("Apple iPhone 17 - Lavender 256GB", "iPhone 17");
   ("Samsung Galaxy S25 Silver Shadow 128GB", "Galaxy S25");
   ("moto g play - 2024", "Moto G Play");
   ("Samsung Galaxy A16 5G", "Samsung Galaxy A16");
   ("Apple iPhone 15 Black 128GB", "iPhone 15 128GB");
   ("Samsung Galaxy S24 128GB", "Samsung Galaxy S24 128GB");
   ("Google Pixel 8", "Google Pixel 8");
   ("OnePlus 12", "OnePlus 12")].

Definition _get_display_name (device_name : string) : string :=
  match PyDict.get display_names device_name with
  | Some s => s
  | None => device_name
  end.

Record popular_device : Type := {
  name : string;
  price : float;
  display_name : string
}.

Definition popular_entry (st : state) (device : string) : popular_device :=
  {| name := device;
     price := get_device_price st device;
     display_name := _get_display_name device |}.

(** The loop over the preferred devices. *)
Fixpoint preferred_loop (st : state) (limit : Z) (preferred : list string)
    (popular_devices : list popular_device) : list popular_device :=
  match preferred with
  | [] => popular_devices
  | device :: rest =>
      if negb (falsy (OptimizedDeviceCache.get_device (device_cache st) device))
         && (Z.of_nat (List.length popular_devices) <? limit)
      then preferred_loop st limit rest (popular_devices ++ [popular_entry st device])%list
      else preferred_loop st limit rest popular_devices
  end.

(** [list.sort()] on strings: the order of the code points. *)
Fixpoint insert_sorted (x : string) (l : list string) : list string :=
  match l with
  | [] => [x]
  | y :: r => if String.ltb x y then x :: y :: r else y :: insert_sorted x r
  end.

Fixpoint sort (l : list string) : list string :=
  match l with
  | [] => []
  | x :: r => insert_sorted x (sort r)
  end.

(** [d in names]. *)
Definition in_names (d : string) (names : list string) : bool :=
  existsb (String.eqb d) names.

Definition get_popular_devices (st : state) (limit : Z) : list popular_device :=
  let popular_devices := preferred_loop st limit preferred_devices [] in
  if Z.of_nat (List.length popular_devices) <? limit then
    let remaining_devices :=
      sort (filter (fun d => negb (in_names d (map name popular_devices)))
              (PyDict.keys (OptimizedDeviceCache.devices (device_cache st)))) in
    (popular_devices
     ++ map (popular_entry st)
          (firstn (Z.to_nat (limit - Z.of_nat (List.length popular_devices)))
             remaining_devices))%list
  else popular_devices.

(** *** The check of the device counts *)

Record validation : Type := {
  memory_count : Z;
  file_count : Z;
  reported_count : Z;
  cache_count : Z;
  consistent : bool;
  timestamp : Z
}.

(** [validate_device_counts()]; [read_cache] is what [pandas] makes of the
    cache copy and [now] what the clock reads. An error, which the source
    answers with a dictionary holding the message, is [Raise]. *)
Definition validate_device_counts (read_cache : res data_frame) (now : Z) (st : state)
    : res validation :=
  let memory_count := Z.of_nat (List.length (devices st)) in
  file_count <-
    (match devices_file st with
     | None => Ok 0
     | Some (Intact file_devices) => Ok (Z.of_nat (List.length file_devices))
     | Some Damaged => Raise JSONDecodeError
     end) ;;
  let reported_count :=
    match devices_count (load_last_update_info st) with
    | Some n => n
    | None => 0
    end in
  let cache_count :=
    if cache_exists st then
      match read_cache with
      | Ok df => Z.of_nat (List.length (rows df))
      | Raise _ => 0
      end
    else 0 in
  Ok {| memory_count := memory_count;
        file_count := file_count;
        reported_count := reported_count;
        cache_count := cache_count;
        consistent := (memory_count =? file_count) && (file_count =? reported_count);
        timestamp := now |}.

(** *** The refresh at the start *)

Definition set_loaded (st : state) : state :=
  {| device_cache := device_cache st; devices := devices st;
     google_sheets_loaded := true;
     devices_file := devices_file st; cache_file := cache_file st;
     last_update_file := last_update_file st |}.

Section Startup.
Variable float_repr : float -> string.
Variable docs_folder : string.

(** [env] is what the libraries answer while the cache copy is read. *)
Definition load_from_cache_if_available (env : sheet_env) (st : state) : state :=
  if cache_exists st then
    let '(st', result) :=
      process_price_sheet float_repr (cache_file_path docs_folder) env st in
    if sheet_success result then set_loaded st' else st'
  else st.

Definition auto_refresh_on_startup (env : check_env) (fallback : sheet_env) (st : state)
    : state :=
  let '(st', result) :=
    check_and_update_from_google_sheets float_repr docs_folder env st in
  if result then set_loaded st' else load_from_cache_if_available fallback st'.

End Startup.

End WebCalculator.

(** ** What an ingestion stores *)

Module Stored.
Import PyFloat.

(** A device name as both readers of a sheet store it: not empty and
    without white space at either end. *)
Definition clean_name (device_name : string) : Prop :=
  PyStr.truthy device_name = true /\ PyStr.strip device_name = device_name.

(** A record as both readers store it: it has an [msrp] that is not at
    most zero, and its prepaid price, when there is one, is above zero. *)
Definition priced (d : device_data) : Prop :=
  match d with
  | PriceRecord (Some msrp) prepaid =>
      leb msrp (of_int 0) = false /\
      match prepaid with
      | Some p => gtb p (of_int 0) = true
      | None => True
      end
  | _ => False
  end.

End Stored.

(** ** migrate_existing_files *)

Module Migration.
Import WebSalesTaxCalculator.

Section Files.
Context {A : Type}.

(** A folder: what it holds under each file name. *)
Definition folder : Type := string -> option (file_content A).

Definition put (d : folder) (filename : string) (v : option (file_content A)) : folder :=
  fun f => if String.eqb filename f then v else d f.

(** The folder of the program and the Documents folder. *)
Record files : Type := {
  current_dir : folder;
  docs_folder : folder
}.

(** How [shutil.move] to a path that does not exist ends: the file is
    moved; nothing is changed; the copy to the other folder fails under
    way, leaving a part of it there; or the copy is made and the original
    cannot be removed. All but the first raise. *)
Inductive move_outcome : Type :=
| Moved
| MoveRefused
| CopyFailed
| UnlinkFailed.

Definition move (o : move_outcome) (filename : string) (fs : files) : files * bool :=
  match o with
  | Moved =>
      ({| current_dir := put (current_dir fs) filename None;
          docs_folder := put (docs_folder fs) filename (current_dir fs filename) |}, true)
  | MoveRefused => (fs, false)
  | CopyFailed =>
      ({| current_dir := current_dir fs;
          docs_folder := put (docs_folder fs) filename (Some Damaged) |}, false)
  | UnlinkFailed =>
      ({| current_dir := current_dir fs;
          docs_folder := put (docs_folder fs) filename (current_dir fs filename) |}, false)
  end.

Definition exists_ (d : folder) (filename : string) : bool :=
  match d filename with Some _ => true | None => false end.

(** The loop over the file names; [outcome] tells how the move of each
    file ends. *)
Fixpoint migrate_loop (outcome : string -> move_outcome) (filenames : list string)
    (fs : files) (migrated_files : list string) : files * list string :=
  match filenames with
  | [] => (fs, migrated_files)
  | filename :: rest =>
      if exists_ (current_dir fs) filename && negb (exists_ (docs_folder fs) filename) then
        let '(fs', moved) := move (outcome filename) filename fs in
        migrate_loop outcome rest fs'
          (if moved then (migrated_files ++ [filename])%list else migrated_files)
      else migrate_loop outcome rest fs migrated_files
  end.

Definition files_to_migrate : list string :=
  ["devices.json"; "latest_prices_cache.csv"; "last_update.json"].

Definition migrate_existing_files (outcome : string -> move_outcome) (fs : files)
    : files * list string :=
  migrate_loop outcome files_to_migrate fs [].

End Files.
#[global] Arguments folder A : clear implicits.
#[global] Arguments files A : clear implicits.

End Migration.

(** ** Concrete inputs for the further code *)

Module MoreExamples.
Import PyFloat.

(** A download of a sheet with two devices, every write succeeding. *)
Definition good_download : WebSalesTaxCalculator.refresh_env :=
  {| WebSalesTaxCalculator.get_response :=
       Ok {| WebSalesTaxCalculator.status_code := 200;
             WebSalesTaxCalculator.content_length := Some "46";
             WebSalesTaxCalculator.content := "Phone,MSRP
Galaxy S25,899.99
iPhone 15,799.99
" |};
     WebSalesTaxCalculator.cache_write := WebSalesTaxCalculator.Written;
     WebSalesTaxCalculator.sheet := Examples.upload_env Examples.new_price_file;
     WebSalesTaxCalculator.now_last_check := Examples.minutes 100;
     WebSalesTaxCalculator.now_last_update := Examples.minutes 100;
     WebSalesTaxCalculator.info_write := WebSalesTaxCalculator.Written |}.

(** A check, half an hour after [good_download], that finds the same size
    at the remote end; a download would be refused. *)
Definition later_check : WebSalesTaxCalculator.check_env :=
  {| WebSalesTaxCalculator.head_response :=
       Ok {| WebSalesTaxCalculator.status_code := 200;
             WebSalesTaxCalculator.content_length := Some "46";
             WebSalesTaxCalculator.content := "" |};
     WebSalesTaxCalculator.now_check := Examples.minutes 130;
     WebSalesTaxCalculator.refresh := Examples.refused_download |}.

(** A delimited file whose reading fails after two records, and an upload
    of it in which [pandas] reads the two rows. *)
Definition broken_file : StreamingCSVProcessor.csv_file :=
  {| StreamingCSVProcessor.header := Ok (Some ["Phone"; "MSRP"]);
     StreamingCSVProcessor.records :=
       [StreamingCSVProcessor.Record_ ["Galaxy S25"; "899.99"];
        StreamingCSVProcessor.Record_ ["iPhone 15"; "799.99"];
        StreamingCSVProcessor.ReaderError] |}.

Definition broken_upload : WebSalesTaxCalculator.sheet_env :=
  {| WebSalesTaxCalculator.csv_read := broken_file;
     WebSalesTaxCalculator.read_csv :=
       Ok {| Frame.columns := ["Phone"; "MSRP"];
             Frame.rows :=
               [[Frame.CStr "Galaxy S25"; Frame.CNum Examples.price_899_99];
                [Frame.CStr "iPhone 15"; Frame.CNum Examples.price_799_99]] |};
     WebSalesTaxCalculator.read_excel := Raise ValueError;
     WebSalesTaxCalculator.devices_write := WebSalesTaxCalculator.Written;
     WebSalesTaxCalculator.now_reload := 0 |}.

(** A device cache with room for one search only, holding [old_catalog]. *)
Definition small_cache : OptimizedDeviceCache.cache :=
  fst (OptimizedDeviceCache.load_devices (OptimizedDeviceCache.new 1) Examples.old_catalog 0).

End MoreExamples.

(** * Properties *)

(** ** Dictionaries *)

Section DictFacts.
Context {V : Type}.
Implicit Types (d other : PyDict.dict V) (k : string) (v : V).

Lemma get_set d k v k' :
  PyDict.get (PyDict.set d k v) k' = if String.eqb k k' then Some v else PyDict.get d k'.
Proof.
  induction d as [|[k0 v0] r IH]; simpl.
  - reflexivity.
  - destruct (String.eqb k0 k) eqn:E0; simpl.
    + apply String.eqb_eq in E0. subst k0.
      destruct (String.eqb k k'); reflexivity.
    + rewrite IH. destruct (String.eqb k0 k') eqn:E1; [|reflexivity].
      apply String.eqb_eq in E1. subst k0.
      rewrite String.eqb_sym, E0. reflexivity.
Qed.

Lemma get_update d other k :
  PyDict.nodup_keys other ->
  PyDict.get (PyDict.update d other) k =
  match PyDict.get other k with
  | Some v => Some v
  | None => PyDict.get d k
  end.
Proof.
  revert d. induction other as [|[k0 v0] r IH]; intros d Hnd; simpl.
  - reflexivity.
  - destruct Hnd as [Hfresh Hnd]. rewrite (IH _ Hnd), get_set.
    destruct (String.eqb k0 k) eqn:E.
    + apply String.eqb_eq in E. subst k0. rewrite Hfresh. reflexivity.
    + reflexivity.
Qed.

Lemma set_absent d k v :
  PyDict.get d k = None -> PyDict.set d k v = (d ++ [(k, v)])%list.
Proof.
  induction d as [|[k0 v0] r IH]; simpl; [reflexivity|].
  destruct (String.eqb k0 k) eqn:E; simpl; intros H; [discriminate|].
  f_equal. apply IH, H.
Qed.

End DictFacts.

(** ** Floats *)

Lemma leb_zero_not_ltb (x : PyFloat.float) :
  PyFloat.leb (PyFloat.of_int 0) x = true -> PyFloat.ltb x (PyFloat.of_int 0) = false.
Proof.
  destruct x as [s|s| |s m e]; try destruct s; cbn; congruence.
Qed.

(** A float that is not at most zero is above zero or a NaN. *)
Lemma not_leb_zero_cases (x : PyFloat.float) :
  PyFloat.leb x (PyFloat.of_int 0) = false ->
  PyFloat.gtb x (PyFloat.of_int 0) = true \/ x = PyFloat.nan.
Proof.
  destruct x as [s|s| |s m e]; try destruct s; cbn; intros H;
    try discriminate; auto.
Qed.

(** ** Sales tax *)

(** C3, counterexample. For the amount [1.0] and the rate [6.5] the code
    returns the tax [0.07] and the total [1.06], while rounding the amount
    plus the returned tax gives [1.07]: the returned total is not
    [round(amount + tax, 2)] for the returned tax. The product is taken as
    [amount * (rate / 100)]: for the amount [11.0] the tax is [0.72], and
    [round((amount * rate) / 100, 2)] would be [0.71]. *)
Lemma calculate_sales_tax_total_not_from_returned_tax :
  PyFloat.leb (PyFloat.of_int 0) Examples.one_dollar = true /\
  TaxData.calculate_sales_tax Examples.one_dollar Examples.rate_6_5
    = (Examples.cents_7, Examples.dollars_1_06) /\
  PyFloat.round2
    (PyFloat.add Examples.one_dollar
       (fst (TaxData.calculate_sales_tax Examples.one_dollar Examples.rate_6_5)))
    = Examples.dollars_1_07 /\
  PyFloat.eqb
    (snd (TaxData.calculate_sales_tax Examples.one_dollar Examples.rate_6_5))
    (PyFloat.round2
       (PyFloat.add Examples.one_dollar
          (fst (TaxData.calculate_sales_tax Examples.one_dollar Examples.rate_6_5))))
    = false /\
  fst (TaxData.calculate_sales_tax Examples.eleven_dollars Examples.rate_6_5)
    = Examples.cents_72 /\
  PyFloat.round2
    (PyFloat.div (PyFloat.mul Examples.eleven_dollars Examples.rate_6_5)
       (PyFloat.of_int 100))
    = Examples.cents_71.
Proof. vm_compute. repeat split. Qed.

(** C3, as amended. For every amount that is not negative and every rate,
    [calculate_sales_tax] returns the tax [round(amount * (rate / 100), 2)]
    and the total [round(amount + amount * (rate / 100), 2)], the total
    being rounded from the tax before its own rounding; the pair depends
    on the two arguments only, so a second call returns it again. *)
Theorem calculate_sales_tax_rounds_tax_and_total (amount rate : PyFloat.float) :
  PyFloat.leb (PyFloat.of_int 0) amount = true ->
  let unrounded_tax := PyFloat.mul amount (PyFloat.div rate (PyFloat.of_int 100)) in
  forall tax total,
    TaxData.calculate_sales_tax amount rate = (tax, total) ->
    tax = PyFloat.round2 unrounded_tax /\
    total = PyFloat.round2 (PyFloat.add amount unrounded_tax) /\
    TaxData.calculate_sales_tax amount rate = (tax, total).
Proof.
  intros Hpos unrounded_tax tax total Hcall.
  split; [|split; [|exact Hcall]];
    unfold TaxData.calculate_sales_tax in Hcall;
    rewrite (leb_zero_not_ltb amount Hpos) in Hcall;
    injection Hcall as <- <-; reflexivity.
Qed.

(** The amount [1.0] at the rate [6.5]: the tax is [0.07] and the total
    [1.06]. *)
Lemma calculate_sales_tax_rounds_tax_and_total_witness :
  PyFloat.leb (PyFloat.of_int 0) Examples.one_dollar = true /\
  Examples.cents_7
    = PyFloat.round2
        (PyFloat.mul Examples.one_dollar
           (PyFloat.div Examples.rate_6_5 (PyFloat.of_int 100))) /\
  Examples.dollars_1_06
    = PyFloat.round2
        (PyFloat.add Examples.one_dollar
           (PyFloat.mul Examples.one_dollar
              (PyFloat.div Examples.rate_6_5 (PyFloat.of_int 100)))).
Proof.
  split; [reflexivity|].
  pose proof (calculate_sales_tax_rounds_tax_and_total
                Examples.one_dollar Examples.rate_6_5 eq_refl
                Examples.cents_7 Examples.dollars_1_06 eq_refl) as [H1 [H2 _]].
  split; [exact H1 | exact H2].
Defined.

(** ** Price parser *)



Lemma _parse_price_value (price_str : string) :
  StreamingCSVProcessor._parse_price price_str =
  Ok (match PyFloat.of_string
              (PyStr.strip (PyStr.remove_char "," (PyStr.remove_char "$" price_str))) with
      | Some x => x
      | None => PyFloat.zero
      end).
Proof.
  unfold StreamingCSVProcessor._parse_price, py_float, try_except.
  destruct (PyFloat.of_string _); reflexivity.
Qed.


(** ** Streaming ingestion *)

Lemma truthy_eqb_empty (s : string) : negb (PyStr.truthy s) = String.eqb s "".
Proof. destruct s; reflexivity. Qed.

(** What the [try] block of a record returns: nothing when the skip rule
    applies, the name and a price record otherwise; it never raises. *)
Lemma row_outcome_cases fieldnames phone_col msrp_col prepaid_col row :
  let name := SkipRule.device_name fieldnames phone_col row in
  let price := SkipRule.primary_price fieldnames msrp_col row in
  if SkipRule.skipped fieldnames phone_col msrp_col row
  then StreamingCSVProcessor.row_outcome fieldnames phone_col msrp_col prepaid_col row
       = Ok None
  else exists prepaid,
       StreamingCSVProcessor.row_outcome fieldnames phone_col msrp_col prepaid_col row
       = Ok (Some (name, PriceRecord (Some price) prepaid)).
Proof.
  cbv zeta.
  unfold SkipRule.skipped, SkipRule.device_name, SkipRule.primary_price,
    StreamingCSVProcessor.row_outcome.
  rewrite !truthy_eqb_empty.
  set (name := PyStr.strip (StreamingCSVProcessor.row_get_str fieldnames row phone_col)).
  set (msrp_str := PyStr.strip (StreamingCSVProcessor.row_get_str fieldnames row msrp_col)).
  destruct (String.eqb name "") eqn:En; simpl.
  - reflexivity.
  - destruct (String.eqb msrp_str "") eqn:Em; simpl.
    + apply String.eqb_eq in Em. rewrite Em. reflexivity.
    + rewrite (_parse_price_value msrp_str). cbn [bind].
      match goal with
      | |- context [PyFloat.leb ?a ?b] => destruct (PyFloat.leb a b) eqn:El
      end; [reflexivity|].
      destruct prepaid_col as [pc|]; simpl.
      * destruct (PyStr.truthy pc && StreamingCSVProcessor.row_get_truthy fieldnames row pc);
          simpl.
        -- rewrite _parse_price_value. cbn [bind]. eexists. reflexivity.
        -- eexists. reflexivity.
      * eexists. reflexivity.
Qed.




(** C7, the failing input. A delimited file with the header [Phone,MSRP]
    and the record [Galaxy S25,nan]: the streaming ingestion counts the
    record as processed and stores the device with a NaN as [msrp], which
    is not above zero; [process_price_sheet] on that file reports success
    and puts the record into the catalog in memory and on disk. *)
Theorem process_csv_stream_stores_nan_msrp :
  StreamingCSVProcessor.process_csv_stream Examples.nan_price_file
    = StreamingCSVProcessor.StreamOk
        [("Galaxy S25", PriceRecord (Some PyFloat.nan) None)] 1 0 "Phone" "MSRP" None /\
  PyFloat.gtb PyFloat.nan (PyFloat.of_int 0) = false /\
  let '(st', result) :=
    WebSalesTaxCalculator.process_price_sheet Examples.no_repr "upload.csv"
      (Examples.upload_env Examples.nan_price_file) Examples.old_state in
  WebSalesTaxCalculator.sheet_success result = true /\
  PyDict.get (WebSalesTaxCalculator.devices st') "Galaxy S25"
    = Some (PriceRecord (Some PyFloat.nan) None) /\
  WebSalesTaxCalculator.devices_file st'
    = Some (WebSalesTaxCalculator.Intact (WebSalesTaxCalculator.devices st')).
Proof. vm_compute. repeat split. Qed.

(** What the streaming loop does guarantee: the stored [msrp] is not at
    most zero, so it is above zero or a NaN. *)
Lemma process_row_msrp_not_leb fieldnames phone_col msrp_col prepaid_col row name d :
  StreamingCSVProcessor.row_outcome fieldnames phone_col msrp_col prepaid_col row
    = Ok (Some (name, d)) ->
  exists m prepaid,
    d = PriceRecord (Some m) prepaid /\
    (PyFloat.gtb m (PyFloat.of_int 0) = true \/ m = PyFloat.nan).
Proof.
  intros H.
  pose proof (row_outcome_cases fieldnames phone_col msrp_col prepaid_col row) as C.
  cbv zeta in C.
  destruct (SkipRule.skipped fieldnames phone_col msrp_col row) eqn:Es.
  - rewrite C in H. discriminate.
  - destruct C as [prepaid C]. rewrite C in H. injection H as <- <-.
    exists (SkipRule.primary_price fieldnames msrp_col row), prepaid.
    split; [reflexivity|].
    unfold SkipRule.skipped in Es. apply orb_false_iff in Es as [_ Es].
    apply not_leb_zero_cases, Es.
Qed.

(** The frame loop, the sibling path, stores a record only with an [msrp]
    above zero. *)
Lemma frame_row_msrp_positive float_repr cols phone msrp prepaid row name d :
  WebSalesTaxCalculator.frame_row_outcome float_repr cols phone msrp prepaid row
    = Ok (Some (name, d)) ->
  exists m p, d = PriceRecord (Some m) p /\ PyFloat.gtb m (PyFloat.of_int 0) = true.
Proof.
  unfold WebSalesTaxCalculator.frame_row_outcome.
  destruct (existsb _ _ || _); [discriminate|].
  destruct (Frame.isna _); [discriminate|].
  destruct (WebSalesTaxCalculator.clean_cell _) as [s|x] eqn:Ec.
  - destruct s as [|c s]; [discriminate|].
    cbn [WebSalesTaxCalculator.cell_float]. unfold py_float.
    destruct (PyFloat.of_string _) as [m|]; cbn [bind]; [|discriminate].
    destruct (PyFloat.gtb m _) eqn:G; [|discriminate].
    intros H. injection H as <- <-. eauto.
  - cbn [WebSalesTaxCalculator.cell_float bind].
    destruct (PyFloat.gtb x _) eqn:G; [|discriminate].
    intros H. injection H as <- <-. eauto.
Qed.

(** ** Merge *)

Lemma nodup_set {V : Type} (d : PyDict.dict V) k v :
  PyDict.nodup_keys d -> PyDict.nodup_keys (PyDict.set d k v).
Proof.
  induction d as [|[k0 v0] r IH]; simpl.
  - auto.
  - intros [Hf Hn]. destruct (String.eqb k0 k) eqn:E; simpl.
    + auto.
    + split; [|auto]. rewrite get_set, String.eqb_sym, E. exact Hf.
Qed.

Lemma process_rows_nodup fieldnames phone_col msrp_col prepaid_col evs :
  forall st st',
    PyDict.nodup_keys (StreamingCSVProcessor.devices st) ->
    StreamingCSVProcessor.process_rows fieldnames phone_col msrp_col prepaid_col evs st
      = Ok st' ->
    PyDict.nodup_keys (StreamingCSVProcessor.devices st').
Proof.
  induction evs as [|ev rest IH]; intros st st' Hn H; simpl in H.
  - injection H as <-. exact Hn.
  - destruct ev as [[|f fs]|]; [eauto| |discriminate].
    eapply IH; [|exact H].
    unfold StreamingCSVProcessor.process_row.
    destruct (StreamingCSVProcessor.row_outcome _ _ _ _ _) as [[[n d]|]|e]; simpl;
      auto using nodup_set.
Qed.

Lemma process_frame_rows_nodup float_repr cols phone msrp prepaid rs :
  forall st st',
    PyDict.nodup_keys (StreamingCSVProcessor.devices st) ->
    WebSalesTaxCalculator.process_frame_rows float_repr cols phone msrp prepaid rs st
      = Ok st' ->
    PyDict.nodup_keys (StreamingCSVProcessor.devices st').
Proof.
  induction rs as [|row rest IH]; intros st st' Hn H; simpl in H.
  - injection H as <-. exact Hn.
  - destruct (WebSalesTaxCalculator.process_frame_row float_repr cols phone msrp prepaid st row)
      as [st1|e] eqn:E1; cbn [bind] in H; [|discriminate].
    eapply IH; [|exact H].
    unfold WebSalesTaxCalculator.process_frame_row in E1.
    destruct (WebSalesTaxCalculator.frame_row_outcome _ _ _ _ _ _) as [[[n d]|]|e];
      try (injection E1 as <-; simpl; auto using nodup_set).
    destruct e; try discriminate; injection E1 as <-; simpl; auto.
Qed.

Lemma process_csv_stream_nodup file new p s pc mc ppc :
  StreamingCSVProcessor.process_csv_stream file
    = StreamingCSVProcessor.StreamOk new p s pc mc ppc ->
  PyDict.nodup_keys new.
Proof.
  unfold StreamingCSVProcessor.process_csv_stream.
  destruct (StreamingCSVProcessor.header file) as [h|e]; [|discriminate].
  destruct (StreamingCSVProcessor._detect_phone_column _) as [pc'|]; [|discriminate].
  destruct (StreamingCSVProcessor._detect_msrp_column _) as [mc'|]; [|discriminate].
  destruct (negb _ || negb _); [discriminate|].
  destruct (StreamingCSVProcessor.process_rows _ _ _ _ _ _) as [st|e] eqn:E; [|discriminate].
  intros H. injection H as <- _ _ _ _ _.
  eapply process_rows_nodup; [|exact E]. simpl. exact I.
Qed.

Section SheetFacts.
Variable float_repr : PyFloat.float -> string.
Import WebSalesTaxCalculator.

Lemma merge_and_save_devices env st fragment :
  devices (merge_and_save env st fragment) = PyDict.update (devices st) fragment /\
  cache_file (merge_and_save env st fragment) = cache_file st /\
  last_update_file (merge_and_save env st fragment) = last_update_file st.
Proof.
  unfold merge_and_save, save_devices, write_file.
  destruct (devices_write env); simpl.
  - destruct (OptimizedDeviceCache.load_devices _ _ _); simpl. auto.
  - auto.
  - auto.
Qed.

Lemma process_frame_outcome env st read :
  match process_frame float_repr env st read with
  | (st', SheetFail) => st' = st
  | (st', SheetOk _ _ _ _ _) =>
      exists fragment,
        PyDict.nodup_keys fragment /\ st' = merge_and_save env st fragment
  end.
Proof.
  unfold process_frame.
  destruct read as [df0|e]; [|reflexivity].
  destruct (phone_col _) as [phone|]; [|reflexivity].
  destruct (msrp_col _) as [msrp|]; [|reflexivity].
  destruct (negb _ || negb _); [reflexivity|].
  destruct (process_frame_rows _ _ _ _ _ _ _) as [ist|e] eqn:E; [|reflexivity].
  pose proof (process_frame_rows_nodup _ _ _ _ _ _ StreamingCSVProcessor.initial _ I E) as Hn.
  destruct (StreamingCSVProcessor.devices ist) as [|kv rest] eqn:Ed; [reflexivity|].
  exists (kv :: rest). split; [exact Hn | reflexivity].
Qed.

Lemma process_price_sheet_outcome path env st :
  match process_price_sheet float_repr path env st with
  | (st', SheetFail) => st' = st
  | (st', SheetOk _ _ _ _ _) =>
      exists fragment,
        PyDict.nodup_keys fragment /\ st' = merge_and_save env st fragment
  end.
Proof.
  unfold process_price_sheet.
  destruct (PyStr.endswith ".csv" path).
  - destruct (StreamingCSVProcessor.process_csv_stream (csv_read env))
      as [new p s pc mc ppc|cols|] eqn:E.
    + exists new. split; [|reflexivity]. eapply process_csv_stream_nodup, E.
    + apply process_frame_outcome.
    + apply process_frame_outcome.
  - destruct (PyStr.endswith ".xlsx" path || PyStr.endswith ".xls" path).
    + apply process_frame_outcome.
    + reflexivity.
Qed.

(** A call that reports success has merged the fragment that its reader
    gathered, and no other. *)
Lemma process_frame_ingests env st read st' added phone msrp processed skipped :
  process_frame float_repr env st read = (st', SheetOk added phone msrp processed skipped) ->
  exists fragment,
    Ingested.by_frame float_repr read fragment /\
    PyDict.nodup_keys fragment /\ st' = merge_and_save env st fragment.
Proof.
  unfold process_frame.
  destruct read as [df0|e]; [|discriminate].
  destruct (phone_col _) as [phone0|] eqn:Ep; [|discriminate].
  destruct (msrp_col _) as [msrp0|] eqn:Em; [|discriminate].
  destruct (negb _ || negb _); [discriminate|].
  destruct (process_frame_rows _ _ _ _ _ _ _) as [ist|e] eqn:E; [|discriminate].
  pose proof (process_frame_rows_nodup _ _ _ _ _ _ StreamingCSVProcessor.initial _ I E) as Hn.
  destruct (StreamingCSVProcessor.devices ist) as [|kv rest] eqn:Ed; [discriminate|].
  intros H. injection H as <- _ _ _ _ _.
  exists (kv :: rest). split; [|split; [exact Hn | reflexivity]].
  exists df0, phone0, msrp0, ist. cbv zeta. auto.
Qed.

Lemma process_price_sheet_ingests path env st st' added phone msrp processed skipped :
  process_price_sheet float_repr path env st
    = (st', SheetOk added phone msrp processed skipped) ->
  exists fragment,
    Ingested.from_file float_repr path env fragment /\
    PyDict.nodup_keys fragment /\ st' = merge_and_save env st fragment.
Proof.
  unfold process_price_sheet, Ingested.from_file.
  destruct (PyStr.endswith ".csv" path).
  - destruct (StreamingCSVProcessor.process_csv_stream (csv_read env))
      as [new p s pc mc ppc|cols|] eqn:E.
    + intros H. injection H as <- _ _ _ _ _. exists new.
      split; [reflexivity|]. split; [|reflexivity]. eapply process_csv_stream_nodup, E.
    + apply process_frame_ingests.
    + apply process_frame_ingests.
  - destruct (PyStr.endswith ".xlsx" path || PyStr.endswith ".xls" path).
    + apply process_frame_ingests.
    + discriminate.
Qed.

End SheetFacts.

(** C6. When [process_price_sheet] succeeds, the catalog in memory is the
    old one updated with the fragment that was ingested from the file, the
    devices that the reader of the file gathered and no others, last write
    wins by device name: a name of the fragment has the fragment's record,
    whole, so a field the old record had and the new one lacks is gone; a
    name of the fragment that was not in the catalog is in it; a name that
    is not in the fragment keeps the record it had, and a name that is in
    neither is in neither. *)
Theorem process_price_sheet_merge_last_write_wins
    (float_repr : PyFloat.float -> string) (file_path : string)
    (env : WebSalesTaxCalculator.sheet_env) (st st' : WebSalesTaxCalculator.state)
    (result : WebSalesTaxCalculator.sheet_result) :
  WebSalesTaxCalculator.process_price_sheet float_repr file_path env st = (st', result) ->
  WebSalesTaxCalculator.sheet_success result = true ->
  exists fragment : catalog,
    Ingested.from_file float_repr file_path env fragment /\
    WebSalesTaxCalculator.devices st'
      = PyDict.update (WebSalesTaxCalculator.devices st) fragment /\
    (forall (name : string) (new_record : device_data),
       PyDict.get fragment name = Some new_record ->
       PyDict.get (WebSalesTaxCalculator.devices st') name = Some new_record) /\
    (forall name : string,
       PyDict.get fragment name = None ->
       PyDict.get (WebSalesTaxCalculator.devices st') name
       = PyDict.get (WebSalesTaxCalculator.devices st) name) /\
    (forall name : string,
       PyDict.mem (WebSalesTaxCalculator.devices st') name
       = PyDict.mem (WebSalesTaxCalculator.devices st) name || PyDict.mem fragment name).
Proof.
  intros Hcall Hok. destruct result as [added phone msrp processed skipped|]; [|discriminate].
  destruct (process_price_sheet_ingests float_repr _ _ _ _ _ _ _ _ _ Hcall)
    as (fragment & Hfrom & Hn & ->).
  exists fragment. split; [exact Hfrom|].
  destruct (merge_and_save_devices env st fragment) as [Hd _].
  split; [exact Hd|]. rewrite Hd.
  split; [|split].
  - intros name new_record Hf. rewrite (get_update _ _ _ Hn), Hf. reflexivity.
  - intros name Hf. rewrite (get_update _ _ _ Hn), Hf. reflexivity.
  - intros name. unfold PyDict.mem. rewrite (get_update _ _ _ Hn).
    destruct (PyDict.get fragment name); [apply eq_sym, orb_true_r|].
    rewrite orb_false_r. reflexivity.
Qed.

(** An upload that lists the Galaxy S25 at 899.99 without prepaid price and
    the iPhone 15, which the catalog did not have: the old record of the
    Galaxy S25, with the prepaid price 500, is replaced whole, the iPhone 15
    is added, and the Pixel 8, which the upload does not list, keeps its
    record. *)
Lemma process_price_sheet_merge_last_write_wins_witness :
  exists st',
    WebSalesTaxCalculator.devices st'
      = [("Galaxy S25", PriceRecord (Some Examples.price_899_99) None);
         ("Pixel 8", PriceRecord (Some Examples.price_500) None);
         ("iPhone 15", PriceRecord (Some Examples.price_799_99) None)] /\
    exists fragment : catalog,
      Ingested.from_file Examples.no_repr "upload.csv"
        (Examples.upload_env Examples.new_price_file) fragment /\
      WebSalesTaxCalculator.devices st'
        = PyDict.update Examples.old_catalog fragment /\
      (forall (name : string) (new_record : device_data),
         PyDict.get fragment name = Some new_record ->
         PyDict.get (WebSalesTaxCalculator.devices st') name = Some new_record) /\
      (forall name : string,
         PyDict.get fragment name = None ->
         PyDict.get (WebSalesTaxCalculator.devices st') name
         = PyDict.get Examples.old_catalog name) /\
      (forall name : string,
         PyDict.mem (WebSalesTaxCalculator.devices st') name
         = PyDict.mem Examples.old_catalog name || PyDict.mem fragment name).
Proof.
  eexists. split; [|
    eapply (process_price_sheet_merge_last_write_wins Examples.no_repr "upload.csv"
              (Examples.upload_env Examples.new_price_file) Examples.old_state);
    [vm_compute; reflexivity | reflexivity]].
  vm_compute. reflexivity.
Defined.

(** ** Refresh *)

(** C2, counterexamples. First, a step that fails and is reported: the
    download answers 200 with an empty body; the body is written over the
    cache copy, ingestion of it fails, the refresh reports failure, and the
    cache copy of the earlier download is gone. Second, a step that fails
    and is not reported: the download is ingested and the write of the
    catalog file fails under way; the refresh reports success, the catalog
    in memory is the merged one, the catalog file is damaged, the
    Last-Update Record is rewritten, and the device cache, which the
    lookups read, is the old one. *)
Lemma failed_refresh_overwrites_cache_copy :
  (let '(st', ok) :=
     WebSalesTaxCalculator.download_and_process_google_sheets
       Examples.no_repr "Documents/SalesTaxCalc" Examples.empty_download Examples.old_state in
   ok = false /\
   WebSalesTaxCalculator.cache_file st' = Some (WebSalesTaxCalculator.Intact "") /\
   WebSalesTaxCalculator.cache_file st'
     <> WebSalesTaxCalculator.cache_file Examples.old_state) /\
  (let '(st', ok) :=
     WebSalesTaxCalculator.download_and_process_google_sheets
       Examples.no_repr "Documents/SalesTaxCalc" Examples.unsaved_download
       Examples.old_state in
   ok = true /\
   WebSalesTaxCalculator.devices st'
     = [("Galaxy S25", PriceRecord (Some Examples.price_899_99) None);
        ("Pixel 8", PriceRecord (Some Examples.price_500) None);
        ("iPhone 15", PriceRecord (Some Examples.price_799_99) None)] /\
   WebSalesTaxCalculator.devices st' <> WebSalesTaxCalculator.devices Examples.old_state /\
   WebSalesTaxCalculator.devices_file Examples.old_state
     = Some (WebSalesTaxCalculator.Intact Examples.old_catalog) /\
   WebSalesTaxCalculator.devices_file st' = Some WebSalesTaxCalculator.Damaged /\
   WebSalesTaxCalculator.last_update_file st'
     <> WebSalesTaxCalculator.last_update_file Examples.old_state /\
   WebSalesTaxCalculator.device_cache st'
     = WebSalesTaxCalculator.device_cache Examples.old_state).
Proof. vm_compute. repeat split; discriminate. Qed.

(** C2, as amended. What a refresh leaves, whichever step fails. A refresh
    that returns false leaves the persisted catalog, the Last-Update
    Record, the catalog in memory and the device cache as they were; the
    cache copy of the remote data is as it was when the download raised or
    did not answer 200, and otherwise holds what the write of the body
    left. A refresh returns true exactly when the download answered 200,
    the body was written to the cache copy and its ingestion reported
    success, whatever the later writes did: then the catalog in memory is
    the old one updated with the fragment ingested from the cache copy; the
    catalog file holds what the write of the merged catalog left, which is
    the old content when the file could not be opened and a damaged file
    when the write failed under way; the device cache is reloaded only when
    that write was done; and the Last-Update Record holds what its write
    left. The catalog in memory changes only in a call of
    [process_price_sheet] that reports success: a call that reports failure
    returns the state it was given. *)
Theorem failed_refresh_preserves_catalog
    (float_repr : PyFloat.float -> string) (docs_folder : string)
    (env : WebSalesTaxCalculator.refresh_env) (st : WebSalesTaxCalculator.state) :
  let st' :=
    fst (WebSalesTaxCalculator.download_and_process_google_sheets
           float_repr docs_folder env st) in
  let ok :=
    snd (WebSalesTaxCalculator.download_and_process_google_sheets
           float_repr docs_folder env st) in
  (ok = false ->
   WebSalesTaxCalculator.devices_file st' = WebSalesTaxCalculator.devices_file st /\
   WebSalesTaxCalculator.last_update_file st' = WebSalesTaxCalculator.last_update_file st /\
   WebSalesTaxCalculator.devices st' = WebSalesTaxCalculator.devices st /\
   WebSalesTaxCalculator.device_cache st' = WebSalesTaxCalculator.device_cache st /\
   WebSalesTaxCalculator.cache_file st'
     = match WebSalesTaxCalculator.get_response env with
       | Ok response =>
           if WebSalesTaxCalculator.status_code response =? 200
           then fst (WebSalesTaxCalculator.write_file
                       (WebSalesTaxCalculator.cache_write env)
                       (WebSalesTaxCalculator.cache_file st)
                       (WebSalesTaxCalculator.content response))
           else WebSalesTaxCalculator.cache_file st
       | Raise _ => WebSalesTaxCalculator.cache_file st
       end) /\
  (ok = true <->
   exists response s2 added phone msrp processed skipped,
     WebSalesTaxCalculator.get_response env = Ok response /\
     WebSalesTaxCalculator.status_code response = 200 /\
     WebSalesTaxCalculator.cache_write env = WebSalesTaxCalculator.Written /\
     WebSalesTaxCalculator.process_price_sheet float_repr
       (WebSalesTaxCalculator.cache_file_path docs_folder)
       (WebSalesTaxCalculator.sheet env)
       (WebSalesTaxCalculator.set_cache_file st
          (Some (WebSalesTaxCalculator.Intact (WebSalesTaxCalculator.content response))))
     = (s2, WebSalesTaxCalculator.SheetOk added phone msrp processed skipped)) /\
  (ok = true ->
   exists (response : WebSalesTaxCalculator.http_response) (fragment : catalog)
          (processed skipped : Z),
     WebSalesTaxCalculator.get_response env = Ok response /\
     Ingested.from_file float_repr (WebSalesTaxCalculator.cache_file_path docs_folder)
       (WebSalesTaxCalculator.sheet env) fragment /\
     WebSalesTaxCalculator.cache_file st'
       = Some (WebSalesTaxCalculator.Intact (WebSalesTaxCalculator.content response)) /\
     WebSalesTaxCalculator.devices st'
       = PyDict.update (WebSalesTaxCalculator.devices st) fragment /\
     WebSalesTaxCalculator.devices_file st'
       = fst (WebSalesTaxCalculator.write_file
                (WebSalesTaxCalculator.devices_write (WebSalesTaxCalculator.sheet env))
                (WebSalesTaxCalculator.devices_file st)
                (WebSalesTaxCalculator.devices st')) /\
     WebSalesTaxCalculator.device_cache st'
       = match WebSalesTaxCalculator.devices_write (WebSalesTaxCalculator.sheet env) with
         | WebSalesTaxCalculator.Written =>
             fst (OptimizedDeviceCache.load_devices
                    (WebSalesTaxCalculator.device_cache st)
                    (WebSalesTaxCalculator.devices st')
                    (WebSalesTaxCalculator.now_reload (WebSalesTaxCalculator.sheet env)))
         | _ => WebSalesTaxCalculator.device_cache st
         end /\
     WebSalesTaxCalculator.last_update_file st'
       = fst (WebSalesTaxCalculator.write_file
                (WebSalesTaxCalculator.info_write env)
                (WebSalesTaxCalculator.last_update_file st)
                {| WebSalesTaxCalculator.last_check :=
                     Some (WebSalesTaxCalculator.IsoTime
                             (WebSalesTaxCalculator.now_last_check env));
                   WebSalesTaxCalculator.last_update :=
                     Some (WebSalesTaxCalculator.IsoTime
                             (WebSalesTaxCalculator.now_last_update env));
                   WebSalesTaxCalculator.size :=
                     Some (PyStr.of_Z (PyStr.len (WebSalesTaxCalculator.content response)));
                   WebSalesTaxCalculator.devices_count :=
                     Some (Z.of_nat (List.length (WebSalesTaxCalculator.devices st')));
                   WebSalesTaxCalculator.devices_processed := Some processed;
                   WebSalesTaxCalculator.devices_skipped := Some skipped |})) /\
  (forall file_path sheet_env s,
     match WebSalesTaxCalculator.process_price_sheet float_repr file_path sheet_env s with
     | (s', WebSalesTaxCalculator.SheetFail) => s' = s
     | (s', WebSalesTaxCalculator.SheetOk _ _ _ _ _) => True
     end).
Proof.
  cbv zeta.
  assert (Hsheet : forall file_path sheet_env s,
    match WebSalesTaxCalculator.process_price_sheet float_repr file_path sheet_env s with
    | (s', WebSalesTaxCalculator.SheetFail) => s' = s
    | (s', WebSalesTaxCalculator.SheetOk _ _ _ _ _) => True
    end).
  { intros file_path sheet_env s.
    pose proof (process_price_sheet_outcome float_repr file_path sheet_env s) as O.
    destruct (WebSalesTaxCalculator.process_price_sheet _ _ _ _) as [s' [? ? ? ? ?|]];
      [exact I | exact O]. }
  split; [|split; [|split; [|exact Hsheet]]];
    unfold WebSalesTaxCalculator.download_and_process_google_sheets.
  - destruct (WebSalesTaxCalculator.get_response env) as [response|e];
      [|cbn [fst snd]; auto].
    destruct (WebSalesTaxCalculator.status_code response =? 200); cbn [negb];
      [|cbn [fst snd]; auto].
    destruct (WebSalesTaxCalculator.write_file _ _ _) as [file' [|]] eqn:W.
    + pose proof (Hsheet (WebSalesTaxCalculator.cache_file_path docs_folder)
                    (WebSalesTaxCalculator.sheet env)
                    (WebSalesTaxCalculator.set_cache_file st file')) as O.
      destruct (WebSalesTaxCalculator.process_price_sheet _ _ _ _) as [st2 [? ? ? ? ?|]];
        cbn [fst snd]; [discriminate|].
      intros _. subst st2. cbn. auto.
    + cbn [fst snd]. intros _. cbn. auto.
  - destruct (WebSalesTaxCalculator.get_response env) as [response|e]; cbn [fst snd].
    2:{ split; [discriminate|]. intros (r & ? & ? & ? & ? & ? & ? & H & _). discriminate. }
    destruct (WebSalesTaxCalculator.status_code response =? 200) eqn:Es; cbn [negb fst snd].
    2:{ split; [discriminate|].
        intros (r & ? & ? & ? & ? & ? & ? & H & Hs & _). injection H as <-.
        rewrite Hs in Es. discriminate. }
    apply Z.eqb_eq in Es.
    destruct (WebSalesTaxCalculator.cache_write env) eqn:Ew;
      cbn [WebSalesTaxCalculator.write_file fst snd].
    2,3: split; [discriminate|];
         intros (r & ? & ? & ? & ? & ? & ? & _ & _ & H & _); discriminate.
    destruct (WebSalesTaxCalculator.process_price_sheet _ _ _ _)
      as [st2 [a p m pc sc|]] eqn:Ep; cbn [fst snd].
    + split; [|reflexivity]. intros _.
      exists response, st2, a, p, m, pc, sc. auto.
    + split; [discriminate|].
      intros (r & s2 & ? & ? & ? & ? & ? & H & _ & _ & H2). injection H as <-.
      rewrite Ep in H2. discriminate.
  - destruct (WebSalesTaxCalculator.get_response env) as [response|e]; cbn [fst snd];
      [|discriminate].
    destruct (WebSalesTaxCalculator.status_code response =? 200); cbn [negb fst snd];
      [|discriminate].
    destruct (WebSalesTaxCalculator.cache_write env);
      cbn [WebSalesTaxCalculator.write_file fst snd]; try discriminate.
    destruct (WebSalesTaxCalculator.process_price_sheet _ _ _ _)
      as [st2 [a p m pc sc|]] eqn:Ep; cbn [fst snd]; [|discriminate].
    intros _.
    destruct (process_price_sheet_ingests float_repr _ _ _ _ _ _ _ _ _ Ep)
      as (fragment & Hfrom & Hn & ->).
    exists response, fragment, (WebSalesTaxCalculator.or_zero pc),
      (WebSalesTaxCalculator.or_zero sc).
    split; [reflexivity|]. split; [exact Hfrom|].
    unfold WebSalesTaxCalculator.merge_and_save, WebSalesTaxCalculator.save_devices.
    cbn [WebSalesTaxCalculator.devices WebSalesTaxCalculator.device_cache
         WebSalesTaxCalculator.devices_file WebSalesTaxCalculator.cache_file
         WebSalesTaxCalculator.last_update_file WebSalesTaxCalculator.set_cache_file
         WebSalesTaxCalculator.google_sheets_loaded].
    destruct (WebSalesTaxCalculator.devices_write (WebSalesTaxCalculator.sheet env));
      cbn [WebSalesTaxCalculator.write_file].
    + destruct (OptimizedDeviceCache.load_devices _ _ _) as [c r] eqn:El.
      cbn. rewrite ?El. cbn. repeat split; reflexivity.
    + cbn. repeat split; reflexivity.
    + cbn. repeat split; reflexivity.
Qed.

(** A download answered with 503 on the saved calculator: the refresh
    returns false and leaves everything as it was. *)
Lemma failed_refresh_preserves_catalog_witness :
  let st' :=
    fst (WebSalesTaxCalculator.download_and_process_google_sheets
           Examples.no_repr "Documents/SalesTaxCalc" Examples.refused_download
           Examples.old_state) in
  WebSalesTaxCalculator.devices_file st'
    = WebSalesTaxCalculator.devices_file Examples.old_state /\
  WebSalesTaxCalculator.last_update_file st'
    = WebSalesTaxCalculator.last_update_file Examples.old_state /\
  WebSalesTaxCalculator.devices st' = Examples.old_catalog /\
  WebSalesTaxCalculator.device_cache st'
    = WebSalesTaxCalculator.device_cache Examples.old_state /\
  WebSalesTaxCalculator.cache_file st'
    = WebSalesTaxCalculator.cache_file Examples.old_state.
Proof.
  apply (proj1 (failed_refresh_preserves_catalog Examples.no_repr "Documents/SalesTaxCalc"
                  Examples.refused_download Examples.old_state)).
  vm_compute. reflexivity.
Defined.

(** ** Staleness *)

(** C1. The decision to refresh takes its conditions in this order, the
    first that holds deciding: no cache copy of the remote data, refresh;
    the remote reports a length and it differs from the recorded one,
    refresh; no time of a previous check is recorded, refresh; the time of
    the previous check is more than one hour back, refresh; otherwise no
    refresh. Without a Last-Update Record the decision is to refresh; with
    a record checked 30 minutes ago and the recorded size reported by the
    remote, and a cache copy, it is not to refresh; with the same record
    checked 90 minutes ago it is to refresh. When the remote answers the
    probe with 200, [check_and_update_from_google_sheets] downloads exactly
    when the decision is to refresh, and otherwise returns success and
    leaves everything as it is. *)
Theorem staleness_decision_order
    (cache_exists : bool) (remote_size : option string)
    (info : WebSalesTaxCalculator.update_info) (now : Z) :
  let decision :=
    WebSalesTaxCalculator.should_update cache_exists remote_size info now in
  let size_changed :=
    match remote_size with
    | Some r => r <> "" /\ WebSalesTaxCalculator.size info <> Some r
    | None => False
    end in
  (cache_exists = false -> decision = Ok true) /\
  (cache_exists = true -> size_changed -> decision = Ok true) /\
  (cache_exists = true -> ~ size_changed ->
   WebSalesTaxCalculator.last_check info = None -> decision = Ok true) /\
  (cache_exists = true -> ~ size_changed ->
   forall t, WebSalesTaxCalculator.last_check info = Some (WebSalesTaxCalculator.IsoTime t) ->
             3600 * 1000000 < now - t -> decision = Ok true) /\
  (cache_exists = true -> ~ size_changed ->
   forall t, WebSalesTaxCalculator.last_check info = Some (WebSalesTaxCalculator.IsoTime t) ->
             now - t <= 3600 * 1000000 -> decision = Ok false) /\
  WebSalesTaxCalculator.should_update cache_exists remote_size
    WebSalesTaxCalculator.no_info now = Ok true /\
  WebSalesTaxCalculator.should_update true (Some "40")
    (Examples.checked_at (now - Examples.minutes 30)) now = Ok false /\
  WebSalesTaxCalculator.should_update true (Some "40")
    (Examples.checked_at (now - Examples.minutes 90)) now = Ok true /\
  forall float_repr docs_folder env st response,
    WebSalesTaxCalculator.head_response env = Ok response ->
    WebSalesTaxCalculator.status_code response = 200 ->
    WebSalesTaxCalculator.check_and_update_from_google_sheets float_repr docs_folder env st
    = match WebSalesTaxCalculator.should_update
              (WebSalesTaxCalculator.cache_exists st)
              (WebSalesTaxCalculator.content_length response)
              (WebSalesTaxCalculator.load_last_update_info st)
              (WebSalesTaxCalculator.now_check env) with
      | Ok true =>
          WebSalesTaxCalculator.download_and_process_google_sheets
            float_repr docs_folder (WebSalesTaxCalculator.refresh env) st
      | Ok false => (st, true)
      | Raise _ => (st, false)
      end.
Proof.
  cbv zeta.
  assert (Hsize : forall r,
            remote_size = Some r ->
            WebSalesTaxCalculator.opt_truthy remote_size
            && WebSalesTaxCalculator.size_differs (WebSalesTaxCalculator.size info) r = true
            <-> (r <> "" /\ WebSalesTaxCalculator.size info <> Some r)).
  { intros r ->. unfold WebSalesTaxCalculator.size_differs. simpl.
    destruct r as [|c r]; simpl.
    - split; [discriminate | intros [H _]; congruence].
    - destruct (WebSalesTaxCalculator.size info) as [v|].
      + destruct (String.eqb v (String c r)) eqn:E; simpl.
        * apply String.eqb_eq in E. subst v. split; [discriminate | intros [_ H]; congruence].
        * apply String.eqb_neq in E. split; [intros _; split; congruence | reflexivity].
      + split; [intros _; split; congruence | reflexivity]. }
  unfold WebSalesTaxCalculator.should_update.
  repeat split.
  - intros ->. reflexivity.
  - intros -> Hc. simpl. destruct remote_size as [r|]; [|contradiction].
    destruct (Hsize r eq_refl) as [_ Hs]. rewrite (Hs Hc). reflexivity.
  - intros -> Hc Hl. simpl.
    destruct remote_size as [r|].
    + destruct (_ && _) eqn:E; [reflexivity|]. rewrite Hl. reflexivity.
    + simpl. rewrite Hl. reflexivity.
  - intros -> Hc t Hl Ht. simpl.
    destruct remote_size as [r|].
    + destruct (_ && _) eqn:E; [reflexivity|]. rewrite Hl. simpl.
      f_equal. apply Z.ltb_lt. exact Ht.
    + simpl. rewrite Hl. simpl. f_equal. apply Z.ltb_lt. exact Ht.
  - intros -> Hc t Hl Ht. simpl.
    destruct remote_size as [r|].
    + destruct (_ && _) eqn:E.
      * exfalso. apply Hc, (Hsize r eq_refl), E.
      * rewrite Hl. simpl. f_equal. apply Z.ltb_ge. exact Ht.
    + simpl. rewrite Hl. simpl. f_equal. apply Z.ltb_ge. exact Ht.
  - destruct cache_exists; simpl; [|reflexivity].
    destruct (WebSalesTaxCalculator.opt_truthy remote_size); reflexivity.
  - simpl. f_equal. apply Z.ltb_ge.
    unfold Examples.minutes, WebSalesTaxCalculator.hour_us. lia.
  - simpl. f_equal. apply Z.ltb_lt.
    unfold Examples.minutes, WebSalesTaxCalculator.hour_us. lia.
  - intros float_repr docs_folder env st response Hh Hs.
    unfold WebSalesTaxCalculator.check_and_update_from_google_sheets.
    rewrite Hh, Hs. reflexivity.
Qed.

(** A record checked 90 minutes ago, with the cache copy present and the
    recorded size reported by the remote. *)
Lemma staleness_decision_order_witness :
  WebSalesTaxCalculator.should_update true (Some "40") (Examples.checked_at 0)
    (Examples.minutes 90) = Ok true.
Proof.
  destruct (staleness_decision_order true (Some "40") (Examples.checked_at 0)
              (Examples.minutes 90)) as (_ & _ & _ & H & _).
  apply (H eq_refl) with (t := 0).
  - intros [_ Hd]. apply Hd. reflexivity.
  - reflexivity.
  - reflexivity.
Defined.

(** ** Column detection *)



Section DetectionFacts.
Variable float_repr : PyFloat.float -> string.
Import WebSalesTaxCalculator.











End DetectionFacts.



(** ** Floats of moderate size

    The operations of the floor division by 100 keep a float that is zero
    or of magnitude below a power of two within such floats, a few powers
    higher, so none of them overflows on a price below [2 ^ 1000]. The
    bounds count digits and exponents only. *)

Lemma digits2_pos_size (p : positive) : digits2_pos p = Pos.size p.
Proof. induction p; simpl; congruence. Qed.

Lemma Zdigits2_nonneg (m : Z) : 0 <= Zdigits2 m.
Proof. destruct m; simpl; lia. Qed.

Lemma Zdigits2_lt (m : Z) : 0 <= m -> m < 2 ^ Zdigits2 m.
Proof.
  destruct m as [|p|p]; simpl; intros H; try lia.
  rewrite digits2_pos_size.
  pose proof (Pos.size_gt p) as G.
  apply Pos2Z.pos_lt_pos in G. rewrite Pos2Z.inj_pow in G. exact G.
Qed.

Lemma Zdigits2_ge (m : Z) : 0 < m -> 2 ^ Zdigits2 m <= 2 * m.
Proof.
  destruct m as [|p|p]; simpl; intros H; try lia.
  rewrite digits2_pos_size.
  pose proof (Pos.size_le p) as G.
  apply Pos2Z.pos_le_pos in G. rewrite Pos2Z.inj_pow in G. exact G.
Qed.

Lemma Zdigits2_le_of_lt (m k : Z) : 0 <= m -> 0 <= k -> m < 2 ^ k -> Zdigits2 m <= k.
Proof.
  intros Hm Hk Hlt.
  destruct (Z.eq_dec m 0) as [->|Hne]; [simpl; lia|].
  pose proof (Zdigits2_ge m ltac:(lia)) as G.
  pose proof (Zdigits2_nonneg m) as N.
  destruct (Z_le_gt_dec (Zdigits2 m) k) as [|Hgt]; [assumption|exfalso].
  assert (2 ^ (k + 1) <= 2 ^ Zdigits2 m) by (apply Z.pow_le_mono_r; lia).
  rewrite Z.pow_add_r in H by lia. lia.
Qed.

Lemma shr_1_digits (mrs : shr_record) :
  0 <= shr_m mrs ->
  0 <= shr_m (shr_1 mrs) /\
  Zdigits2 (shr_m (shr_1 mrs)) = Z.max 0 (Zdigits2 (shr_m mrs) - 1).
Proof.
  destruct mrs as [m r s].
  destruct m as [|[p|p|]|p]; cbn [shr_1 shr_m Zdigits2 digits2_pos]; intros H;
    rewrite ?Pos2Z.inj_succ; lia.
Qed.

Lemma iter_shr_1_digits (p : positive) :
  forall mrs,
    0 <= shr_m mrs ->
    0 <= shr_m (iter_pos shr_1 p mrs) /\
    Zdigits2 (shr_m (iter_pos shr_1 p mrs)) = Z.max 0 (Zdigits2 (shr_m mrs) - Zpos p).
Proof.
  induction p as [p IH|p IH|]; intros mrs H; cbn [iter_pos].
  - destruct (shr_1_digits mrs H) as [H1 E1].
    destruct (IH _ H1) as [H2 E2]. destruct (IH _ H2) as [H3 E3].
    split; [exact H3|]. rewrite E3, E2, E1. lia.
  - destruct (IH _ H) as [H2 E2]. destruct (IH _ H2) as [H3 E3].
    split; [exact H3|]. rewrite E3, E2. lia.
  - apply shr_1_digits, H.
Qed.

Lemma below_pow2_mono D D' x : D <= D' -> PyFloat.below_pow2 D x -> PyFloat.below_pow2 D' x.
Proof. destruct x; simpl; intros; lia || auto. Qed.

Lemma shr_record_of_loc_m m l : shr_m (shr_record_of_loc m l) = m.
Proof. destruct l as [|[| |]]; reflexivity. Qed.

Lemma fexp_eq x : fexp 53 1024 x = Z.max (x - 53) (-1074).
Proof. reflexivity. Qed.

Lemma shr_fexp_bound m e l :
  0 <= m ->
  let '(mrs, e') := shr_fexp 53 1024 m e l in
  0 <= shr_m mrs /\
  e' = Z.max e (fexp 53 1024 (Zdigits2 m + e)) /\
  Zdigits2 (shr_m mrs) + e' <= Z.max e' (Zdigits2 m + e).
Proof.
  intros Hm. unfold shr_fexp, shr.
  pose proof (Zdigits2_nonneg m) as Hd.
  destruct (fexp 53 1024 (Zdigits2 m + e) - e) as [|p|p] eqn:En.
  - rewrite shr_record_of_loc_m. lia.
  - destruct (iter_shr_1_digits p (shr_record_of_loc m l)) as [H1 H2].
    { rewrite shr_record_of_loc_m. exact Hm. }
    rewrite shr_record_of_loc_m in H2. lia.
  - rewrite shr_record_of_loc_m. lia.
Qed.

Lemma Zdigits2_succ m : 0 <= m -> Zdigits2 (m + 1) <= Zdigits2 m + 1.
Proof.
  intros Hm. pose proof (Zdigits2_nonneg m) as Hd.
  apply Zdigits2_le_of_lt; try lia.
  pose proof (Zdigits2_lt m Hm) as Hlt.
  rewrite Z.pow_add_r by lia. lia.
Qed.

Lemma round_nearest_even_bound m l :
  0 <= m ->
  0 <= round_nearest_even m l /\
  Zdigits2 (round_nearest_even m l) <= Zdigits2 m + 1.
Proof.
  intros Hm. pose proof (Zdigits2_succ m Hm) as Hs.
  unfold round_nearest_even.
  destruct l as [|[| |]]; try destruct (Z.even m); lia.
Qed.

Lemma binary_round_aux_below sx mx ex lx D :
  0 <= mx -> ex <= 971 -> Zdigits2 mx + ex <= D -> -1074 <= D <= 1023 ->
  PyFloat.below_pow2 (D + 1) (binary_round_aux 53 1024 sx mx ex lx).
Proof.
  intros Hm He Hd HD. unfold binary_round_aux.
  pose proof (shr_fexp_bound mx ex lx Hm) as S1.
  pose proof (Zdigits2_nonneg mx) as N0.
  destruct (shr_fexp 53 1024 mx ex lx) as [mrs' e'].
  destruct S1 as (P1 & E1 & B1).
  destruct (round_nearest_even_bound (shr_m mrs') (loc_of_shr_record mrs') P1) as [P2 B2].
  set (m1 := round_nearest_even (shr_m mrs') (loc_of_shr_record mrs')) in *.
  pose proof (shr_fexp_bound m1 e' loc_Exact P2) as S2.
  destruct (shr_fexp 53 1024 m1 e' loc_Exact) as [mrs'' e''].
  destruct S2 as (P3 & E2 & B3).
  rewrite fexp_eq in E1, E2.
  pose proof (Zdigits2_nonneg m1) as N1.
  pose proof (Zdigits2_nonneg (shr_m mrs')) as N2.
  destruct (shr_m mrs'') as [|m|m] eqn:Em.
  - exact I.
  - assert (Hle : e'' <= 971) by lia.
    replace (e'' <=? 1024 - 53) with true by (symmetry; apply Z.leb_le; lia).
    cbn [Zdigits2] in B3. cbn [PyFloat.below_pow2].
    pose proof (Pos2Z.is_pos (digits2_pos m)). lia.
  - lia.
Qed.

Lemma digits_iter_xO (m d : positive) :
  Zpos (digits2_pos (Pos.iter xO m d)) = Zpos (digits2_pos m) + Zpos d.
Proof.
  induction d as [|d IH] using Pos.peano_ind.
  - simpl. rewrite Pos2Z.inj_succ. lia.
  - rewrite Pos.iter_succ. cbn [digits2_pos]. rewrite !Pos2Z.inj_succ, IH. lia.
Qed.

Lemma shl_align_bound mx ex ex' :
  let '(mz, ez) := shl_align mx ex ex' in
  ez = Z.min ex ex' /\
  Zpos (digits2_pos mz) + ez = Zpos (digits2_pos mx) + ex.
Proof.
  unfold shl_align. destruct (ex' - ex) as [|d|d] eqn:E.
  - lia.
  - lia.
  - rewrite digits_iter_xO. lia.
Qed.

Lemma binary_round_below sx mx ex D :
  ex <= 971 -> Zpos (digits2_pos mx) + ex <= D -> -1074 <= D <= 1023 ->
  PyFloat.below_pow2 (D + 1) (binary_round 53 1024 sx mx ex).
Proof.
  intros He Hd HD. unfold binary_round.
  pose proof (shl_align_bound mx ex (fexp 53 1024 (Zpos (digits2_pos mx) + ex))) as A.
  destruct (shl_align mx ex _) as [mz ez]. destruct A as [A1 A2].
  apply binary_round_aux_below; cbn [Zdigits2]; lia.
Qed.

Lemma binary_normalize_below m e szero D :
  e <= 971 -> Zdigits2 m + e <= D -> -1074 <= D <= 1023 ->
  PyFloat.below_pow2 (D + 1) (binary_normalize 53 1024 m e szero).
Proof.
  intros He Hd HD. unfold binary_normalize.
  destruct m as [|p|p]; [exact I| |]; apply binary_round_below; assumption.
Qed.

Lemma Zdigits2_abs m : Zdigits2 m = Zdigits2 (Z.abs m).
Proof. destruct m; reflexivity. Qed.

Lemma Zdigits2_le_abs m k : 0 <= k -> Z.abs m < 2 ^ k -> Zdigits2 m <= k.
Proof.
  intros Hk H. rewrite Zdigits2_abs. apply Zdigits2_le_of_lt; lia.
Qed.

Lemma Zdigits2_mono a b : 0 <= a <= b -> Zdigits2 a <= Zdigits2 b.
Proof.
  intros H. apply Zdigits2_le_of_lt; try lia.
  - apply Zdigits2_nonneg.
  - pose proof (Zdigits2_lt b ltac:(lia)). lia.
Qed.

Lemma pos_lt_pow_digits (p : positive) : Zpos p < 2 ^ Zpos (digits2_pos p).
Proof. apply (Zdigits2_lt (Zpos p)). lia. Qed.

(** Sum or difference of two aligned mantissas. *)
Lemma aligned_sum_below (sa sb : bool) (a b : positive) (ez D : Z) (sub szero : bool) :
  ez <= 971 ->
  Zpos (digits2_pos a) + ez <= D -> Zpos (digits2_pos b) + ez <= D ->
  -1074 <= D + 1 <= 1023 ->
  PyFloat.below_pow2 (D + 2)
    (binary_normalize 53 1024
       ((if sub then Z.sub else Z.add) (cond_Zopp sa (Zpos a)) (cond_Zopp sb (Zpos b)))
       ez szero).
Proof.
  intros He Ha Hb HD.
  replace (D + 2) with ((D + 1) + 1) by lia.
  apply binary_normalize_below; try lia.
  set (k := Z.max (Zpos (digits2_pos a)) (Zpos (digits2_pos b)) + 1).
  assert (Hk : Zdigits2 ((if sub then Z.sub else Z.add)
                           (cond_Zopp sa (Zpos a)) (cond_Zopp sb (Zpos b))) <= k).
  { apply Zdigits2_le_abs; [unfold k; lia|].
    pose proof (pos_lt_pow_digits a) as La. pose proof (pos_lt_pow_digits b) as Lb.
    assert (2 ^ Zpos (digits2_pos a) <= 2 ^ (k - 1)) by (apply Z.pow_le_mono_r; unfold k; lia).
    assert (2 ^ Zpos (digits2_pos b) <= 2 ^ (k - 1)) by (apply Z.pow_le_mono_r; unfold k; lia).
    replace k with ((k - 1) + 1) by lia. rewrite Z.pow_add_r by (unfold k; lia).
    destruct sub, sa, sb; unfold cond_Zopp; lia. }
  unfold k in Hk. lia.
Qed.

Lemma SFsub_below x y D :
  PyFloat.below_pow2 D x -> PyFloat.below_pow2 D y -> -1075 <= D <= 1022 -> PyFloat.below_pow2 (D + 2) (SFsub 53 1024 x y).
Proof.
  intros Hx Hy HD.
  destruct x as [sx|sx| |sx mx ex], y as [sy|sy| |sy my ey]; cbn [PyFloat.below_pow2] in Hx, Hy; try contradiction.
  - simpl. destruct sx, sy; exact I.
  - cbn [SFsub PyFloat.below_pow2]. lia.
  - cbn [SFsub PyFloat.below_pow2]. lia.
  - unfold SFsub.
    pose proof (shl_align_bound mx ex (Z.min ex ey)) as A.
    pose proof (shl_align_bound my ey (Z.min ex ey)) as B.
    destruct (shl_align mx ex (Z.min ex ey)) as [a ea].
    destruct (shl_align my ey (Z.min ex ey)) as [b eb].
    cbn [fst].
    apply (aligned_sum_below sx sy a b (Z.min ex ey) D true false); lia.
Qed.

Lemma SFadd_below x y D :
  PyFloat.below_pow2 D x -> PyFloat.below_pow2 D y -> -1075 <= D <= 1022 -> PyFloat.below_pow2 (D + 2) (SFadd 53 1024 x y).
Proof.
  intros Hx Hy HD.
  destruct x as [sx|sx| |sx mx ex], y as [sy|sy| |sy my ey]; cbn [PyFloat.below_pow2] in Hx, Hy; try contradiction.
  - simpl. destruct sx, sy; exact I.
  - cbn [SFadd PyFloat.below_pow2]. lia.
  - cbn [SFadd PyFloat.below_pow2]. lia.
  - unfold SFadd.
    pose proof (shl_align_bound mx ex (Z.min ex ey)) as A.
    pose proof (shl_align_bound my ey (Z.min ex ey)) as B.
    destruct (shl_align mx ex (Z.min ex ey)) as [a ea].
    destruct (shl_align my ey (Z.min ex ey)) as [b eb].
    cbn [fst].
    apply (aligned_sum_below sx sy a b (Z.min ex ey) D false false); lia.
Qed.

Lemma div_digits a b :
  0 <= a -> 0 < b -> Zdigits2 (a / b) <= Z.max 0 (Zdigits2 a - Zdigits2 b + 1).
Proof.
  intros Ha Hb.
  pose proof (Zdigits2_nonneg a) as Na. pose proof (Zdigits2_nonneg b) as Nb.
  pose proof (Zdigits2_lt a Ha) as La. pose proof (Zdigits2_ge b Hb) as Gb.
  set (k := Z.max 0 (Zdigits2 a - Zdigits2 b + 1)).
  assert (Hdb : 1 <= Zdigits2 b) by (destruct b; simpl in *; lia).
  apply Zdigits2_le_of_lt; [apply Z.div_pos; lia | unfold k; lia |].
  apply Z.div_lt_upper_bound; [exact Hb|].
  assert (H1 : 2 ^ Zdigits2 a <= 2 ^ (Zdigits2 b - 1 + k))
    by (apply Z.pow_le_mono_r; unfold k; lia).
  rewrite Z.pow_add_r in H1 by (unfold k; lia).
  assert (H2 : 2 ^ Zdigits2 b = 2 * 2 ^ (Zdigits2 b - 1)).
  { replace (Zdigits2 b) with (1 + (Zdigits2 b - 1)) at 1 by lia.
    rewrite Z.pow_add_r by lia. reflexivity. }
  assert (H3 : 0 < 2 ^ k) by (apply Z.pow_pos_nonneg; unfold k; lia).
  nia.
Qed.

Lemma shiftl_digits (m : positive) (s : Z) :
  0 <= s -> Zdigits2 (Z.shiftl (Zpos m) s) <= Zpos (digits2_pos m) + s.
Proof.
  intros Hs. rewrite Z.shiftl_mul_pow2 by lia.
  pose proof (pos_lt_pow_digits m) as L.
  assert (0 < 2 ^ s) by (apply Z.pow_pos_nonneg; lia).
  apply Zdigits2_le_of_lt; [nia | lia |].
  rewrite Z.pow_add_r by lia. nia.
Qed.

Lemma hundred_float : PyFloat.of_int 100 = S754_finite false 7036874417766400 (-46).
Proof. reflexivity. Qed.

Lemma div_hundred_below x D :
  PyFloat.below_pow2 D x -> -1073 <= D <= 1024 -> PyFloat.below_pow2 D (PyFloat.div x (PyFloat.of_int 100)).
Proof.
  intros Hx HD. rewrite hundred_float. unfold PyFloat.div.
  destruct x as [sx|sx| |sx mx ex]; cbn [PyFloat.below_pow2] in Hx; try contradiction.
  - exact I.
  - unfold SFdiv, SFdiv_core_binary.
    change (Zdigits2 (Zpos 7036874417766400)) with 53.
    cbn [Zdigits2]. rewrite fexp_eq.
    set (e' := Z.min (Z.max (Zpos (digits2_pos mx) + ex - (53 + -46) - 53) (-1074)) (ex - -46)).
    set (s := ex - -46 - e').
    assert (Hs : 0 <= s) by (unfold s, e'; lia).
    set (m' := match s with Zpos _ => Z.shiftl (Zpos mx) s | Z0 => Zpos mx | Zneg _ => 0 end).
    assert (Hm' : 0 <= m' /\ Zdigits2 m' <= Zpos (digits2_pos mx) + s).
    { unfold m'. destruct s as [|p|p] eqn:Es.
      - cbn [Zdigits2]. lia.
      - split; [apply Z.shiftl_nonneg; lia | apply shiftl_digits; lia].
      - lia. }
    pose proof (div_digits m' 7036874417766400 (proj1 Hm') eq_refl) as Hq.
    change (Zdigits2 7036874417766400) with 53 in Hq.
    assert (Hq0 : 0 <= m' / 7036874417766400) by (apply Z.div_pos; lia).
    unfold Z.div in Hq, Hq0.
    destruct (Z.div_eucl m' 7036874417766400) as [q r].
    replace D with ((D - 1) + 1) by lia.
    apply binary_round_aux_below; unfold s, e' in *; lia.
Qed.

Lemma signed_digits (s : bool) (r : positive) :
  Zdigits2 (if s then Zneg r else Zpos r) = Zpos (digits2_pos r).
Proof. destruct s; reflexivity. Qed.

Lemma fmod_hundred_below x D :
  PyFloat.below_pow2 D x -> 7 <= D <= 1023 -> PyFloat.below_pow2 (D + 1) (PyFloat.fmod_int x 100).
Proof.
  intros Hx HD.
  destruct x as [sx|sx| |sx mx ex]; cbn [PyFloat.below_pow2] in Hx; try contradiction.
  - exact I.
  - unfold PyFloat.fmod_int, PyFloat.prec, PyFloat.emax.
    destruct ex as [|k|k].
    + pose proof (Z.mod_pos_bound (Zpos mx * 2 ^ 0) 100 eq_refl) as Hr.
      destruct ((Zpos mx * 2 ^ 0) mod 100) as [|r|r] eqn:Er; try exact I.
      apply binary_normalize_below; try lia.
      rewrite signed_digits.
      assert (Zdigits2 (Zpos r) <= 7) by (apply Zdigits2_le_of_lt; lia).
      cbn [Zdigits2] in *. lia.
    + pose proof (Z.mod_pos_bound (Zpos mx * 2 ^ Zpos k) 100 eq_refl) as Hr.
      destruct ((Zpos mx * 2 ^ Zpos k) mod 100) as [|r|r] eqn:Er; try exact I.
      apply binary_normalize_below; try lia.
      rewrite signed_digits.
      assert (Zdigits2 (Zpos r) <= 7) by (apply Zdigits2_le_of_lt; lia).
      cbn [Zdigits2] in *. lia.
    + assert (Hb : 0 < 100 * 2 ^ Zpos k) by (pose proof (Z.pow_pos_nonneg 2 (Zpos k)); lia).
      pose proof (Z.mod_le (Zpos mx) (100 * 2 ^ Zpos k) ltac:(lia) Hb) as Hle.
      pose proof (Z.mod_pos_bound (Zpos mx) (100 * 2 ^ Zpos k) Hb) as Hr.
      destruct (Zpos mx mod (100 * 2 ^ Zpos k)) as [|r|r] eqn:Er; try exact I.
      apply binary_normalize_below; try lia.
      rewrite signed_digits.
      pose proof (Zdigits2_mono (Zpos r) (Zpos mx) ltac:(lia)) as Hm.
      cbn [Zdigits2] in Hm. lia.
Qed.

Lemma floor_digits (s : bool) (m k : positive) :
  Zdigits2 ((if s then Zneg m else Zpos m) / 2 ^ Zpos k)
  <= Z.max 0 (Zpos (digits2_pos m) - Zpos k) + 1.
Proof.
  set (n := if s then Zneg m else Zpos m).
  set (K := Z.max 0 (Zpos (digits2_pos m) - Zpos k)).
  pose proof (pos_lt_pow_digits m) as L.
  assert (Hb : 0 < 2 ^ Zpos k) by (apply Z.pow_pos_nonneg; lia).
  assert (HK : 0 < 2 ^ K) by (apply Z.pow_pos_nonneg; unfold K; lia).
  assert (H1 : 2 ^ Zpos (digits2_pos m) <= 2 ^ (K + Zpos k))
    by (apply Z.pow_le_mono_r; unfold K; lia).
  rewrite Z.pow_add_r in H1 by (unfold K; lia).
  pose proof (Z.mul_div_le n (2 ^ Zpos k) Hb) as Q1.
  pose proof (Z.mul_succ_div_gt n (2 ^ Zpos k) Hb) as Q2.
  assert (Hn : Z.abs n = Zpos m) by (unfold n; destruct s; reflexivity).
  apply Zdigits2_le_abs; [unfold K; lia|].
  rewrite Z.pow_add_r by (unfold K; lia).
  change (2 ^ 1) with 2.
  set (q := n / 2 ^ Zpos k) in *.
  nia.
Qed.

Lemma floor_below x D :
  PyFloat.below_pow2 D x -> 0 <= D <= 1021 -> PyFloat.below_pow2 (D + 2) (PyFloat.floor x).
Proof.
  intros Hx HD.
  destruct x as [sx|sx| |sx mx ex]; cbn [PyFloat.below_pow2] in Hx; try contradiction.
  - exact I.
  - unfold PyFloat.floor, PyFloat.floor_Z, PyFloat.prec, PyFloat.emax.
    replace (D + 2) with ((D + 1) + 1) by lia.
    apply binary_normalize_below; try lia.
    destruct ex as [|k|k].
    + change (2 ^ 0) with 1. rewrite Z.mul_1_r, signed_digits. lia.
    + assert (Hb : 0 < 2 ^ Zpos k) by (apply Z.pow_pos_nonneg; lia).
      pose proof (pos_lt_pow_digits mx) as L.
      assert (Zdigits2 ((if sx then Zneg mx else Zpos mx) * 2 ^ Zpos k)
              <= Zpos (digits2_pos mx) + Zpos k).
      { apply Zdigits2_le_abs; [lia|].
        rewrite Z.pow_add_r by lia. rewrite Z.abs_mul.
        replace (Z.abs (if sx then Zneg mx else Zpos mx)) with (Zpos mx)
          by (destruct sx; reflexivity).
        rewrite (Z.abs_eq (2 ^ Zpos k)) by lia. nia. }
      lia.
    + pose proof (floor_digits sx mx k). lia.
Qed.

Lemma one_below : PyFloat.below_pow2 1 PyFloat.one.
Proof. cbn. lia. Qed.

Lemma floordiv_hundred_below x D :
  PyFloat.below_pow2 D x -> 7 <= D <= 1000 -> PyFloat.below_pow2 (D + 9) (PyFloat.floordiv_int x 100).
Proof.
  intros Hx HD. unfold PyFloat.floordiv_int.
  pose proof (fmod_hundred_below x D Hx ltac:(lia)) as Hmd.
  set (md := PyFloat.fmod_int x 100) in *.
  assert (Hsub : PyFloat.below_pow2 (D + 3) (PyFloat.sub x md)).
  { replace (D + 3) with ((D + 1) + 2) by lia.
    apply SFsub_below; [apply (below_pow2_mono D); [lia | exact Hx] | exact Hmd | lia]. }
  pose proof (div_hundred_below _ (D + 3) Hsub ltac:(lia)) as Hd0.
  set (d0 := PyFloat.div (PyFloat.sub x md) (PyFloat.of_int 100)) in *.
  assert (Hd : PyFloat.below_pow2 (D + 5)
                 (if PyFloat.truthy md && PyFloat.ltb md PyFloat.zero
                  then PyFloat.sub d0 PyFloat.one else d0)).
  { destruct (PyFloat.truthy md && PyFloat.ltb md PyFloat.zero).
    - replace (D + 5) with ((D + 3) + 2) by lia.
      apply SFsub_below; [exact Hd0 | apply (below_pow2_mono 1); [lia | exact one_below] | lia].
    - apply (below_pow2_mono (D + 3)); [lia | exact Hd0]. }
  set (d := if PyFloat.truthy md && PyFloat.ltb md PyFloat.zero
            then PyFloat.sub d0 PyFloat.one else d0) in *.
  destruct (PyFloat.truthy d); [|exact I].
  pose proof (floor_below d (D + 5) Hd ltac:(lia)) as Hf.
  replace (D + 5 + 2) with (D + 7) in Hf by lia.
  destruct (PyFloat.gtb _ _).
  - replace (D + 9) with ((D + 7) + 2) by lia.
    apply SFadd_below; [exact Hf | apply (below_pow2_mono 1); [lia | exact one_below] | lia].
  - apply (below_pow2_mono (D + 7)); [lia | exact Hf].
Qed.

Lemma price_range_of_below (p : PyFloat.float) :
  PyFloat.below_pow2 1000 p -> is_ok (OptimizedDeviceCache.price_range_of p) = true.
Proof.
  intros Hp.
  assert (H : exists D, 7 <= D <= 1000 /\ PyFloat.below_pow2 D p) by (exists 1000; split; [lia | exact Hp]).
  destruct H as (D & HD & Ht).
  pose proof (floordiv_hundred_below p D Ht HD) as Hq.
  unfold OptimizedDeviceCache.price_range_of, OptimizedDeviceCache.py_int.
  destruct (PyFloat.floordiv_int p 100) as [s|s| |s m e]; cbn [PyFloat.below_pow2] in Hq;
    try contradiction; reflexivity.
Qed.

(** ** Loading the device cache *)

(** C10, counterexample. The key of the only device has characters that
    are not white space, and loading the catalog raises: its price is
    infinite, and the range of an infinite price cannot be computed. *)
Lemma load_devices_raises_on_infinite_price :
  PyStr.any_char (fun c => negb (PyStr.isspace c)) "Galaxy S25" = true /\
  snd (OptimizedDeviceCache.load_devices (OptimizedDeviceCache.new 2000)
         Examples.infinite_price_catalog 0) = Raise ValueError.
Proof. vm_compute. split; reflexivity. Qed.

Lemma lstrip_empty (k : string) :
  PyStr.lstrip k = "" <-> PyStr.all_chars PyStr.isspace k = true.
Proof.
  induction k as [|c r IH]; simpl.
  - tauto.
  - destruct (PyStr.isspace c); simpl.
    + exact IH.
    + split; discriminate.
Qed.

Lemma any_not_space (k : string) :
  PyStr.any_char (fun c => negb (PyStr.isspace c)) k
  = negb (PyStr.all_chars PyStr.isspace k).
Proof.
  induction k as [|c r IH]; simpl; [reflexivity|].
  rewrite IH. destruct (PyStr.isspace c); reflexivity.
Qed.

Lemma brand_of_blank (k : string) :
  PyStr.truthy k = true -> PyStr.all_chars PyStr.isspace k = true ->
  OptimizedDeviceCache.brand_of k = Raise IndexError.
Proof.
  intros Ht Hs. unfold OptimizedDeviceCache.brand_of, PyStr.first_word.
  rewrite Ht. apply lstrip_empty in Hs. rewrite Hs. reflexivity.
Qed.

Lemma brand_of_ok (k : string) :
  is_ok (OptimizedDeviceCache.brand_of k) = Indexable.key k.
Proof.
  unfold OptimizedDeviceCache.brand_of, Indexable.key, PyStr.first_word.
  destruct (PyStr.truthy k) eqn:Ht; simpl; [|reflexivity].
  rewrite any_not_space.
  destruct (PyStr.all_chars PyStr.isspace k) eqn:Hs.
  - apply lstrip_empty in Hs. rewrite Hs. reflexivity.
  - destruct (PyStr.lstrip k) eqn:El; [|reflexivity].
    apply lstrip_empty in El. congruence.
Qed.

Lemma index_items_ok (items : catalog) :
  forall di pi,
    is_ok (snd (OptimizedDeviceCache.index_items items di pi))
    = forallb Indexable.entry items.
Proof.
  induction items as [|[k d] rest IH]; intros di pi; simpl; [reflexivity|].
  unfold Indexable.entry at 1. cbn [fst snd].
  rewrite <- brand_of_ok. unfold Indexable.price.
  destruct (OptimizedDeviceCache.brand_of k) as [brand|e]; simpl; [|reflexivity].
  destruct (PyFloat.truthy (OptimizedDeviceCache.price_of d)); simpl.
  - destruct (OptimizedDeviceCache.price_range_of _) as [range|e]; simpl.
    + apply IH.
    + reflexivity.
  - apply IH.
Qed.

Lemma price_range_of_not_finite (p : PyFloat.float) :
  PyFloat.is_finite p = false -> OptimizedDeviceCache.price_range_of p = Raise ValueError.
Proof.
  destruct p as [s|s| |s m e]; simpl; try discriminate; intros _.
  - destruct s; vm_compute; reflexivity.
  - vm_compute. reflexivity.
Qed.

(** C10, as amended. Loading a catalog into the device cache succeeds
    exactly when every key is empty or has a character that is not white
    space and every price is zero or absent or has a range label that can
    be computed. The label can be computed for every finite price below
    [2 ^ 1000] in magnitude, so a catalog with such prices and such keys
    loads. A key that is not empty and is all white space makes the build
    of the indexes raise [IndexError]; a price that is infinite or a NaN
    has no range label and makes it raise [ValueError], whatever the keys
    are. So loading is not total, over the keys and over the prices. *)
Theorem load_devices_succeeds_iff
    (c : OptimizedDeviceCache.cache) (devices_data : catalog) (now : Z) :
  is_ok (snd (OptimizedDeviceCache.load_devices c devices_data now))
    = forallb Indexable.entry devices_data /\
  (forall k, PyStr.truthy k = true -> PyStr.all_chars PyStr.isspace k = true ->
     Indexable.key k = false /\ OptimizedDeviceCache.brand_of k = Raise IndexError) /\
  (forall d, PyFloat.is_finite (OptimizedDeviceCache.price_of d) = false ->
     Indexable.price d = false /\
     OptimizedDeviceCache.price_range_of (OptimizedDeviceCache.price_of d)
       = Raise ValueError) /\
  (forall d, Indexable.moderate_price d -> Indexable.price d = true) /\
  (Forall (fun kv => Indexable.key (fst kv) = true /\ Indexable.moderate_price (snd kv))
          devices_data ->
   snd (OptimizedDeviceCache.load_devices c devices_data now) = Ok tt) /\
  snd (OptimizedDeviceCache.load_devices c Examples.blank_key_catalog now)
    = Raise IndexError /\
  snd (OptimizedDeviceCache.load_devices c Examples.infinite_price_catalog now)
    = Raise ValueError /\
  snd (OptimizedDeviceCache.load_devices c Examples.old_catalog now) = Ok tt.
Proof.
  assert (Hiff : is_ok (snd (OptimizedDeviceCache.load_devices c devices_data now))
                 = forallb Indexable.entry devices_data).
  { unfold OptimizedDeviceCache.load_devices, OptimizedDeviceCache._build_indexes.
    cbn [OptimizedDeviceCache.devices].
    pose proof (index_items_ok devices_data [] []) as H.
    destruct (OptimizedDeviceCache.index_items devices_data [] []) as [[di pi] [u|e]];
      simpl in *; exact H. }
  assert (Hmod : forall d, Indexable.moderate_price d -> Indexable.price d = true).
  { intros d H. unfold Indexable.price.
    rewrite (price_range_of_below _ H). apply orb_true_r. }
  split; [exact Hiff|].
  split.
  { intros k Ht Hs. split.
    - unfold Indexable.key. rewrite any_not_space, Ht, Hs. reflexivity.
    - apply brand_of_blank; assumption. }
  split.
  { intros d H. split.
    - unfold Indexable.price. rewrite (price_range_of_not_finite _ H).
      destruct (OptimizedDeviceCache.price_of d); simpl in *; try discriminate; reflexivity.
    - apply price_range_of_not_finite, H. }
  split; [exact Hmod|].
  split.
  { intros Hall.
    assert (Hok : forallb Indexable.entry devices_data = true).
    { apply forallb_forall. intros kv Hin.
      rewrite Forall_forall in Hall. destruct (Hall kv Hin) as [Hk Hp].
      unfold Indexable.entry. rewrite Hk, (Hmod _ Hp). reflexivity. }
    rewrite <- Hiff in Hok.
    destruct (snd (OptimizedDeviceCache.load_devices c devices_data now)) as [[]|e];
      [reflexivity | discriminate]. }
  repeat split.
Qed.

(** A key of two spaces, and a catalog of two ordinary devices. *)
Lemma load_devices_succeeds_iff_witness :
  (Indexable.key "  " = false /\
   OptimizedDeviceCache.brand_of "  " = Raise IndexError) /\
  snd (OptimizedDeviceCache.load_devices (OptimizedDeviceCache.new 2000)
         Examples.old_catalog 0) = Ok tt.
Proof.
  destruct (load_devices_succeeds_iff (OptimizedDeviceCache.new 2000)
              Examples.old_catalog 0) as (_ & Hblank & _ & _ & Hall & _).
  split.
  - apply Hblank; reflexivity.
  - apply Hall. repeat constructor; cbn; lia.
Defined.

(** ** Search cache *)

(** C5, counterexample. A search with the empty query returns the first
    names of the catalog and leaves the search cache as it was: the pair of
    the empty query and the limit is not in the cache after the call. *)
Lemma search_devices_empty_query_not_cached :
  let '(c', results) :=
    OptimizedDeviceCache.search_devices Examples.loaded_cache "" 10 in
  results = Ok ["Galaxy S25"; "Pixel 8"] /\
  OptimizedDeviceCache.search_cache c' = [] /\
  PyDict.mem (OptimizedDeviceCache.search_cache c')
    (OptimizedDeviceCache.cache_key "" 10) = false.
Proof. vm_compute. repeat split. Qed.

Section OrderedDictFacts.
Context {V : Type}.
Implicit Types (d rest : PyDict.dict V) (k : string) (v : V).

Lemma get_app_last rest k v :
  PyDict.get rest k = None -> PyDict.get (rest ++ [(k, v)])%list k = Some v.
Proof.
  induction rest as [|[k0 v0] r IH]; simpl.
  - rewrite String.eqb_refl. reflexivity.
  - destruct (String.eqb k0 k); [discriminate | exact IH].
Qed.

Lemma remove_app_last rest k v :
  PyDict.get rest k = None -> PyDict.remove (rest ++ [(k, v)])%list k = rest.
Proof.
  induction rest as [|[k0 v0] r IH]; simpl.
  - rewrite String.eqb_refl. reflexivity.
  - destruct (String.eqb k0 k); [discriminate|]. intros H. f_equal. apply IH, H.
Qed.

Lemma nodup_app_last rest k v :
  PyDict.nodup_keys rest -> PyDict.get rest k = None ->
  PyDict.nodup_keys (rest ++ [(k, v)])%list.
Proof.
  intros Hn Hg. rewrite <- (set_absent rest k v Hg). apply nodup_set, Hn.
Qed.

Lemma get_remove_other d k k' :
  PyDict.get d k' = None -> PyDict.get (PyDict.remove d k) k' = None.
Proof.
  induction d as [|[k0 v0] r IH]; simpl; [reflexivity|].
  destruct (String.eqb k0 k') eqn:E'; [discriminate|].
  destruct (String.eqb k0 k); simpl; [auto|]. rewrite E'. exact IH.
Qed.

Lemma get_remove_self d k :
  PyDict.nodup_keys d -> PyDict.get (PyDict.remove d k) k = None.
Proof.
  induction d as [|[k0 v0] r IH]; simpl; [reflexivity|].
  intros [Hf Hn]. destruct (String.eqb k0 k) eqn:E.
  - apply String.eqb_eq in E. subst k0. exact Hf.
  - simpl. rewrite E. apply IH, Hn.
Qed.

Lemma nodup_remove d k : PyDict.nodup_keys d -> PyDict.nodup_keys (PyDict.remove d k).
Proof.
  induction d as [|[k0 v0] r IH]; simpl; [auto|].
  intros [Hf Hn]. destruct (String.eqb k0 k); simpl; [exact Hn|].
  split; [apply get_remove_other, Hf | apply IH, Hn].
Qed.

Lemma remove_key_absent d k :
  PyDict.get d k = None -> Recency.remove_key k (PyDict.keys d) = PyDict.keys d.
Proof.
  unfold Recency.remove_key, PyDict.keys.
  induction d as [|[k0 v0] r IH]; simpl; [reflexivity|].
  destruct (String.eqb k0 k); simpl; [discriminate|].
  intros H. f_equal. apply IH, H.
Qed.

Lemma keys_remove d k :
  PyDict.nodup_keys d ->
  PyDict.keys (PyDict.remove d k) = Recency.remove_key k (PyDict.keys d).
Proof.
  induction d as [|[k0 v0] r IH]; simpl; [reflexivity|].
  intros [Hf Hn]. destruct (String.eqb k0 k) eqn:E; simpl.
  - apply String.eqb_eq in E. subst k0.
    symmetry. apply remove_key_absent, Hf.
  - f_equal. apply IH, Hn.
Qed.

Lemma keys_app d rest :
  PyDict.keys (d ++ rest)%list = (PyDict.keys d ++ PyDict.keys rest)%list.
Proof. unfold PyDict.keys. apply map_app. Qed.

End OrderedDictFacts.

Lemma remove_key_app k l1 l2 :
  Recency.remove_key k (l1 ++ l2)%list
  = (Recency.remove_key k l1 ++ Recency.remove_key k l2)%list.
Proof. unfold Recency.remove_key. apply filter_app. Qed.

(** One search with a query that is not empty, on a cache with room for at
    least one entry. *)
Lemma search_devices_step (c : OptimizedDeviceCache.cache) (query : string) (limit : Z) :
  PyStr.truthy query = true ->
  0 < OptimizedDeviceCache.max_cache_size c ->
  PyDict.nodup_keys (OptimizedDeviceCache.search_cache c) ->
  let key := OptimizedDeviceCache.cache_key query limit in
  let sc := OptimizedDeviceCache.search_cache c in
  exists results rest evicted,
    OptimizedDeviceCache.search_devices c query limit
      = (OptimizedDeviceCache.with_search_cache c (rest ++ [(key, results)])%list,
         Ok results) /\
    PyDict.get rest key = None /\
    PyDict.nodup_keys rest /\
    (Recency.remove_key key (PyDict.keys sc) = evicted ++ PyDict.keys rest)%list /\
    match PyDict.get sc key with
    | Some cached => results = cached /\ rest = PyDict.remove sc key /\ evicted = []
    | None =>
        results = OptimizedDeviceCache.search_loop (PyStr.lower query) limit
                    (PyDict.keys (OptimizedDeviceCache.devices c)) [] /\
        if Z.of_nat (List.length sc) >=? OptimizedDeviceCache.max_cache_size c
        then exists oldest, sc = oldest :: rest /\ evicted = [fst oldest]
        else rest = sc /\ evicted = []
    end.
Proof.
  intros Hq Hmax Hn. cbv zeta.
  unfold OptimizedDeviceCache.search_devices. rewrite Hq. cbn [negb].
  set (key := OptimizedDeviceCache.cache_key query limit).
  remember (OptimizedDeviceCache.search_cache c) as sc eqn:Hsc.
  destruct (PyDict.get sc key) as [cached|] eqn:Eg.
  - exists cached, (PyDict.remove sc key), [].
    unfold OptimizedDeviceCache.move_to_end. rewrite Eg.
    repeat split.
    + apply get_remove_self, Hn.
    + apply nodup_remove, Hn.
    + symmetry. apply keys_remove, Hn.
  - set (results := OptimizedDeviceCache.search_loop (PyStr.lower query) limit
                      (PyDict.keys (OptimizedDeviceCache.devices c)) []).
    destruct (Z.of_nat (List.length sc) >=? OptimizedDeviceCache.max_cache_size c) eqn:Ec.
    + destruct sc as [|[k0 v0] tl].
      * simpl in Ec. apply Z.geb_le in Ec. lia.
      * simpl in Eg. destruct (String.eqb k0 key) eqn:E0; [discriminate|].
        destruct Hn as [Hf Hn].
        exists results, tl, [k0]. cbn [OptimizedDeviceCache.popitem_first].
        rewrite (set_absent tl key results Eg).
        repeat split; auto.
        -- cbn [PyDict.keys map fst]. unfold Recency.remove_key. cbn [filter].
           rewrite E0. cbn [negb app]. f_equal.
           apply (remove_key_absent tl key Eg).
        -- exists (k0, v0). split; reflexivity.
    + exists results, sc, []. rewrite (set_absent sc key results Eg).
      repeat split; auto.
      apply (remove_key_absent sc key Eg).
Qed.

(** The keys of the search cache are the most recently used keys, in the
    order of their last use: what a history of searches leaves in the
    cache ends the list of its distinct keys by last use. *)
Lemma run_recency (calls : list (string * Z)) :
  forall c before,
    0 < OptimizedDeviceCache.max_cache_size c ->
    PyDict.nodup_keys (OptimizedDeviceCache.search_cache c) ->
    exists evicted,
      Recency.recency (before ++ PyDict.keys (OptimizedDeviceCache.search_cache c))%list
        (Recency.used_keys calls)
      = (evicted ++ PyDict.keys (OptimizedDeviceCache.search_cache (Recency.run c calls)))%list.
Proof.
  induction calls as [|[query limit] rest IH]; intros c before Hmax Hn.
  - exists before. reflexivity.
  - cbn [Recency.run fst snd]. unfold Recency.used_keys. cbn [filter fst].
    destruct (PyStr.truthy query) eqn:Hq.
    + destruct (search_devices_step c query limit Hq Hmax Hn)
        as (results & kept & evicted & Hcall & Hfresh & Hnk & Hkeys & _).
      rewrite Hcall. cbn [fst map snd Recency.recency].
      fold (Recency.used_keys rest).
      rewrite remove_key_app, Hkeys.
      set (c' := OptimizedDeviceCache.with_search_cache c
                   (kept ++ [(OptimizedDeviceCache.cache_key query limit, results)])%list).
      destruct (IH c' (Recency.remove_key (OptimizedDeviceCache.cache_key query limit) before
                         ++ evicted)%list) as [ev Hev].
      * exact Hmax.
      * apply nodup_app_last; assumption.
      * exists ev. rewrite <- Hev. f_equal.
        unfold c'. cbn [OptimizedDeviceCache.search_cache OptimizedDeviceCache.with_search_cache].
        rewrite keys_app. cbn [PyDict.keys map fst].
        rewrite <- !app_assoc. reflexivity.
    + fold (Recency.used_keys rest).
      unfold OptimizedDeviceCache.search_devices. rewrite Hq. cbn [negb fst].
      apply IH; assumption.
Qed.

(** C5, as amended. For every query that is not empty and every limit, on
    a cache with room for at least one entry: after the search the key of
    the lower-cased query and the limit is in the search cache, as its
    most recent entry, with the list returned; when the key was there
    already the list returned is the cached one; the same call again
    returns the same list and leaves the cache as it is, the entry staying
    the most recent; a write into a cache at capacity drops the first
    entry, and a write below capacity drops none. The entries stand in the
    order of their last use, so the first entry is the least recently used
    one. A search with the empty query does not touch the search cache. *)
Theorem search_devices_caches_and_evicts_lru
    (c : OptimizedDeviceCache.cache) (query : string) (limit : Z)
    (calls : list (string * Z)) :
  PyStr.truthy query = true ->
  0 < OptimizedDeviceCache.max_cache_size c ->
  PyDict.nodup_keys (OptimizedDeviceCache.search_cache c) ->
  let key := OptimizedDeviceCache.cache_key query limit in
  let sc := OptimizedDeviceCache.search_cache c in
  exists results c',
    OptimizedDeviceCache.search_devices c query limit = (c', Ok results) /\
    (exists rest, OptimizedDeviceCache.search_cache c' = rest ++ [(key, results)])%list /\
    PyDict.get (OptimizedDeviceCache.search_cache c') key = Some results /\
    match PyDict.get sc key with
    | Some cached =>
        results = cached /\
        OptimizedDeviceCache.search_cache c' = OptimizedDeviceCache.move_to_end sc key
    | None =>
        if Z.of_nat (List.length sc) >=? OptimizedDeviceCache.max_cache_size c
        then OptimizedDeviceCache.search_cache c' = (List.tl sc ++ [(key, results)])%list
        else OptimizedDeviceCache.search_cache c' = (sc ++ [(key, results)])%list
    end /\
    OptimizedDeviceCache.search_devices c' query limit = (c', Ok results) /\
    (exists evicted,
       Recency.recency (PyDict.keys sc) (Recency.used_keys calls)
       = (evicted ++ PyDict.keys (OptimizedDeviceCache.search_cache (Recency.run c calls)))%list) /\
    OptimizedDeviceCache.search_devices c "" limit
      = (c, Ok (OptimizedDeviceCache.slice_to
                  (PyDict.keys (OptimizedDeviceCache.devices c)) limit)).
Proof.
  intros Hq Hmax Hn. cbv zeta.
  destruct (search_devices_step c query limit Hq Hmax Hn)
    as (results & kept & evicted & Hcall & Hfresh & Hnk & Hkeys & Hcase).
  set (key := OptimizedDeviceCache.cache_key query limit) in *.
  exists results,
    (OptimizedDeviceCache.with_search_cache c (kept ++ [(key, results)])%list).
  split; [exact Hcall|].
  split; [exists kept; reflexivity|].
  split; [apply get_app_last, Hfresh|].
  split.
  { destruct (PyDict.get (OptimizedDeviceCache.search_cache c) key) as [cached|] eqn:Eg.
    - destruct Hcase as (-> & -> & _). split; [reflexivity|].
      unfold OptimizedDeviceCache.move_to_end. rewrite Eg. reflexivity.
    - destruct Hcase as [_ Hcase].
      destruct (_ >=? _).
      + destruct Hcase as (oldest & -> & _). reflexivity.
      + destruct Hcase as [-> _]. reflexivity. }
  split.
  { unfold OptimizedDeviceCache.search_devices. rewrite Hq. cbn [negb].
    cbn [OptimizedDeviceCache.search_cache OptimizedDeviceCache.with_search_cache].
    fold key. rewrite (get_app_last kept key results Hfresh).
    unfold OptimizedDeviceCache.move_to_end.
    rewrite (get_app_last kept key results Hfresh), (remove_app_last kept key results Hfresh).
    reflexivity. }
  split.
  { destruct (run_recency calls c [] Hmax Hn) as [ev Hev]. exists ev. exact Hev. }
  reflexivity.
Qed.

(** The search for [Galaxy] with the limit 10 on the loaded cache. *)
Lemma search_devices_caches_and_evicts_lru_witness :
  exists results c',
    OptimizedDeviceCache.search_devices Examples.loaded_cache "Galaxy" 10 = (c', Ok results) /\
    PyDict.get (OptimizedDeviceCache.search_cache c')
      (OptimizedDeviceCache.cache_key "Galaxy" 10) = Some results /\
    OptimizedDeviceCache.search_devices c' "Galaxy" 10 = (c', Ok results).
Proof.
  destruct (search_devices_caches_and_evicts_lru Examples.loaded_cache "Galaxy" 10
              [("Galaxy", 10); ("pixel", 5); ("Galaxy", 10)]
              eq_refl eq_refl I)
    as (results & c' & H1 & _ & H3 & _ & H5 & _).
  exists results, c'. repeat split; assumption.
Defined.

(** * Properties of the further code *)

(** ** Signs of float results *)

Section SignFacts.
Import PyFloat TaxTable.

Lemma binary_round_aux_sign s m e l :
  has_sign s (binary_round_aux prec emax s m e l).
Proof.
  unfold binary_round_aux.
  destruct (shr_fexp prec emax m e l) as [mrs' e'].
  destruct (shr_fexp prec emax _ e' loc_Exact) as [mrs'' e''].
  destruct (shr_m mrs''); cbn [has_sign]; auto.
  destruct (e'' <=? emax - prec); reflexivity.
Qed.

Lemma binary_normalize_nonneg m e :
  0 <= m -> has_sign false (binary_normalize prec emax m e false).
Proof.
  intros H. destruct m as [|p|p]; cbn [binary_normalize has_sign]; [reflexivity| |lia].
  unfold binary_round. destruct (shl_align p e _) as [mz ez].
  apply binary_round_aux_sign.
Qed.

Lemma has_sign_not_negative x : has_sign false x -> not_negative x.
Proof. destruct x; simpl; auto. Qed.

Lemma not_negative_ltb x : not_negative x <-> ltb x zero = false.
Proof.
  destruct x as [[|]|[|]| |[|] m e]; cbn; split; intros H;
    try reflexivity; try exact I; try discriminate.
Qed.

Lemma div_sign x y : has_sign false x -> has_sign false y -> has_sign false (div x y).
Proof.
  destruct x as [sx|sx| |sx mx ex], y as [sy|sy| |sy my ey]; cbn [has_sign div SFdiv];
    intros Hx Hy; subst; try exact I; try reflexivity.
  destruct (SFdiv_core_binary prec emax (Z.pos mx) ex (Z.pos my) ey) as [[mz ez] lz].
  apply binary_round_aux_sign.
Qed.

(** A product with a factor of clear sign has the sign of the other
    factor, when that one is not negative. *)
Lemma mul_not_negative x y : not_negative x -> has_sign false y -> not_negative (mul x y).
Proof.
  destruct x as [sx|sx| |sx mx ex], y as [sy|sy| |sy my ey];
    cbn [has_sign not_negative mul SFmul]; intros Hx Hy; subst;
    try exact I; try reflexivity.
  apply has_sign_not_negative. apply (binary_round_aux_sign (xorb false false)).
Qed.

Lemma add_not_negative x y : not_negative x -> not_negative y -> not_negative (add x y).
Proof.
  destruct x as [sx|sx| |sx mx ex], y as [sy|sy| |sy my ey];
    cbn [not_negative add SFadd]; intros Hx Hy; subst;
    try exact I; try reflexivity.
  - destruct sx, sy; exact I.
  - apply has_sign_not_negative, binary_normalize_nonneg. cbn [cond_Zopp]. lia.
Qed.

Lemma round2_not_negative x : not_negative x -> not_negative (round2 x).
Proof.
  destruct x as [sx|sx| |sx mx ex]; cbn [not_negative round2]; auto.
  intros ->. destruct (hundredths mx ex); cbn [not_negative]; auto.
  apply has_sign_not_negative. unfold of_ratio. cbn [SFdiv].
  destruct (SFdiv_core_binary _ _ _ _ _ _) as [[mz ez] lz].
  apply (binary_round_aux_sign (xorb false false)).
Qed.

Lemma rate_sign n : has_sign false (rate n).
Proof.
  unfold rate, of_decimal. destruct n; cbn [has_sign]; try reflexivity.
  unfold of_ratio. apply (div_sign (S754_finite false p 0) (S754_finite false _ 0));
    reflexivity.
Qed.

Lemma get_tax_rate_sign state_name : has_sign false (get_tax_rate state_name).
Proof.
  unfold get_tax_rate.
  assert (H : Forall (fun kv => has_sign false (snd kv)) STATE_TAX_RATES).
  { unfold STATE_TAX_RATES. repeat (constructor; [apply rate_sign|]). constructor. }
  induction H as [|[k v] r Hv _ IH]; cbn [PyDict.get].
  - reflexivity.
  - destruct (String.eqb k state_name); [exact Hv | exact IH].
Qed.

Lemma calculate_sales_tax_not_negative amount tax_rate :
  has_sign false tax_rate ->
  not_negative (fst (TaxData.calculate_sales_tax amount tax_rate)) /\
  not_negative (snd (TaxData.calculate_sales_tax amount tax_rate)).
Proof.
  intros Hr. unfold TaxData.calculate_sales_tax.
  destruct (ltb amount (of_int 0)) eqn:E; cbn [fst snd].
  - split; exact I.
  - assert (Ha : not_negative amount) by (apply not_negative_ltb; exact E).
    assert (Ht : not_negative (mul amount (div tax_rate (of_int 100)))).
    { apply mul_not_negative; [exact Ha|]. apply div_sign; [exact Hr | reflexivity]. }
    split; apply round2_not_negative; [exact Ht|].
    apply add_not_negative; assumption.
Qed.

End SignFacts.

(** X1. Whatever the state name and the amount, the tax and the total
    that [calculate_sales_tax] returns for the rate of [get_tax_rate] are
    never below zero: each is a zero, a positive number, an infinity or a
    NaN. *)
Theorem tax_and_total_never_negative (state_name : string) (amount : PyFloat.float) :
  let '(tax_amount, total_amount) :=
    TaxData.calculate_sales_tax amount (TaxTable.get_tax_rate state_name) in
  PyFloat.ltb tax_amount PyFloat.zero = false /\
  PyFloat.ltb total_amount PyFloat.zero = false.
Proof.
  pose proof (calculate_sales_tax_not_negative amount _ (get_tax_rate_sign state_name)) as H.
  destruct (TaxData.calculate_sales_tax _ _) as [t tot]. cbn [fst snd] in H.
  split; apply not_negative_ltb; apply H.
Qed.

(** X2. A state name that is not a key of the table, such as a name in
    another case, is not an error: for a finite amount that is not below
    zero the tax is zero and the total is the amount rounded to cents. *)
Theorem unknown_state_is_untaxed (state_name : string) (amount : PyFloat.float) :
  PyDict.get TaxTable.STATE_TAX_RATES state_name = None ->
  PyFloat.is_finite amount = true ->
  PyFloat.ltb amount (PyFloat.of_int 0) = false ->
  let '(tax_amount, total_amount) :=
    TaxData.calculate_sales_tax amount (TaxTable.get_tax_rate state_name) in
  PyFloat.eqb tax_amount PyFloat.zero = true /\
  total_amount = PyFloat.round2 amount.
Proof.
  intros Hk Hf Hl. unfold TaxTable.get_tax_rate, TaxData.calculate_sales_tax.
  rewrite Hk, Hl.
  destruct amount as [s|s| |s m e]; try discriminate.
  - split; [reflexivity|]. destruct s; reflexivity.
  - split; [reflexivity|]. destruct s; reflexivity.
Qed.

Lemma unknown_state_is_untaxed_witness :
  let '(tax_amount, total_amount) :=
    TaxData.calculate_sales_tax (PyFloat.of_int 100) (TaxTable.get_tax_rate "california") in
  PyFloat.eqb tax_amount PyFloat.zero = true /\
  total_amount = PyFloat.round2 (PyFloat.of_int 100).
Proof.
  apply (unknown_state_is_untaxed "california" (PyFloat.of_int 100)); reflexivity.
Defined.

(** ** The tax of a finite amount is finite *)

Lemma mul_digits a b : 0 <= a -> 0 <= b -> Zdigits2 (a * b) <= Zdigits2 a + Zdigits2 b.
Proof.
  intros Ha Hb.
  pose proof (Zdigits2_nonneg a). pose proof (Zdigits2_nonneg b).
  pose proof (Zdigits2_lt a Ha). pose proof (Zdigits2_lt b Hb).
  apply Zdigits2_le_of_lt; [nia | lia |].
  rewrite Z.pow_add_r by lia. nia.
Qed.

Lemma mul_below x y D1 D2 :
  PyFloat.below_pow2 D1 x -> PyFloat.below_pow2 D2 y ->
  -1074 <= D1 + D2 <= 973 ->
  PyFloat.below_pow2 (D1 + D2 + 1) (PyFloat.mul x y).
Proof.
  intros Hx Hy HD.
  destruct x as [sx|sx| |sx mx ex], y as [sy|sy| |sy my ey];
    cbn [PyFloat.below_pow2] in Hx, Hy; try contradiction;
    cbn [PyFloat.mul SFmul PyFloat.below_pow2]; try exact I.
  pose proof (mul_digits (Zpos mx) (Zpos my) ltac:(lia) ltac:(lia)) as Hd.
  cbn [Zdigits2] in Hd.
  pose proof (Pos2Z.is_pos (digits2_pos mx)). pose proof (Pos2Z.is_pos (digits2_pos my)).
  apply binary_round_aux_below.
  - lia.
  - lia.
  - change (Z.pos (mx * my)) with (Z.pos mx * Z.pos my). lia.
  - lia.
Qed.

Lemma round_half_even_div_bound n d :
  0 <= n -> 0 < d -> n / d <= PyFloat.round_half_even_div n d <= n / d + 1.
Proof.
  intros Hn Hd. unfold PyFloat.round_half_even_div.
  destruct (2 * (n mod d) ?= d); try destruct (Z.even (n / d)); lia.
Qed.

Lemma hundredths_digits m e D :
  Zpos (digits2_pos m) + e <= D ->
  0 <= PyFloat.hundredths m e /\ Zdigits2 (PyFloat.hundredths m e) <= Z.max 1 (D + 8).
Proof.
  intros HD. pose proof (pos_lt_pow_digits m) as L.
  pose proof (Pos2Z.is_pos (digits2_pos m)) as Hdm.
  unfold PyFloat.hundredths. destruct e as [|p|k].
  - assert (H : 0 <= Z.pos m * 2 ^ 0 * 100 < 2 ^ (D + 7)).
    { split; [lia|]. replace (D + 7) with ((D - Zpos (digits2_pos m)) + Zpos (digits2_pos m) + 7) by lia.
      rewrite !Z.pow_add_r by lia.
      assert (1 <= 2 ^ (D - Z.pos (digits2_pos m))) by (apply Z.pow_le_mono_r with (a:=2) (b:=0) (c:=D - Z.pos (digits2_pos m)); lia || lia).
      change (2 ^ 7) with 128. change (2 ^ 0) with 1. nia. }
    destruct H as [H0 H1]. split; [exact H0|].
    etransitivity; [apply Zdigits2_le_of_lt with (k := D + 7); [exact H0 | lia | exact H1]|lia].
  - assert (H : 0 <= Z.pos m * 2 ^ Z.pos p * 100 < 2 ^ (D + 7)).
    { assert (0 < 2 ^ Z.pos p) by (apply Z.pow_pos_nonneg; lia).
      split; [nia|].
      replace (D + 7) with ((D - Zpos (digits2_pos m) - Z.pos p) + Zpos (digits2_pos m) + Z.pos p + 7) by lia.
      rewrite !Z.pow_add_r by lia.
      assert (1 <= 2 ^ (D - Z.pos (digits2_pos m) - Z.pos p))
        by (apply Z.pow_le_mono_r with (a:=2) (b:=0); lia).
      change (2 ^ 7) with 128.
      set (a := 2 ^ (D - Z.pos (digits2_pos m) - Z.pos p)) in *.
      set (b := 2 ^ Z.pos (digits2_pos m)) in *. set (c := 2 ^ Z.pos p) in *.
      assert (Z.pos m * c < b * c) by nia.
      assert (b * c <= a * (b * c)) by nia.
      lia. }
    destruct H as [H0 H1]. split; [exact H0|].
    etransitivity; [apply Zdigits2_le_of_lt with (k := D + 7); [exact H0 | lia | exact H1]|lia].
  - assert (Hd : 0 < 2 ^ Z.pos k) by (apply Z.pow_pos_nonneg; lia).
    pose proof (round_half_even_div_bound (Z.pos m * 100) (2 ^ Z.pos k) ltac:(lia) Hd) as B.
    assert (Hq : 0 <= Z.pos m * 100 / 2 ^ Z.pos k) by (apply Z.div_pos; lia).
    split; [lia|].
    set (X := Z.max 0 (D + 7)).
    assert (Hlt : Z.pos m * 100 / 2 ^ Z.pos k < 2 ^ X).
    { apply Z.div_lt_upper_bound; [exact Hd|].
      assert (2 ^ (Z.pos (digits2_pos m) + 7) <= 2 ^ (Z.pos k + X))
        by (apply Z.pow_le_mono_r; unfold X; lia).
      rewrite Z.pow_add_r in H by (unfold X; lia).
      rewrite Z.pow_add_r in H by lia. change (2 ^ 7) with 128 in H. nia. }
    etransitivity; [apply Zdigits2_le_of_lt with (k := X + 1); [lia | unfold X; lia |]|unfold X; lia].
    rewrite Z.pow_add_r by (unfold X; lia). change (2 ^ 1) with 2. lia.
Qed.

Lemma of_ratio_hundred_finite s n :
  Zdigits2 (Zpos n) <= 1029 ->
  PyFloat.is_finite (PyFloat.of_ratio s n 100) = true.
Proof.
  intros Hn. unfold PyFloat.of_ratio, SFdiv, SFdiv_core_binary.
  change (Zdigits2 (Zpos 100)) with 7. rewrite fexp_eq.
  set (d1 := Zdigits2 (Z.pos n)) in *.
  assert (Hd1 : 0 < d1) by (unfold d1; cbn [Zdigits2]; lia).
  set (e' := Z.min (Z.max (d1 + 0 - (7 + 0) - 53) (-1074)) (0 - 0)).
  set (sh := 0 - 0 - e').
  assert (Hs : 0 <= sh) by (unfold sh, e'; lia).
  set (m' := match sh with Zpos _ => Z.shiftl (Zpos n) sh | Z0 => Zpos n | Zneg _ => 0 end).
  assert (Hm' : 0 <= m' /\ Zdigits2 m' <= d1 + sh).
  { unfold m'. destruct sh as [|p|p] eqn:Es.
    - lia.
    - split; [apply Z.shiftl_nonneg; lia | apply shiftl_digits; lia].
    - lia. }
  pose proof (div_digits m' 100 (proj1 Hm') eq_refl) as Hq.
  change (Zdigits2 100) with 7 in Hq.
  assert (Hq0 : 0 <= m' / 100) by (apply Z.div_pos; lia).
  unfold Z.div in Hq, Hq0.
  destruct (Z.div_eucl m' 100) as [q r].
  assert (B : PyFloat.below_pow2 (Z.max 0 (d1 - 6) + 1)
                (binary_round_aux 53 1024 (xorb s false) q e' (new_location 100 r))).
  { apply binary_round_aux_below; unfold sh, e' in *; lia. }
  destruct (binary_round_aux _ _ _ _ _ _); cbn in B |- *; auto.
Qed.

Lemma round2_finite x D :
  PyFloat.below_pow2 D x -> D <= 1021 -> PyFloat.is_finite (PyFloat.round2 x) = true.
Proof.
  intros Hx HD. destruct x as [s|s| |s m e]; cbn [PyFloat.below_pow2] in Hx; try contradiction.
  - reflexivity.
  - cbn [PyFloat.round2].
    destruct (hundredths_digits m e D (proj2 Hx)) as [H0 H1].
    destruct (PyFloat.hundredths m e) as [|n|n]; try reflexivity.
    apply of_ratio_hundred_finite. lia.
Qed.

Lemma get_tax_rate_below state_name :
  PyFloat.below_pow2 3 (TaxTable.get_tax_rate state_name).
Proof.
  unfold TaxTable.get_tax_rate.
  assert (H : Forall (fun kv => PyFloat.below_pow2 3 (snd kv)) TaxTable.STATE_TAX_RATES).
  { unfold TaxTable.STATE_TAX_RATES.
    repeat (constructor;
            [vm_compute; first [exact I | split; intros H; discriminate H]|]).
    constructor. }
  induction H as [|[k v] r Hv _ IH]; cbn [PyDict.get].
  - exact I.
  - destruct (String.eqb k state_name); [exact Hv | exact IH].
Qed.

(** X3. No overflow in the tax of a state. For every state name and every
    finite amount of magnitude below [2 ^ 970], the tax and the total
    returned are finite numbers: neither an infinity nor a NaN comes out of
    the multiplication, the sum or the rounding. *)
Theorem tax_and_total_finite (state_name : string) (amount : PyFloat.float) :
  PyFloat.below_pow2 970 amount ->
  let '(tax_amount, total_amount) :=
    TaxData.calculate_sales_tax amount (TaxTable.get_tax_rate state_name) in
  PyFloat.is_finite tax_amount = true /\ PyFloat.is_finite total_amount = true.
Proof.
  intros Ha. unfold TaxData.calculate_sales_tax.
  destruct (PyFloat.ltb amount (PyFloat.of_int 0)); [split; reflexivity|].
  pose proof (get_tax_rate_below state_name) as Hr.
  apply (div_hundred_below _ 3) in Hr; [|lia].
  pose proof (mul_below amount _ 970 3 Ha Hr ltac:(lia)) as Ht.
  pose proof (SFadd_below amount _ 974
                (below_pow2_mono 970 974 amount ltac:(lia) Ha) Ht ltac:(lia)) as Hs.
  split.
  - apply (round2_finite _ (970 + 3 + 1)); [exact Ht | lia].
  - apply (round2_finite _ (974 + 2)); [exact Hs | lia].
Qed.

Lemma tax_and_total_finite_witness :
  let '(tax_amount, total_amount) :=
    TaxData.calculate_sales_tax Examples.price_799_99 (TaxTable.get_tax_rate "California") in
  PyFloat.is_finite tax_amount = true /\ PyFloat.is_finite total_amount = true.
Proof.
  apply (tax_and_total_finite "California" Examples.price_799_99).
  vm_compute. split; intros H; discriminate H.
Defined.

(** ** The search loop and the search cache *)

Lemma search_loop_firstn (query_lower : string) (limit : Z) (names results : list string) :
  OptimizedDeviceCache.search_loop query_lower limit names results
  = (results ++ firstn (Z.to_nat (Z.max 1 (limit - Z.of_nat (List.length results))))
                  (filter (DeviceIndex.matches query_lower) names))%list.
Proof.
  revert results. induction names as [|n rest IH]; intros results.
  - cbn [OptimizedDeviceCache.search_loop filter]. rewrite firstn_nil, app_nil_r. reflexivity.
  - cbn [OptimizedDeviceCache.search_loop filter]. unfold DeviceIndex.matches at 1.
    destruct (PyStr.contains query_lower (PyStr.lower n)); [|apply IH].
    rewrite length_app. cbn [List.length].
    destruct (Z.of_nat (List.length results + 1) >=? limit) eqn:E.
    + apply Z.geb_le in E.
      replace (Z.max 1 (limit - Z.of_nat (List.length results))) with 1 by lia.
      reflexivity.
    + rewrite Z.geb_leb in E. apply Z.leb_gt in E. rewrite IH, length_app. cbn [List.length].
      rewrite <- app_assoc. f_equal.
      replace (Z.to_nat (Z.max 1 (limit - Z.of_nat (List.length results))))
        with (S (Z.to_nat (Z.max 1 (limit - Z.of_nat (List.length results + 1))))) by lia.
      reflexivity.
Qed.

(** X4. A search that is not answered from the search cache returns the
    first [limit] device names, in catalog order, that have the lower-cased
    query as a substring of their lower-cased name; with a limit of zero or
    less it still returns the first such name. *)
Theorem search_devices_miss_returns_first_matches
    (c : OptimizedDeviceCache.cache) (query : string) (limit : Z) :
  PyStr.truthy query = true ->
  0 < OptimizedDeviceCache.max_cache_size c ->
  PyDict.get (OptimizedDeviceCache.search_cache c)
    (OptimizedDeviceCache.cache_key query limit) = None ->
  snd (OptimizedDeviceCache.search_devices c query limit)
  = Ok (firstn (Z.to_nat (Z.max 1 limit))
          (filter (DeviceIndex.matches (PyStr.lower query))
             (PyDict.keys (OptimizedDeviceCache.devices c)))).
Proof.
  intros Hq Hmax Hmiss. unfold OptimizedDeviceCache.search_devices.
  rewrite Hq, Hmiss. cbn [negb].
  rewrite search_loop_firstn. cbn [List.length app Z.of_nat]. rewrite Z.sub_0_r.
  destruct (Z.of_nat _ >=? _) eqn:E; [|reflexivity].
  destruct (OptimizedDeviceCache.search_cache c) as [|kv rest]; [|reflexivity].
  apply Z.geb_le in E. cbn [List.length Z.of_nat] in E. lia.
Qed.

Lemma search_devices_miss_returns_first_matches_witness :
  snd (OptimizedDeviceCache.search_devices Examples.loaded_cache "PIXEL" 0)
  = Ok (firstn (Z.to_nat (Z.max 1 0))
          (filter (DeviceIndex.matches (PyStr.lower "PIXEL"))
             (PyDict.keys (OptimizedDeviceCache.devices Examples.loaded_cache)))).
Proof.
  apply (search_devices_miss_returns_first_matches Examples.loaded_cache "PIXEL" 0).
  - reflexivity.
  - vm_compute. reflexivity.
  - reflexivity.
Defined.


(** *** The key of the search cache *)

Section CacheKeyFacts.
Import DeviceIndex.

Lemma string_of_uint_no_colon (d : Decimal.uint) :
  PyStr.any_char is_colon (NilEmpty.string_of_uint d) = false.
Proof. induction d; cbn [NilEmpty.string_of_uint PyStr.any_char]; auto. Qed.

Lemma of_Z_no_colon (n : Z) : PyStr.any_char is_colon (PyStr.of_Z n) = false.
Proof.
  unfold PyStr.of_Z, NilZero.string_of_int, NilZero.string_of_uint.
  destruct (Z.to_int n) as [d|d]; destruct d; cbn [PyStr.any_char];
    try reflexivity; cbn [NilEmpty.string_of_uint PyStr.any_char];
    apply string_of_uint_no_colon.
Qed.

Lemma of_Z_inj (n m : Z) : PyStr.of_Z n = PyStr.of_Z m -> n = m.
Proof.
  unfold PyStr.of_Z. intros H.
  assert (P : forall z, NilZero.int_of_string (NilZero.string_of_int (Z.to_int z))
                        = Some (Z.to_int z)).
  { intros z. apply NilZero.isi; destruct z as [|p|p]; cbn; try discriminate;
      intros E; injection E as E; revert E; apply DecimalPos.Unsigned.to_uint_nonnil. }
  pose proof (P n) as Pn. rewrite H, P in Pn. injection Pn as Pn.
  rewrite <- (DecimalZ.of_to n), <- (DecimalZ.of_to m). f_equal. symmetry. exact Pn.
Qed.

Lemma any_char_app p (a b : string) :
  PyStr.any_char p (a ++ b) = PyStr.any_char p a || PyStr.any_char p b.
Proof.
  induction a as [|c a IH]; cbn [append PyStr.any_char]; [reflexivity|].
  rewrite IH. apply orb_assoc.
Qed.

(** A string is cut at its last colon in one way only. *)
Lemma split_last_colon (a a' t t' : string) :
  PyStr.any_char is_colon t = false -> PyStr.any_char is_colon t' = false ->
  a ++ ":" ++ t = a' ++ ":" ++ t' -> a = a' /\ t = t'.
Proof.
  intros Ht Ht'. revert a'. induction a as [|c a IH]; intros [|c' a'] H; cbn in H.
  - injection H as H. auto.
  - injection H as Hc H. subst t. rewrite any_char_app in Ht.
    cbn in Ht. rewrite orb_true_r in Ht. discriminate.
  - injection H as Hc H. subst t'. rewrite any_char_app in Ht'.
    cbn in Ht'. rewrite orb_true_r in Ht'. discriminate.
  - injection H as Hc H. subst c'. destruct (IH _ H) as [-> ->]. auto.
Qed.

Lemma cache_key_inj (query query' : string) (limit limit' : Z) :
  OptimizedDeviceCache.cache_key query limit = OptimizedDeviceCache.cache_key query' limit' ->
  PyStr.lower query = PyStr.lower query' /\ limit = limit'.
Proof.
  unfold OptimizedDeviceCache.cache_key. intros H.
  apply split_last_colon in H; try apply of_Z_no_colon.
  destruct H as [Hq Hl]. split; [exact Hq | apply of_Z_inj, Hl].
Qed.

End CacheKeyFacts.

(** X5. Two searches share an entry of the search cache exactly when their
    queries are equal up to case and their limits are equal: the key
    [query.lower():limit] is the same for no other pair, also when the
    query has colons or digits in it. *)
Theorem cache_key_identifies_query_and_limit (query query' : string) (limit limit' : Z) :
  OptimizedDeviceCache.cache_key query limit = OptimizedDeviceCache.cache_key query' limit'
  <-> PyStr.lower query = PyStr.lower query' /\ limit = limit'.
Proof.
  split.
  - apply cache_key_inj.
  - intros [Hq ->]. unfold OptimizedDeviceCache.cache_key. rewrite Hq. reflexivity.
Qed.

(** *** The search cache never changes an answer *)

Section SearchCacheFacts.
Import OptimizedDeviceCache.

Lemma get_app {V : Type} (d d' : PyDict.dict V) k :
  PyDict.get (d ++ d')%list k
  = match PyDict.get d k with Some v => Some v | None => PyDict.get d' k end.
Proof.
  induction d as [|[k0 v0] r IH]; cbn [app PyDict.get]; [reflexivity|].
  destruct (String.eqb k0 k); [reflexivity | exact IH].
Qed.

Lemma get_remove_some {V : Type} (d : PyDict.dict V) k k' v :
  PyDict.nodup_keys d ->
  PyDict.get (PyDict.remove d k) k' = Some v -> PyDict.get d k' = Some v.
Proof.
  induction d as [|[k0 v0] r IH]; cbn [PyDict.remove PyDict.get PyDict.nodup_keys];
    [discriminate|].
  intros [Hf Hn]. destruct (String.eqb k0 k) eqn:E; cbn [PyDict.get].
  - intros H. destruct (String.eqb k0 k') eqn:E'; [|exact H].
    apply String.eqb_eq in E'. subst k'. rewrite H in Hf. discriminate.
  - destruct (String.eqb k0 k'); auto.
Qed.

(** The answer of a search computed afresh. *)
Lemma fresh_answer (c : cache) (query : string) (limit : Z) :
  search_cache c = [] -> 0 < max_cache_size c ->
  snd (search_devices c query limit)
  = Ok (if PyStr.truthy query
        then search_loop (PyStr.lower query) limit (PyDict.keys (devices c)) []
        else slice_to (PyDict.keys (devices c)) limit).
Proof.
  intros Hsc Hmax. unfold search_devices. rewrite Hsc.
  destruct (PyStr.truthy query); cbn [negb PyDict.get]; [|reflexivity].
  cbn [List.length Z.of_nat].
  destruct (0 >=? max_cache_size c) eqn:E; [|reflexivity].
  apply Z.geb_le in E. lia.
Qed.

(** Every entry of the search cache holds what the search computes afresh,
    and a search keeps it so. *)
Lemma search_devices_keeps_entries_fresh (c : cache) (query : string) (limit : Z) :
  0 < max_cache_size c ->
  PyDict.nodup_keys (search_cache c) ->
  (forall q l r, PyDict.get (search_cache c) (cache_key q l) = Some r ->
                 r = search_loop (PyStr.lower q) l (PyDict.keys (devices c)) []) ->
  let c' := fst (search_devices c query limit) in
  devices c' = devices c /\ max_cache_size c' = max_cache_size c /\
  PyDict.nodup_keys (search_cache c') /\
  (forall q l r, PyDict.get (search_cache c') (cache_key q l) = Some r ->
                 r = search_loop (PyStr.lower q) l (PyDict.keys (devices c)) []) /\
  snd (search_devices c query limit)
  = Ok (if PyStr.truthy query
        then search_loop (PyStr.lower query) limit (PyDict.keys (devices c)) []
        else slice_to (PyDict.keys (devices c)) limit).
Proof.
  intros Hmax Hn Hv. cbv zeta.
  destruct (PyStr.truthy query) eqn:Hq.
  - destruct (search_devices_step c query limit Hq Hmax Hn)
      as (results & rest & evicted & Hcall & Hfresh & Hnr & _ & Hcase).
    cbv zeta in Hcall, Hcase. rewrite Hcall. cbn [fst snd with_search_cache devices
      max_cache_size search_cache].
    assert (Hres : results = search_loop (PyStr.lower query) limit
                               (PyDict.keys (devices c)) []).
    { destruct (PyDict.get (search_cache c) (cache_key query limit)) as [cached|] eqn:Eg.
      - destruct Hcase as [-> _]. apply (Hv _ _ _ Eg).
      - apply Hcase. }
    assert (Hsub : forall k r, PyDict.get rest k = Some r ->
                               PyDict.get (search_cache c) k = Some r).
    { intros k r Hk.
      destruct (PyDict.get (search_cache c) (cache_key query limit)) as [cached|] eqn:Eg.
      - destruct Hcase as (_ & -> & _). eapply get_remove_some; [exact Hn | exact Hk].
      - destruct Hcase as [_ Hcase].
        destruct (Z.of_nat (List.length (search_cache c)) >=? max_cache_size c).
        + destruct Hcase as ([k0 v0] & Hsc & _). rewrite Hsc in Hn |- *.
          cbn [PyDict.get]. destruct Hn as [Hf _].
          destruct (String.eqb k0 k) eqn:E; [|exact Hk].
          apply String.eqb_eq in E. subst k0. rewrite Hk in Hf. discriminate.
        + destruct Hcase as [-> _]. exact Hk. }
    repeat split.
    + apply nodup_app_last; assumption.
    + intros q l r. rewrite get_app. cbn [PyDict.get].
      destruct (PyDict.get rest (cache_key q l)) as [v|] eqn:Er.
      * intros H. injection H as <-. apply Hv, Hsub, Er.
      * destruct (String.eqb (cache_key query limit) (cache_key q l)) eqn:E; [|discriminate].
        intros H. injection H as <-. apply String.eqb_eq, cache_key_inj in E.
        destruct E as [<- <-]. exact Hres.
    + rewrite Hres. reflexivity.
  - unfold search_devices. rewrite Hq. cbn [negb fst snd]. auto.
Qed.

Lemma run_keeps_entries_fresh (calls : list (string * Z)) :
  forall c,
    0 < max_cache_size c ->
    PyDict.nodup_keys (search_cache c) ->
    (forall q l r, PyDict.get (search_cache c) (cache_key q l) = Some r ->
                   r = search_loop (PyStr.lower q) l (PyDict.keys (devices c)) []) ->
    let c' := Recency.run c calls in
    devices c' = devices c /\ max_cache_size c' = max_cache_size c /\
    PyDict.nodup_keys (search_cache c') /\
    (forall q l r, PyDict.get (search_cache c') (cache_key q l) = Some r ->
                   r = search_loop (PyStr.lower q) l (PyDict.keys (devices c)) []).
Proof.
  induction calls as [|[query limit] rest IH]; intros c Hmax Hn Hv; cbv zeta.
  - cbn [Recency.run]. auto.
  - cbn [Recency.run fst snd].
    destruct (search_devices_keeps_entries_fresh c query limit Hmax Hn Hv)
      as (Hd & Hm & Hn' & Hv' & _).
    set (c1 := fst (search_devices c query limit)) in *.
    destruct (IH c1) as (Hd2 & Hm2 & Hn2 & Hv2).
    + rewrite Hm. exact Hmax.
    + exact Hn'.
    + rewrite Hd. exact Hv'.
    + cbv zeta in Hd2, Hm2, Hn2, Hv2. rewrite Hd2, Hm2, Hd, Hm.
      repeat split; auto. intros q l r H. rewrite <- Hd. eapply Hv2, H.
Qed.

End SearchCacheFacts.

(** X6. The search cache never changes an answer. On a cache with room for
    at least one entry whose search cache is empty, as after a load, any
    sequence of searches may come first: a search then returns what it
    returns on the cache as loaded, whether it is answered from the search
    cache or not and whatever was evicted in between. *)
Theorem search_devices_answer_independent_of_history
    (c : OptimizedDeviceCache.cache) (calls : list (string * Z))
    (query : string) (limit : Z) :
  OptimizedDeviceCache.search_cache c = [] ->
  0 < OptimizedDeviceCache.max_cache_size c ->
  snd (OptimizedDeviceCache.search_devices (Recency.run c calls) query limit)
  = snd (OptimizedDeviceCache.search_devices c query limit).
Proof.
  intros Hsc Hmax.
  rewrite (fresh_answer c query limit Hsc Hmax).
  destruct (run_keeps_entries_fresh calls c Hmax) as (Hd & Hm & Hn & Hv).
  - rewrite Hsc. exact I.
  - rewrite Hsc. cbn. discriminate.
  - cbv zeta in Hd, Hm, Hn, Hv.
    destruct (search_devices_keeps_entries_fresh (Recency.run c calls) query limit)
      as (_ & _ & _ & _ & Hr).
    + rewrite Hm. exact Hmax.
    + exact Hn.
    + rewrite Hd. exact Hv.
    + rewrite Hr, Hd. reflexivity.
Qed.

Lemma search_devices_answer_independent_of_history_witness :
  snd (OptimizedDeviceCache.search_devices
         (Recency.run Examples.loaded_cache [("pixel", 5); ("", 1); ("GALAXY", 5)])
         "Pixel" 5)
  = snd (OptimizedDeviceCache.search_devices Examples.loaded_cache "Pixel" 5).
Proof.
  apply (search_devices_answer_independent_of_history Examples.loaded_cache
           [("pixel", 5); ("", 1); ("GALAXY", 5)] "Pixel" 5).
  - reflexivity.
  - vm_compute. reflexivity.
Defined.

(** ** Searches: case, and a load that fails *)

Lemma lower_truthy (s : string) : PyStr.truthy (PyStr.lower s) = PyStr.truthy s.
Proof. destruct s; reflexivity. Qed.

(** X7. The search does not look at the case of the query: two queries
    that are equal once lower-cased get the same answer from the same cache
    and leave the same cache behind, sharing one entry of the search
    cache. *)
Theorem search_devices_ignores_case
    (c : OptimizedDeviceCache.cache) (query query' : string) (limit : Z) :
  PyStr.lower query = PyStr.lower query' ->
  OptimizedDeviceCache.search_devices c query limit
  = OptimizedDeviceCache.search_devices c query' limit.
Proof.
  intros H. unfold OptimizedDeviceCache.search_devices, OptimizedDeviceCache.cache_key.
  rewrite <- (lower_truthy query), <- (lower_truthy query'), H. reflexivity.
Qed.

Lemma search_devices_ignores_case_witness :
  OptimizedDeviceCache.search_devices Examples.loaded_cache "GaLaXy" 5
  = OptimizedDeviceCache.search_devices Examples.loaded_cache "galaxy" 5.
Proof.
  apply (search_devices_ignores_case Examples.loaded_cache "GaLaXy" "galaxy" 5).
  reflexivity.
Defined.

(** X8. A load that raises does not clean the search cache. The device
    cache then holds the new catalog, which [get_device] reads, while a
    search whose key was cached before is still answered with the list
    that was cached, computed from the old catalog. *)
Theorem failed_load_keeps_stale_search_answers
    (c c' : OptimizedDeviceCache.cache) (devices_data : catalog) (now : Z) (e : exn)
    (query : string) (limit : Z) (cached : list string) :
  OptimizedDeviceCache.load_devices c devices_data now = (c', Raise e) ->
  PyStr.truthy query = true ->
  PyDict.get (OptimizedDeviceCache.search_cache c)
    (OptimizedDeviceCache.cache_key query limit) = Some cached ->
  OptimizedDeviceCache.devices c' = devices_data /\
  (forall device_name,
     OptimizedDeviceCache.get_device c' device_name = PyDict.get devices_data device_name) /\
  snd (OptimizedDeviceCache.search_devices c' query limit) = Ok cached.
Proof.
  unfold OptimizedDeviceCache.load_devices, OptimizedDeviceCache._build_indexes.
  cbn [OptimizedDeviceCache.devices].
  destruct (OptimizedDeviceCache.index_items devices_data [] []) as [[di pi] [[]|e0]];
    intros H Hq Hc; [discriminate|].
  injection H as <- _.
  unfold OptimizedDeviceCache.get_device, OptimizedDeviceCache.search_devices.
  cbn [OptimizedDeviceCache.with_indexes OptimizedDeviceCache.devices
       OptimizedDeviceCache.search_cache].
  rewrite Hq, Hc. cbn [negb snd]. auto.
Qed.

Lemma failed_load_keeps_stale_search_answers_witness :
  let c := fst (OptimizedDeviceCache.search_devices Examples.loaded_cache "pixel" 5) in
  let c' := fst (OptimizedDeviceCache.load_devices c Examples.infinite_price_catalog 1) in
  OptimizedDeviceCache.devices c' = Examples.infinite_price_catalog /\
  (forall device_name,
     OptimizedDeviceCache.get_device c' device_name
     = PyDict.get Examples.infinite_price_catalog device_name) /\
  snd (OptimizedDeviceCache.search_devices c' "pixel" 5) = Ok ["Pixel 8"].
Proof.
  apply (failed_load_keeps_stale_search_answers
           (fst (OptimizedDeviceCache.search_devices Examples.loaded_cache "pixel" 5))
           _ Examples.infinite_price_catalog 1 ValueError "pixel" 5 ["Pixel 8"]).
  - vm_compute. reflexivity.
  - reflexivity.
  - vm_compute. reflexivity.
Defined.

(** ** The size of the search cache *)

Section CapacityFacts.
Import OptimizedDeviceCache.

Lemma length_remove_present {V : Type} (d : PyDict.dict V) k v :
  PyDict.get d k = Some v -> S (List.length (PyDict.remove d k)) = List.length d.
Proof.
  induction d as [|[k0 v0] r IH]; cbn [PyDict.get PyDict.remove]; [discriminate|].
  destruct (String.eqb k0 k); cbn [List.length]; [reflexivity|].
  intros H. rewrite (IH H). reflexivity.
Qed.

Lemma search_devices_within_capacity (c : cache) (query : string) (limit : Z) :
  0 < max_cache_size c ->
  PyDict.nodup_keys (search_cache c) ->
  Z.of_nat (List.length (search_cache c)) <= max_cache_size c ->
  let c' := fst (search_devices c query limit) in
  max_cache_size c' = max_cache_size c /\
  PyDict.nodup_keys (search_cache c') /\
  Z.of_nat (List.length (search_cache c')) <= max_cache_size c.
Proof.
  intros Hmax Hn Hl. cbv zeta.
  destruct (PyStr.truthy query) eqn:Hq.
  - destruct (search_devices_step c query limit Hq Hmax Hn)
      as (results & rest & evicted & Hcall & Hfresh & Hnr & _ & Hcase).
    cbv zeta in Hcall, Hcase. rewrite Hcall.
    cbn [fst with_search_cache max_cache_size search_cache].
    split; [reflexivity|]. split; [apply nodup_app_last; assumption|].
    rewrite length_app. cbn [List.length].
    destruct (PyDict.get (search_cache c) (cache_key query limit)) as [cached|] eqn:Eg.
    + destruct Hcase as (_ & -> & _).
      pose proof (length_remove_present _ _ _ Eg). lia.
    + destruct Hcase as [_ Hcase].
      destruct (Z.of_nat (List.length (search_cache c)) >=? max_cache_size c) eqn:Ec.
      * destruct Hcase as (oldest & Hsc & _). rewrite Hsc in Hl. cbn [List.length] in Hl. lia.
      * destruct Hcase as [-> _]. rewrite Z.geb_leb in Ec. apply Z.leb_gt in Ec. lia.
  - unfold search_devices. rewrite Hq. cbn [negb fst]. auto.
Qed.

End CapacityFacts.

(** X9. The search cache stays within its capacity. On a cache with room
    for at least one entry, whose search cache holds no more entries than
    the capacity, no sequence of searches makes it hold more. *)
Theorem search_cache_stays_within_capacity
    (c : OptimizedDeviceCache.cache) (calls : list (string * Z)) :
  0 < OptimizedDeviceCache.max_cache_size c ->
  PyDict.nodup_keys (OptimizedDeviceCache.search_cache c) ->
  Z.of_nat (List.length (OptimizedDeviceCache.search_cache c))
    <= OptimizedDeviceCache.max_cache_size c ->
  Z.of_nat (List.length (OptimizedDeviceCache.search_cache (Recency.run c calls)))
    <= OptimizedDeviceCache.max_cache_size c.
Proof.
  revert c. induction calls as [|[query limit] rest IH]; intros c Hmax Hn Hl.
  - exact Hl.
  - cbn [Recency.run fst snd].
    destruct (search_devices_within_capacity c query limit Hmax Hn Hl) as (Hm & Hn' & Hl').
    cbv zeta in Hm, Hn', Hl'. rewrite <- Hm. apply IH; rewrite ?Hm; assumption.
Qed.

Lemma search_cache_stays_within_capacity_witness :
  Z.of_nat (List.length
              (OptimizedDeviceCache.search_cache
                 (Recency.run MoreExamples.small_cache
                    [("pixel", 5); ("galaxy", 5); ("PIXEL", 5); ("8", 1)])))
  <= OptimizedDeviceCache.max_cache_size MoreExamples.small_cache.
Proof.
  apply (search_cache_stays_within_capacity MoreExamples.small_cache
           [("pixel", 5); ("galaxy", 5); ("PIXEL", 5); ("8", 1)]).
  - vm_compute. reflexivity.
  - vm_compute. exact I.
  - vm_compute. discriminate.
Defined.

(** ** The brand index *)

Section BrandIndexFacts.
Import OptimizedDeviceCache DeviceIndex.

Lemma get_index_append (index : PyDict.dict (list string)) (key name b : string) :
  match PyDict.get (index_append index key name) b with Some l => l | None => [] end
  = ((match PyDict.get index b with Some l => l | None => [] end)
     ++ (if String.eqb key b then [name] else []))%list.
Proof.
  unfold index_append.
  destruct (PyDict.get index key) as [names|] eqn:Ek; rewrite get_set;
    destruct (String.eqb key b) eqn:E; try (rewrite app_nil_r; reflexivity);
    apply String.eqb_eq in E; subst b; rewrite Ek; reflexivity.
Qed.

Lemma index_items_brands (items : catalog) :
  forall di pi di' pi',
    index_items items di pi = (di', pi', Ok tt) ->
    forall brand,
      match PyDict.get di' (PyStr.lower brand) with Some l => l | None => [] end
      = ((match PyDict.get di (PyStr.lower brand) with Some l => l | None => [] end)
         ++ filter (has_brand brand) (PyDict.keys items))%list.
Proof.
  induction items as [|[name d] rest IH]; intros di pi di' pi' H brand;
    cbn [index_items] in H.
  - injection H as <- _. cbn [PyDict.keys map filter]. rewrite app_nil_r. reflexivity.
  - cbn [PyDict.keys map fst filter]. unfold has_brand at 1.
    destruct (brand_of name) as [b|e]; [|discriminate].
    assert (Hstep : forall pi0,
              index_items rest (index_append di b name) pi0 = (di', pi', Ok tt) ->
              match PyDict.get di' (PyStr.lower brand) with Some l => l | None => [] end
              = ((match PyDict.get di (PyStr.lower brand) with Some l => l | None => [] end)
                 ++ (if String.eqb b (PyStr.lower brand)
                     then name :: filter (has_brand brand) (map fst rest)
                     else filter (has_brand brand) (map fst rest)))%list).
    { intros pi0 H0. rewrite (IH _ _ _ _ H0 brand), get_index_append.
      rewrite <- app_assoc. destruct (String.eqb b (PyStr.lower brand)); reflexivity. }
    destruct (PyFloat.truthy (price_of d)).
    + destruct (price_range_of (price_of d)) as [range|e]; [|discriminate].
      eapply Hstep, H.
    + eapply Hstep, H.
Qed.

End BrandIndexFacts.

(** X10. After a load that succeeds, the lookup by brand returns exactly the
    catalog's device names whose first word, lower-cased, is the brand
    lower-cased, in the order of the catalog; a brand that no device has
    gives the empty list. *)
Theorem get_devices_by_brand_after_load
    (c c' : OptimizedDeviceCache.cache) (devices_data : catalog) (now : Z) (brand : string) :
  OptimizedDeviceCache.load_devices c devices_data now = (c', Ok tt) ->
  DeviceIndex.get_devices_by_brand c' brand
  = filter (DeviceIndex.has_brand brand) (PyDict.keys devices_data).
Proof.
  unfold OptimizedDeviceCache.load_devices, OptimizedDeviceCache._build_indexes.
  cbn [OptimizedDeviceCache.devices].
  destruct (OptimizedDeviceCache.index_items devices_data [] []) as [[di pi] [[]|e]] eqn:E;
    intros H; [|discriminate].
  injection H as <-. unfold DeviceIndex.get_devices_by_brand.
  cbn [OptimizedDeviceCache.device_index OptimizedDeviceCache.with_indexes].
  apply (index_items_brands _ _ _ _ _ E brand).
Qed.

Lemma get_devices_by_brand_after_load_witness :
  DeviceIndex.get_devices_by_brand Examples.loaded_cache "GALAXY"
  = filter (DeviceIndex.has_brand "GALAXY") (PyDict.keys Examples.old_catalog).
Proof.
  apply (get_devices_by_brand_after_load (OptimizedDeviceCache.new 2000)
           Examples.loaded_cache Examples.old_catalog 0 "GALAXY").
  vm_compute. reflexivity.
Defined.

(** ** The catalog at the start *)

Section StartFacts.
Import WebSalesTaxCalculator.

Lemma cache_load_devices_outcome (c : OptimizedDeviceCache.cache) (d : catalog) (now : Z) :
  OptimizedDeviceCache.devices (fst (OptimizedDeviceCache.load_devices c d now)) = d /\
  is_ok (snd (OptimizedDeviceCache.load_devices c d now)) = forallb Indexable.entry d.
Proof.
  unfold OptimizedDeviceCache.load_devices, OptimizedDeviceCache._build_indexes.
  cbn [OptimizedDeviceCache.devices].
  pose proof (index_items_ok d [] []) as H.
  destruct (OptimizedDeviceCache.index_items d [] []) as [[di pi] [[]|e]];
    cbn [fst snd is_ok] in *; auto.
Qed.

Lemma startup_load_devices_with (now : Z) (st : state) :
  let d := match devices_file st with Some (Intact d) => d | _ => [] end in
  devices (fst (WebCalculator.load_devices now st)) = d /\
  OptimizedDeviceCache.devices (device_cache (fst (WebCalculator.load_devices now st))) = d /\
  is_ok (snd (WebCalculator.load_devices now st)) = forallb Indexable.entry d.
Proof.
  cbv zeta. unfold WebCalculator.load_devices.
  destruct (devices_file st) as [[d|]|];
    match goal with
    | |- context [OptimizedDeviceCache.load_devices ?c ?d ?n] =>
        pose proof (cache_load_devices_outcome c d n) as [H1 H2];
        destruct (OptimizedDeviceCache.load_devices c d n) as [c' r]
    end; cbn [fst snd devices device_cache] in *; auto.
Qed.

End StartFacts.


(** X12. What [save_devices] returns foretells the next start. When the
    catalog file is written, a calculator that starts from that file holds
    the catalog that was saved, and its load succeeds exactly when
    [save_devices] returned true: a catalog for which it returned false is
    on disk all the same and makes the load at the next start raise. *)
Theorem save_devices_result_foretells_next_start
    (env : WebSalesTaxCalculator.sheet_env) (st st0 : WebSalesTaxCalculator.state)
    (now : Z) :
  WebSalesTaxCalculator.devices_write env = WebSalesTaxCalculator.Written ->
  WebSalesTaxCalculator.devices_file st0
  = WebSalesTaxCalculator.devices_file (fst (WebSalesTaxCalculator.save_devices env st)) ->
  WebSalesTaxCalculator.devices (fst (WebCalculator.load_devices now st0))
  = WebSalesTaxCalculator.devices st /\
  is_ok (snd (WebCalculator.load_devices now st0))
  = snd (WebSalesTaxCalculator.save_devices env st).
Proof.
  intros Hw Hf.
  destruct (startup_load_devices_with now st0) as (H1 & _ & H3). cbv zeta in H1, H3.
  rewrite H1, H3, Hf. unfold WebSalesTaxCalculator.save_devices. rewrite Hw.
  cbn [WebSalesTaxCalculator.write_file].
  pose proof (cache_load_devices_outcome (WebSalesTaxCalculator.device_cache st)
                (WebSalesTaxCalculator.devices st)
                (WebSalesTaxCalculator.now_reload env)) as [_ H].
  destruct (OptimizedDeviceCache.load_devices _ _ _) as [c r].
  cbn [fst snd WebSalesTaxCalculator.devices_file] in *. auto.
Qed.

Lemma save_devices_result_foretells_next_start_witness :
  let env := Examples.upload_env Examples.new_price_file in
  let st0 := fst (WebSalesTaxCalculator.save_devices env Examples.old_state) in
  WebSalesTaxCalculator.devices (fst (WebCalculator.load_devices 5 st0))
  = WebSalesTaxCalculator.devices Examples.old_state /\
  is_ok (snd (WebCalculator.load_devices 5 st0))
  = snd (WebSalesTaxCalculator.save_devices env Examples.old_state).
Proof.
  apply (save_devices_result_foretells_next_start
           (Examples.upload_env Examples.new_price_file) Examples.old_state
           (fst (WebSalesTaxCalculator.save_devices
                   (Examples.upload_env Examples.new_price_file) Examples.old_state)) 5).
  - reflexivity.
  - reflexivity.
Defined.

(** ** Ingestion and the lookups *)

(** X13. An ingestion that reports success reaches the lookups only when the
    catalog file could be written. Then the device cache, which every
    lookup reads, holds the merged catalog, also when its indexes could not
    be built. When the write fails the success is reported all the same
    and the lookups answer from the device cache as it was before. *)
Theorem ingestion_reaches_lookups_only_when_saved
    (float_repr : PyFloat.float -> string) (path : string)
    (env : WebSalesTaxCalculator.sheet_env) (st st' : WebSalesTaxCalculator.state)
    (added : Z) (phone msrp : string) (processed skipped : option Z) :
  WebSalesTaxCalculator.process_price_sheet float_repr path env st
    = (st', WebSalesTaxCalculator.SheetOk added phone msrp processed skipped) ->
  match WebSalesTaxCalculator.devices_write env with
  | WebSalesTaxCalculator.Written =>
      OptimizedDeviceCache.devices (WebSalesTaxCalculator.device_cache st')
      = WebSalesTaxCalculator.devices st'
  | _ =>
      WebCalculator.get_device_list st' = WebCalculator.get_device_list st /\
      forall device_name,
        WebCalculator.get_device_data st' device_name
        = WebCalculator.get_device_data st device_name /\
        WebCalculator.get_device_price st' device_name
        = WebCalculator.get_device_price st device_name /\
        WebCalculator.get_device_prepaid_price st' device_name
        = WebCalculator.get_device_prepaid_price st device_name
  end.
Proof.
  intros H. pose proof (process_price_sheet_outcome float_repr path env st) as O.
  rewrite H in O. destruct O as (fragment & _ & ->).
  unfold WebSalesTaxCalculator.merge_and_save, WebSalesTaxCalculator.save_devices.
  cbn [WebSalesTaxCalculator.devices WebSalesTaxCalculator.device_cache
       WebSalesTaxCalculator.devices_file].
  destruct (WebSalesTaxCalculator.devices_write env);
    cbn [WebSalesTaxCalculator.write_file].
  - pose proof (cache_load_devices_outcome (WebSalesTaxCalculator.device_cache st)
                  (PyDict.update (WebSalesTaxCalculator.devices st) fragment)
                  (WebSalesTaxCalculator.now_reload env)) as [Hd _].
    destruct (OptimizedDeviceCache.load_devices _ _ _) as [c r].
    cbn [fst WebSalesTaxCalculator.devices WebSalesTaxCalculator.device_cache] in *.
    exact Hd.
  - split; [reflexivity|]. intros n. repeat split; reflexivity.
  - split; [reflexivity|]. intros n. repeat split; reflexivity.
Qed.

Lemma ingestion_reaches_lookups_only_when_saved_witness :
  let st' := fst (WebSalesTaxCalculator.process_price_sheet Examples.no_repr "prices.csv"
                    (Examples.upload_env Examples.new_price_file) Examples.old_state) in
  OptimizedDeviceCache.devices (WebSalesTaxCalculator.device_cache st')
  = WebSalesTaxCalculator.devices st'.
Proof.
  apply (ingestion_reaches_lookups_only_when_saved Examples.no_repr "prices.csv"
           (Examples.upload_env Examples.new_price_file) Examples.old_state _
           2 "Phone" "MSRP" None None).
  vm_compute. reflexivity.
Defined.

(** ** The catalog only grows *)

Section GrowthFacts.
Variable float_repr : PyFloat.float -> string.
Variable docs_folder : string.
Import WebSalesTaxCalculator.

Lemma mem_set {V : Type} (d : PyDict.dict V) k v k' :
  PyDict.mem d k' = true -> PyDict.mem (PyDict.set d k v) k' = true.
Proof.
  unfold PyDict.mem. rewrite get_set. destruct (String.eqb k k'); auto.
Qed.

Lemma mem_update {V : Type} (d other : PyDict.dict V) k :
  PyDict.mem d k = true -> PyDict.mem (PyDict.update d other) k = true.
Proof.
  revert d. induction other as [|[k0 v0] r IH]; intros d H; cbn [PyDict.update].
  - exact H.
  - apply IH, mem_set, H.
Qed.

Lemma process_price_sheet_keeps path env st name :
  PyDict.mem (devices st) name = true ->
  PyDict.mem (devices (fst (process_price_sheet float_repr path env st))) name = true.
Proof.
  intros H. pose proof (process_price_sheet_outcome float_repr path env st) as O.
  destruct (process_price_sheet float_repr path env st) as [st' [a p m pc sc|]];
    cbn [fst].
  - destruct O as (fragment & _ & ->).
    destruct (merge_and_save_devices env st fragment) as [-> _]. apply mem_update, H.
  - subst st'. exact H.
Qed.

Lemma download_keeps env st name :
  PyDict.mem (devices st) name = true ->
  PyDict.mem
    (devices (fst (download_and_process_google_sheets float_repr docs_folder env st)))
    name = true.
Proof.
  intros H. unfold download_and_process_google_sheets.
  destruct (get_response env) as [response|e]; [|exact H].
  destruct (negb (status_code response =? 200)); [exact H|].
  destruct (write_file (cache_write env) (cache_file st) (content response))
    as [file' [|]]; [|exact H].
  pose proof (process_price_sheet_keeps (cache_file_path docs_folder) (sheet env)
                (set_cache_file st file') name H) as K.
  destruct (process_price_sheet _ _ _ _) as [st2 [a p m pc sc|]]; exact K.
Qed.

Lemma check_keeps env st name :
  PyDict.mem (devices st) name = true ->
  PyDict.mem
    (devices (fst (check_and_update_from_google_sheets float_repr docs_folder env st)))
    name = true.
Proof.
  intros H. unfold check_and_update_from_google_sheets.
  destruct (head_response env) as [response|e]; [|exact H].
  destruct (negb (status_code response =? 200)); [exact H|].
  destruct (should_update _ _ _ _) as [[|]|e]; try exact H.
  apply download_keeps, H.
Qed.

Lemma auto_refresh_keeps env fallback st name :
  PyDict.mem (devices st) name = true ->
  PyDict.mem
    (devices (WebCalculator.auto_refresh_on_startup float_repr docs_folder env fallback st))
    name = true.
Proof.
  intros H. unfold WebCalculator.auto_refresh_on_startup.
  pose proof (check_keeps env st name H) as K.
  destruct (check_and_update_from_google_sheets _ _ _ _) as [st1 [|]]; cbn [fst] in K.
  - exact K.
  - unfold WebCalculator.load_from_cache_if_available.
    destruct (cache_exists st1); [|exact K].
    pose proof (process_price_sheet_keeps (cache_file_path docs_folder) fallback st1 name K)
      as K2.
    destruct (process_price_sheet _ _ _ _) as [st2 r]. cbn [fst] in K2.
    destruct (sheet_success r); exact K2.
Qed.

End GrowthFacts.

(** X14. No device ever leaves the catalog. A device name that is in the
    catalog is still in it after an ingestion, after a check for updates
    with or without a download, and after the refresh at the start,
    whatever the sheet holds and however the call ends: a device that the
    sheet no longer lists is not removed. *)
Theorem catalog_never_loses_a_device
    (float_repr : PyFloat.float -> string) (docs_folder path : string)
    (sheet : WebSalesTaxCalculator.sheet_env) (check : WebSalesTaxCalculator.check_env)
    (st : WebSalesTaxCalculator.state) (device_name : string) :
  PyDict.mem (WebSalesTaxCalculator.devices st) device_name = true ->
  PyDict.mem
    (WebSalesTaxCalculator.devices
       (fst (WebSalesTaxCalculator.process_price_sheet float_repr path sheet st)))
    device_name = true /\
  PyDict.mem
    (WebSalesTaxCalculator.devices
       (fst (WebSalesTaxCalculator.check_and_update_from_google_sheets
               float_repr docs_folder check st)))
    device_name = true /\
  PyDict.mem
    (WebSalesTaxCalculator.devices
       (WebCalculator.auto_refresh_on_startup float_repr docs_folder check sheet st))
    device_name = true.
Proof.
  intros H. split; [|split].
  - apply process_price_sheet_keeps, H.
  - apply check_keeps, H.
  - apply auto_refresh_keeps, H.
Qed.

Lemma catalog_never_loses_a_device_witness :
  let check :=
    {| WebSalesTaxCalculator.head_response :=
         Ok {| WebSalesTaxCalculator.status_code := 200;
               WebSalesTaxCalculator.content_length := Some "41";
               WebSalesTaxCalculator.content := "" |};
       WebSalesTaxCalculator.now_check := 5;
       WebSalesTaxCalculator.refresh := Examples.empty_download |} in
  let sheet := Examples.upload_env Examples.new_price_file in
  PyDict.mem
    (WebSalesTaxCalculator.devices
       (fst (WebSalesTaxCalculator.process_price_sheet Examples.no_repr "prices.csv" sheet
               Examples.old_state)))
    "Pixel 8" = true /\
  PyDict.mem
    (WebSalesTaxCalculator.devices
       (fst (WebSalesTaxCalculator.check_and_update_from_google_sheets
               Examples.no_repr "Documents" check Examples.old_state)))
    "Pixel 8" = true /\
  PyDict.mem
    (WebSalesTaxCalculator.devices
       (WebCalculator.auto_refresh_on_startup Examples.no_repr "Documents" check sheet
          Examples.old_state))
    "Pixel 8" = true.
Proof.
  intros check sheet.
  apply (catalog_never_loses_a_device Examples.no_repr "Documents" "prices.csv" sheet check
           Examples.old_state "Pixel 8").
  reflexivity.
Defined.

(** ** After a refresh *)

Section RefreshFacts.
Variable float_repr : PyFloat.float -> string.
Variable docs_folder : string.
Import WebSalesTaxCalculator.

Lemma endswith_app (p a t : string) :
  PyStr.endswith p t = true -> PyStr.endswith p (a ++ t) = true.
Proof.
  intros H. induction a as [|c a IH]; cbn [append]; [exact H|].
  cbn [PyStr.endswith]. rewrite IH. apply orb_true_r.
Qed.

Lemma cache_file_path_csv : PyStr.endswith ".csv" (cache_file_path docs_folder) = true.
Proof. unfold cache_file_path. apply endswith_app. reflexivity. Qed.

(** What a refresh that returns true has done. *)
Lemma download_success (env : refresh_env) (st st' : state) :
  download_and_process_google_sheets float_repr docs_folder env st = (st', true) ->
  exists response st2 added phone msrp processed skipped,
    get_response env = Ok response /\
    process_price_sheet float_repr (cache_file_path docs_folder) (sheet env)
      (set_cache_file st (Some (Intact (content response))))
    = (st2, SheetOk added phone msrp processed skipped) /\
    st' = save_last_update_info (info_write env)
            {| last_check := Some (IsoTime (now_last_check env));
               last_update := Some (IsoTime (now_last_update env));
               size := Some (PyStr.of_Z (PyStr.len (content response)));
               devices_count := Some (Z.of_nat (List.length (devices st2)));
               devices_processed := Some (or_zero processed);
               devices_skipped := Some (or_zero skipped) |} st2.
Proof.
  unfold download_and_process_google_sheets.
  destruct (get_response env) as [response|e]; [|discriminate].
  destruct (negb (status_code response =? 200)); [discriminate|].
  destruct (cache_write env); cbn [write_file]; try discriminate.
  destruct (process_price_sheet _ _ _ _) as [st2 [a p m pc sc|]] eqn:E; [|discriminate].
  intros H. injection H as <-.
  exists response, st2, a, p, m, pc, sc. auto.
Qed.

Lemma ingested_state_files path (env : sheet_env) (st st2 : state) added phone msrp pc sc :
  process_price_sheet float_repr path env st = (st2, SheetOk added phone msrp pc sc) ->
  cache_file st2 = cache_file st /\
  last_update_file st2 = last_update_file st /\
  (devices_write env = Written -> devices_file st2 = Some (Intact (devices st2))).
Proof.
  intros H. pose proof (process_price_sheet_outcome float_repr path env st) as O.
  rewrite H in O. destruct O as (fragment & _ & ->).
  destruct (merge_and_save_devices env st fragment) as (Hd & Hc & Hl).
  repeat split; auto.
  intros Hw. rewrite Hd. unfold merge_and_save, save_devices. rewrite Hw.
  cbn [write_file devices device_cache].
  destruct (OptimizedDeviceCache.load_devices _ _ _). reflexivity.
Qed.

End RefreshFacts.

(** X15. The Last-Update Record of a refresh that the streaming reader
    ingested says that no device was processed and none skipped, whatever
    the numbers of the ingestion were; its device count is the size of the
    catalog in memory. The cache copy always has the suffix [.csv], so this
    is the case of every refresh that the streaming reader can read. *)
Theorem refresh_by_streaming_records_zero_counts
    (float_repr : PyFloat.float -> string) (docs_folder : string)
    (env : WebSalesTaxCalculator.refresh_env) (st : WebSalesTaxCalculator.state)
    (response : WebSalesTaxCalculator.http_response)
    (new_devices : catalog) (processed skipped : Z) (phone msrp : string)
    (prepaid : option string) :
  WebSalesTaxCalculator.get_response env = Ok response ->
  WebSalesTaxCalculator.status_code response = 200 ->
  WebSalesTaxCalculator.cache_write env = WebSalesTaxCalculator.Written ->
  WebSalesTaxCalculator.info_write env = WebSalesTaxCalculator.Written ->
  StreamingCSVProcessor.process_csv_stream
    (WebSalesTaxCalculator.csv_read (WebSalesTaxCalculator.sheet env))
  = StreamingCSVProcessor.StreamOk new_devices processed skipped phone msrp prepaid ->
  let st' :=
    fst (WebSalesTaxCalculator.download_and_process_google_sheets
           float_repr docs_folder env st) in
  let info := WebSalesTaxCalculator.load_last_update_info st' in
  snd (WebSalesTaxCalculator.download_and_process_google_sheets
         float_repr docs_folder env st) = true /\
  WebSalesTaxCalculator.devices_processed info = Some 0 /\
  WebSalesTaxCalculator.devices_skipped info = Some 0 /\
  WebSalesTaxCalculator.devices_count info
  = Some (Z.of_nat (List.length (WebSalesTaxCalculator.devices st'))).
Proof.
  intros Hr Hs Hc Hi Hp. cbv zeta.
  unfold WebSalesTaxCalculator.download_and_process_google_sheets.
  rewrite Hr, Hs, Hc, Hi. cbn [Z.eqb Pos.eqb negb WebSalesTaxCalculator.write_file].
  unfold WebSalesTaxCalculator.process_price_sheet.
  rewrite cache_file_path_csv, Hp.
  cbn [fst snd WebSalesTaxCalculator.load_last_update_info
       WebSalesTaxCalculator.save_last_update_info WebSalesTaxCalculator.write_file
       WebSalesTaxCalculator.last_update_file WebSalesTaxCalculator.devices
       WebSalesTaxCalculator.devices_processed WebSalesTaxCalculator.devices_skipped
       WebSalesTaxCalculator.devices_count WebSalesTaxCalculator.or_zero].
  auto.
Qed.

Lemma refresh_by_streaming_records_zero_counts_witness :
  let st' :=
    fst (WebSalesTaxCalculator.download_and_process_google_sheets
           Examples.no_repr "Documents" MoreExamples.good_download Examples.old_state) in
  let info := WebSalesTaxCalculator.load_last_update_info st' in
  snd (WebSalesTaxCalculator.download_and_process_google_sheets
         Examples.no_repr "Documents" MoreExamples.good_download Examples.old_state) = true /\
  WebSalesTaxCalculator.devices_processed info = Some 0 /\
  WebSalesTaxCalculator.devices_skipped info = Some 0 /\
  WebSalesTaxCalculator.devices_count info
  = Some (Z.of_nat (List.length (WebSalesTaxCalculator.devices st'))).
Proof.
  apply (refresh_by_streaming_records_zero_counts Examples.no_repr "Documents"
           MoreExamples.good_download Examples.old_state
           {| WebSalesTaxCalculator.status_code := 200;
              WebSalesTaxCalculator.content_length := Some "46";
              WebSalesTaxCalculator.content := "Phone,MSRP
Galaxy S25,899.99
iPhone 15,799.99
" |}
           [("Galaxy S25", PriceRecord (Some Examples.price_899_99) None);
            ("iPhone 15", PriceRecord (Some Examples.price_799_99) None)]
           2 0 "Phone" "MSRP" None).
  - reflexivity.
  - reflexivity.
  - reflexivity.
  - reflexivity.
  - vm_compute. reflexivity.
Defined.

(** X16. A refresh is not repeated within the hour. After a refresh that
    returned true and wrote its Last-Update Record, a check for updates
    that finds at the remote end the size that was downloaded, no more than
    one hour after the refresh was stamped, downloads nothing, changes
    nothing and returns true. *)
Theorem check_after_refresh_downloads_nothing
    (float_repr : PyFloat.float -> string) (docs_folder : string)
    (env : WebSalesTaxCalculator.refresh_env) (check : WebSalesTaxCalculator.check_env)
    (st st' : WebSalesTaxCalculator.state)
    (downloaded head : WebSalesTaxCalculator.http_response) :
  WebSalesTaxCalculator.download_and_process_google_sheets float_repr docs_folder env st
    = (st', true) ->
  WebSalesTaxCalculator.get_response env = Ok downloaded ->
  WebSalesTaxCalculator.info_write env = WebSalesTaxCalculator.Written ->
  WebSalesTaxCalculator.head_response check = Ok head ->
  WebSalesTaxCalculator.status_code head = 200 ->
  WebSalesTaxCalculator.content_length head
    = Some (PyStr.of_Z (PyStr.len (WebSalesTaxCalculator.content downloaded))) ->
  WebSalesTaxCalculator.now_check check - WebSalesTaxCalculator.now_last_check env
    <= WebSalesTaxCalculator.hour_us ->
  WebSalesTaxCalculator.check_and_update_from_google_sheets float_repr docs_folder check st'
    = (st', true).
Proof.
  intros Hd Hg Hi Hh Hs Hl Ht.
  destruct (download_success float_repr docs_folder env st st' Hd)
    as (response & st2 & a & p & m & pc & sc & Hr & Hp & ->).
  rewrite Hg in Hr. injection Hr as <-.
  destruct (ingested_state_files float_repr _ _ _ _ _ _ _ _ _ Hp) as (Hc & _ & _).
  unfold WebSalesTaxCalculator.check_and_update_from_google_sheets.
  rewrite Hh, Hs, Hl, Hi. cbn [Z.eqb Pos.eqb negb].
  unfold WebSalesTaxCalculator.cache_exists, WebSalesTaxCalculator.load_last_update_info.
  cbn [WebSalesTaxCalculator.save_last_update_info WebSalesTaxCalculator.write_file fst
       WebSalesTaxCalculator.cache_file WebSalesTaxCalculator.last_update_file].
  rewrite Hc. cbn [WebSalesTaxCalculator.set_cache_file WebSalesTaxCalculator.cache_file].
  unfold WebSalesTaxCalculator.should_update.
  cbn [negb WebSalesTaxCalculator.size WebSalesTaxCalculator.last_check
       WebSalesTaxCalculator.size_differs WebSalesTaxCalculator.stamp_truthy
       WebSalesTaxCalculator.fromisoformat bind].
  rewrite String.eqb_refl. cbn [negb]. rewrite andb_false_r.
  destruct (WebSalesTaxCalculator.hour_us <? _) eqn:E; [|reflexivity].
  apply Z.ltb_lt in E. lia.
Qed.

Lemma check_after_refresh_downloads_nothing_witness :
  let st' :=
    fst (WebSalesTaxCalculator.download_and_process_google_sheets
           Examples.no_repr "Documents" MoreExamples.good_download Examples.old_state) in
  WebSalesTaxCalculator.check_and_update_from_google_sheets
    Examples.no_repr "Documents" MoreExamples.later_check st'
  = (st', true).
Proof.
  apply (check_after_refresh_downloads_nothing Examples.no_repr "Documents"
           MoreExamples.good_download MoreExamples.later_check Examples.old_state _
           {| WebSalesTaxCalculator.status_code := 200;
              WebSalesTaxCalculator.content_length := Some "46";
              WebSalesTaxCalculator.content := "Phone,MSRP
Galaxy S25,899.99
iPhone 15,799.99
" |}
           {| WebSalesTaxCalculator.status_code := 200;
              WebSalesTaxCalculator.content_length := Some "46";
              WebSalesTaxCalculator.content := "" |}).
  - vm_compute. reflexivity.
  - reflexivity.
  - reflexivity.
  - reflexivity.
  - reflexivity.
  - vm_compute. reflexivity.
  - vm_compute. discriminate.
Defined.

(** X17. After a refresh that returned true and whose writes of the catalog
    file and of the Last-Update Record were done, [validate_device_counts]
    finds the three counts equal: the catalog in memory, the catalog file
    and the Last-Update Record agree, whether or not the cache copy can be
    read. *)
Theorem counts_consistent_after_refresh
    (float_repr : PyFloat.float -> string) (docs_folder : string)
    (env : WebSalesTaxCalculator.refresh_env) (st st' : WebSalesTaxCalculator.state)
    (read_cache : res Frame.data_frame) (now : Z) :
  WebSalesTaxCalculator.download_and_process_google_sheets float_repr docs_folder env st
    = (st', true) ->
  WebSalesTaxCalculator.devices_write (WebSalesTaxCalculator.sheet env)
    = WebSalesTaxCalculator.Written ->
  WebSalesTaxCalculator.info_write env = WebSalesTaxCalculator.Written ->
  exists v,
    WebCalculator.validate_device_counts read_cache now st' = Ok v /\
    WebCalculator.consistent v = true /\
    WebCalculator.memory_count v
    = Z.of_nat (List.length (WebSalesTaxCalculator.devices st')).
Proof.
  intros Hd Hw Hi.
  destruct (download_success float_repr docs_folder env st st' Hd)
    as (response & st2 & a & p & m & pc & sc & Hr & Hp & ->).
  destruct (ingested_state_files float_repr _ _ _ _ _ _ _ _ _ Hp) as (_ & _ & Hf).
  specialize (Hf Hw).
  unfold WebCalculator.validate_device_counts,
    WebSalesTaxCalculator.load_last_update_info.
  rewrite Hi.
  cbn [WebSalesTaxCalculator.save_last_update_info WebSalesTaxCalculator.write_file fst
       WebSalesTaxCalculator.devices_file WebSalesTaxCalculator.last_update_file
       WebSalesTaxCalculator.devices WebSalesTaxCalculator.devices_count].
  rewrite Hf. cbn [bind].
  eexists. split; [reflexivity|].
  cbn [WebCalculator.consistent WebCalculator.memory_count].
  rewrite Z.eqb_refl. auto.
Qed.

Lemma counts_consistent_after_refresh_witness :
  exists v,
    WebCalculator.validate_device_counts (Raise ValueError) 7
      (fst (WebSalesTaxCalculator.download_and_process_google_sheets
              Examples.no_repr "Documents" MoreExamples.good_download Examples.old_state))
    = Ok v /\
    WebCalculator.consistent v = true /\
    WebCalculator.memory_count v
    = Z.of_nat (List.length
                  (WebSalesTaxCalculator.devices
                     (fst (WebSalesTaxCalculator.download_and_process_google_sheets
                             Examples.no_repr "Documents" MoreExamples.good_download
                             Examples.old_state)))).
Proof.
  apply (counts_consistent_after_refresh Examples.no_repr "Documents"
           MoreExamples.good_download Examples.old_state _ (Raise ValueError) 7).
  - vm_compute. reflexivity.
  - reflexivity.
  - reflexivity.
Defined.

(** ** A price that cannot be indexed, once saved *)

Lemma get_some_forallb_false (d : catalog) name v :
  PyDict.get d name = Some v -> Indexable.entry (name, v) = false ->
  forallb Indexable.entry d = false.
Proof.
  induction d as [|[k0 v0] r IH]; cbn [PyDict.get forallb]; [discriminate|].
  destruct (String.eqb k0 name) eqn:E.
  - apply String.eqb_eq in E. subst k0. intros H. injection H as ->.
    intros ->. reflexivity.
  - intros H Hv. rewrite (IH H Hv). apply andb_false_r.
Qed.

(** X18. A price that is a NaN or an infinity, once ingested and saved,
    keeps the calculator from starting. When [process_price_sheet] reports
    success, the catalog file is written, and the catalog then has a record
    whose [msrp] is not finite, the load at the start of a calculator that
    reads this file raises. *)
Theorem saved_price_that_is_not_finite_blocks_next_start
    (float_repr : PyFloat.float -> string) (path : string)
    (env : WebSalesTaxCalculator.sheet_env) (st st' st0 : WebSalesTaxCalculator.state)
    (added : Z) (phone msrp_column : string) (processed skipped : option Z)
    (device_name : string) (msrp : PyFloat.float) (prepaid : option PyFloat.float)
    (now : Z) :
  WebSalesTaxCalculator.process_price_sheet float_repr path env st
    = (st', WebSalesTaxCalculator.SheetOk added phone msrp_column processed skipped) ->
  WebSalesTaxCalculator.devices_write env = WebSalesTaxCalculator.Written ->
  PyDict.get (WebSalesTaxCalculator.devices st') device_name
    = Some (PriceRecord (Some msrp) prepaid) ->
  PyFloat.is_finite msrp = false ->
  WebSalesTaxCalculator.devices_file st0 = WebSalesTaxCalculator.devices_file st' ->
  exists e, snd (WebCalculator.load_devices now st0) = Raise e.
Proof.
  intros Hp Hw Hg Hf H0.
  destruct (ingested_state_files float_repr _ _ _ _ _ _ _ _ _ Hp) as (_ & _ & Hfile).
  specialize (Hfile Hw).
  destruct (startup_load_devices_with now st0) as (_ & _ & H3). cbv zeta in H3.
  rewrite H0, Hfile in H3.
  rewrite (get_some_forallb_false _ _ _ Hg) in H3.
  - destruct (snd (WebCalculator.load_devices now st0)) as [[]|e]; [discriminate|].
    exists e. reflexivity.
  - unfold Indexable.entry, Indexable.price. cbn [fst snd OptimizedDeviceCache.price_of].
    rewrite (price_range_of_not_finite msrp Hf). cbn [is_ok].
    destruct msrp; try discriminate; cbn [PyFloat.truthy negb orb]; apply andb_false_r.
Qed.

Lemma saved_price_that_is_not_finite_blocks_next_start_witness :
  exists e,
    snd (WebCalculator.load_devices 9
           (fst (WebSalesTaxCalculator.process_price_sheet Examples.no_repr "prices.csv"
                   (Examples.upload_env Examples.nan_price_file) Examples.old_state)))
    = Raise e.
Proof.
  apply (saved_price_that_is_not_finite_blocks_next_start Examples.no_repr "prices.csv"
           (Examples.upload_env Examples.nan_price_file) Examples.old_state
           (fst (WebSalesTaxCalculator.process_price_sheet Examples.no_repr "prices.csv"
                   (Examples.upload_env Examples.nan_price_file) Examples.old_state))
           (fst (WebSalesTaxCalculator.process_price_sheet Examples.no_repr "prices.csv"
                   (Examples.upload_env Examples.nan_price_file) Examples.old_state))
           1 "Phone" "MSRP" None None "Galaxy S25" PyFloat.nan None 9).
  - vm_compute. reflexivity.
  - reflexivity.
  - vm_compute. reflexivity.
  - reflexivity.
  - reflexivity.
Defined.

(** ** Popular devices *)

Section PopularFacts.
Import WebSalesTaxCalculator WebCalculator.

Lemma get_none_not_in {V : Type} (d : PyDict.dict V) k :
  PyDict.get d k = None <-> ~ In k (PyDict.keys d).
Proof.
  induction d as [|[k0 v0] r IH]; cbn [PyDict.get PyDict.keys map fst In].
  - tauto.
  - destruct (String.eqb k0 k) eqn:E.
    + apply String.eqb_eq in E. split; [discriminate | tauto].
    + apply String.eqb_neq in E. fold (PyDict.keys r). tauto.
Qed.

Lemma nodup_keys_NoDup {V : Type} (d : PyDict.dict V) :
  PyDict.nodup_keys d -> NoDup (PyDict.keys d).
Proof.
  induction d as [|[k0 v0] r IH]; cbn [PyDict.nodup_keys PyDict.keys map fst].
  - constructor.
  - intros [Hf Hn]. constructor; [apply get_none_not_in, Hf | apply IH, Hn].
Qed.

Lemma in_names_In d names : in_names d names = true <-> In d names.
Proof.
  unfold in_names. rewrite existsb_exists. split.
  - intros (x & Hx & E). apply String.eqb_eq in E. subst x. exact Hx.
  - intros H. exists d. split; [exact H | apply String.eqb_refl].
Qed.

Lemma insert_sorted_perm x l : Permutation (insert_sorted x l) (x :: l).
Proof.
  induction l as [|y r IH]; cbn [insert_sorted]; [reflexivity|].
  destruct (String.ltb x y); [reflexivity|].
  rewrite IH. apply perm_swap.
Qed.

Lemma sort_perm l : Permutation (sort l) l.
Proof.
  induction l as [|x r IH]; cbn [sort]; [reflexivity|].
  rewrite insert_sorted_perm. constructor. exact IH.
Qed.

Lemma not_falsy_in_keys (st : state) device :
  falsy (OptimizedDeviceCache.get_device (device_cache st) device) = false ->
  In device (get_device_list st).
Proof.
  unfold OptimizedDeviceCache.get_device, get_device_list. intros H.
  destruct (in_dec string_dec device
              (PyDict.keys (OptimizedDeviceCache.devices (device_cache st)))) as [i|n];
    [exact i|].
  apply get_none_not_in in n. rewrite n in H. discriminate.
Qed.

(** What the loop over the preferred devices keeps true of the list. *)
Lemma preferred_loop_inv (st : state) (limit : Z) (preferred : list string) :
  forall popular,
    NoDup (map name popular ++ preferred) ->
    (forall e, In e popular ->
               In (name e) (get_device_list st) /\ e = popular_entry st (name e)) ->
    Z.of_nat (List.length popular) <= Z.max 0 limit ->
    let r := preferred_loop st limit preferred popular in
    NoDup (map name r) /\
    (forall e, In e r -> In (name e) (get_device_list st) /\ e = popular_entry st (name e)) /\
    Z.of_nat (List.length r) <= Z.max 0 limit.
Proof.
  induction preferred as [|device rest IH]; intros popular Hn He Hl; cbv zeta;
    cbn [preferred_loop].
  - rewrite app_nil_r in Hn. auto.
  - destruct (negb (falsy _) && (Z.of_nat (List.length popular) <? limit)) eqn:E.
    + apply andb_true_iff in E as [E1 E2]. apply negb_true_iff in E1.
      apply Z.ltb_lt in E2. apply IH.
      * rewrite map_app. cbn [map name popular_entry]. rewrite <- app_assoc. exact Hn.
      * intros e Hin. apply in_app_or in Hin as [Hin|[<-|[]]]; [auto|].
        cbn [name popular_entry]. split; [apply not_falsy_in_keys, E1 | reflexivity].
      * rewrite length_app. cbn [List.length]. lia.
    + apply IH; [|exact He|exact Hl].
      apply NoDup_remove_1 in Hn. exact Hn.
Qed.

Lemma in_firstn {A : Type} (n : nat) (l : list A) x : In x (firstn n l) -> In x l.
Proof.
  intros H. rewrite <- (firstn_skipn n l). apply in_or_app. left. exact H.
Qed.

Lemma length_filter_not_in (keys P : list string) :
  NoDup keys -> NoDup P -> incl P keys ->
  (List.length (filter (fun d => negb (in_names d P)) keys) + List.length P
   = List.length keys)%nat.
Proof.
  intros Hk HP Hi.
  rewrite <- (filter_length (fun d => in_names d P) keys).
  rewrite Nat.add_comm. f_equal.
  apply Permutation_length, NoDup_Permutation; [exact HP | apply NoDup_filter, Hk|].
  intros x. rewrite filter_In, in_names_In. split; [|tauto].
  intros H. split; [apply Hi, H | exact H].
Qed.

End PopularFacts.

(** X19. The popular devices. For a catalog in the device cache and a
    limit, [get_popular_devices] returns as many devices as the limit asks
    for, or the whole catalog when it is smaller, and none for a limit of
    zero or less; no device comes twice; every device returned is in the
    catalog and carries the price that [get_device_price] gives and the
    display name of [_get_display_name]. *)
Theorem get_popular_devices_fills_up_to_limit
    (st : WebSalesTaxCalculator.state) (limit : Z) :
  PyDict.nodup_keys (OptimizedDeviceCache.devices (WebSalesTaxCalculator.device_cache st)) ->
  let popular := WebCalculator.get_popular_devices st limit in
  Z.of_nat (List.length popular)
  = Z.max 0 (Z.min limit (Z.of_nat (List.length (WebCalculator.get_device_list st)))) /\
  NoDup (map WebCalculator.name popular) /\
  forall e, In e popular ->
    In (WebCalculator.name e) (WebCalculator.get_device_list st) /\
    WebCalculator.price e = WebCalculator.get_device_price st (WebCalculator.name e) /\
    WebCalculator.display_name e = WebCalculator._get_display_name (WebCalculator.name e).
Proof.
  intros Hnd. apply nodup_keys_NoDup in Hnd. cbv zeta.
  unfold WebCalculator.get_popular_devices.
  set (keys := PyDict.keys (OptimizedDeviceCache.devices
                              (WebSalesTaxCalculator.device_cache st))) in *.
  change (WebCalculator.get_device_list st) with keys.
  destruct (preferred_loop_inv st limit WebCalculator.preferred_devices [])
    as (Hn & He & Hl).
  { cbn [map app]. unfold WebCalculator.preferred_devices.
    repeat (constructor; [cbn [In]; intros H;
      repeat (destruct H as [H|H]; [discriminate|]); exact H|]).
    constructor. }
  { intros e []. }
  { cbn [List.length]. lia. }
  cbv zeta in Hn, He, Hl.
  set (P := WebCalculator.preferred_loop st limit WebCalculator.preferred_devices []) in *.
  change (WebCalculator.get_device_list st) with keys in He.
  assert (Hincl : incl (map WebCalculator.name P) keys).
  { intros x Hx. apply in_map_iff in Hx as (e & <- & Hin). apply He, Hin. }
  pose proof (NoDup_incl_length Hn Hincl) as Hle. rewrite length_map in Hle.
  destruct (Z.of_nat (List.length P) <? limit) eqn:E.
  - apply Z.ltb_lt in E.
    set (remaining := WebCalculator.sort
                        (filter (fun d => negb (WebCalculator.in_names d
                                                  (map WebCalculator.name P))) keys)).
    assert (Hperm : Permutation remaining
                      (filter (fun d => negb (WebCalculator.in_names d
                                                (map WebCalculator.name P))) keys))
      by apply sort_perm.
    pose proof (length_filter_not_in keys (map WebCalculator.name P) Hnd Hn Hincl) as Hc.
    rewrite <- (Permutation_length Hperm), length_map in Hc.
    set (n := Z.to_nat (limit - Z.of_nat (List.length P))).
    assert (Hrem : forall x, In x (firstn n remaining) ->
                             In x keys /\ ~ In x (map WebCalculator.name P)).
    { intros x Hx. apply in_firstn in Hx.
      apply (Permutation_in _ Hperm), filter_In in Hx as [Hk Hx].
      split; [exact Hk|]. intros Hp. apply in_names_In in Hp. rewrite Hp in Hx.
      discriminate. }
    assert (Hnames : map WebCalculator.name
                       (map (WebCalculator.popular_entry st) (firstn n remaining))
                     = firstn n remaining).
    { rewrite map_map. cbn [WebCalculator.name WebCalculator.popular_entry].
      apply map_id. }
    split; [|split].
    + rewrite length_app, length_map, length_firstn. unfold n. lia.
    + rewrite map_app, Hnames. apply NoDup_app; [exact Hn| |].
      * apply (NoDup_app_remove_r _ (skipn n remaining)). rewrite firstn_skipn.
        apply (Permutation_NoDup (Permutation_sym Hperm)), NoDup_filter, Hnd.
      * intros x Hx Hx'. apply Hrem in Hx'. tauto.
    + intros e Hin. apply in_app_or in Hin as [Hin|Hin].
      * destruct (He e Hin) as [Hk Heq]. split; [exact Hk|].
        rewrite Heq at 1 3. cbn [WebCalculator.price WebCalculator.display_name
                                  WebCalculator.popular_entry WebCalculator.name]. auto.
      * apply in_map_iff in Hin as (x & <- & Hx).
        cbn [WebCalculator.name WebCalculator.popular_entry WebCalculator.price
             WebCalculator.display_name].
        split; [apply Hrem, Hx | auto].
  - apply Z.ltb_ge in E. split; [lia|]. split; [exact Hn|].
    intros e Hin. destruct (He e Hin) as [Hk Heq]. split; [exact Hk|].
    rewrite Heq at 1 3. cbn [WebCalculator.price WebCalculator.display_name
                              WebCalculator.popular_entry WebCalculator.name]. auto.
Qed.

Lemma get_popular_devices_fills_up_to_limit_witness :
  let popular := WebCalculator.get_popular_devices Examples.old_state 4 in
  Z.of_nat (List.length popular)
  = Z.max 0 (Z.min 4 (Z.of_nat (List.length (WebCalculator.get_device_list
                                               Examples.old_state)))) /\
  NoDup (map WebCalculator.name popular) /\
  forall e, In e popular ->
    In (WebCalculator.name e) (WebCalculator.get_device_list Examples.old_state) /\
    WebCalculator.price e
    = WebCalculator.get_device_price Examples.old_state (WebCalculator.name e) /\
    WebCalculator.display_name e = WebCalculator._get_display_name (WebCalculator.name e).
Proof.
  apply (get_popular_devices_fills_up_to_limit Examples.old_state 4).
  vm_compute. auto.
Defined.

(** ** What an ingestion stores *)

Section StoredFacts.
Variable float_repr : PyFloat.float -> string.
Import WebSalesTaxCalculator.

Lemma rstrip_idem (s : string) : PyStr.rstrip (PyStr.rstrip s) = PyStr.rstrip s.
Proof.
  induction s as [|c r IH]; cbn [PyStr.rstrip]; [reflexivity|].
  destruct (PyStr.rstrip r) as [|c' r'] eqn:E.
  - destruct (PyStr.isspace c) eqn:Ec; cbn [PyStr.rstrip]; [reflexivity|].
    rewrite Ec. reflexivity.
  - cbn [PyStr.rstrip] in IH |- *. rewrite IH. reflexivity.
Qed.

Lemma lstrip_rstrip_lstrip (s : string) :
  PyStr.lstrip (PyStr.rstrip (PyStr.lstrip s)) = PyStr.rstrip (PyStr.lstrip s).
Proof.
  induction s as [|c r IH]; cbn [PyStr.lstrip]; [reflexivity|].
  destruct (PyStr.isspace c) eqn:Ec; [exact IH|].
  cbn [PyStr.rstrip]. destruct (PyStr.rstrip r); cbn [PyStr.lstrip]; rewrite Ec;
    cbn [PyStr.lstrip]; rewrite ?Ec; reflexivity.
Qed.

Lemma strip_idem (s : string) : PyStr.strip (PyStr.strip s) = PyStr.strip s.
Proof. unfold PyStr.strip. rewrite lstrip_rstrip_lstrip. apply rstrip_idem. Qed.

Lemma gtb_zero_not_leb (x : PyFloat.float) :
  PyFloat.gtb x (PyFloat.of_int 0) = true -> PyFloat.leb x (PyFloat.of_int 0) = false.
Proof. destruct x as [[|]|[|]| |[|] m e]; cbn; congruence. Qed.

Lemma row_outcome_stored fieldnames phone_col msrp_col prepaid_col row name d :
  StreamingCSVProcessor.row_outcome fieldnames phone_col msrp_col prepaid_col row
    = Ok (Some (name, d)) ->
  Stored.clean_name name /\ Stored.priced d.
Proof.
  unfold StreamingCSVProcessor.row_outcome.
  set (phone_name := PyStr.strip (StreamingCSVProcessor.row_get_str fieldnames row phone_col)).
  destruct (PyStr.truthy phone_name) eqn:Et; cbn [negb orb]; [|discriminate].
  destruct (negb (PyStr.truthy _)); [discriminate|].
  destruct (StreamingCSVProcessor._parse_price _) as [m|e]; cbn [bind]; [|discriminate].
  match goal with
  | |- context [PyFloat.leb ?a ?b] => destruct (PyFloat.leb a b) eqn:El
  end; [discriminate|].
  assert (Hname : Stored.clean_name phone_name).
  { split; [exact Et | apply strip_idem]. }
  destruct prepaid_col as [pc|].
  - destruct (PyStr.truthy pc && StreamingCSVProcessor.row_get_truthy fieldnames row pc).
    + destruct (StreamingCSVProcessor._parse_price _) as [p|e]; cbn [bind]; [|discriminate].
      match goal with
      | |- context [PyFloat.gtb ?a ?b] => destruct (PyFloat.gtb a b) eqn:Eg
      end; intros H; injection H as <- <-; cbn [Stored.priced]; auto.
    + cbn [bind]. intros H; injection H as <- <-. cbn [Stored.priced]. auto.
  - cbn [bind]. intros H; injection H as <- <-. cbn [Stored.priced]. auto.
Qed.

Lemma frame_prepaid_positive cols prepaid row :
  match frame_prepaid cols prepaid row with
  | Some p => PyFloat.gtb p (PyFloat.of_int 0) = true
  | None => True
  end.
Proof.
  unfold frame_prepaid. destruct prepaid as [pc|]; [|exact I].
  destruct (PyStr.truthy pc && Frame.has_column cols pc); [|exact I].
  destruct (Frame.isna _); [exact I|].
  destruct (clean_cell _) as [[|c s]|x]; cbn [try_except]; try exact I.
  - destruct (cell_float _) as [p|e]; cbn [bind try_except].
    + match goal with
      | |- context [PyFloat.gtb ?a ?b] => destruct (PyFloat.gtb a b) eqn:Eg
      end; auto.
    + destruct e; cbn; exact I.
  - cbn [cell_float bind try_except].
    match goal with
    | |- context [PyFloat.gtb ?a ?b] => destruct (PyFloat.gtb a b) eqn:Eg
    end; auto.
Qed.

Lemma frame_row_outcome_stored cols phone msrp prepaid row name d :
  frame_row_outcome float_repr cols phone msrp prepaid row = Ok (Some (name, d)) ->
  Stored.clean_name name /\ Stored.priced d.
Proof.
  unfold frame_row_outcome.
  set (phone_name := PyStr.strip (cell_str float_repr (Frame.cell_at cols row phone))).
  destruct (existsb _ _ || (PyStr.len phone_name <? 2)) eqn:E; [discriminate|].
  apply orb_false_iff in E as [_ E]. apply Z.ltb_ge in E.
  assert (Hname : Stored.clean_name phone_name).
  { split; [|apply strip_idem]. destruct phone_name; [cbn in E; lia | reflexivity]. }
  pose proof (frame_prepaid_positive cols prepaid row) as Hp.
  destruct (Frame.isna _); [discriminate|].
  assert (K : forall r,
            (msrp_float <- r ;;
             if PyFloat.gtb msrp_float (PyFloat.of_int 0)
             then Ok (Some (phone_name,
                            PriceRecord (Some msrp_float) (frame_prepaid cols prepaid row)))
             else Ok None) = Ok (Some (name, d)) ->
            Stored.clean_name name /\ Stored.priced d).
  { intros [m|e]; cbn [bind]; [|discriminate].
    destruct (PyFloat.gtb m (PyFloat.of_int 0)) eqn:G; [|discriminate].
    intros H. injection H as <- <-. split; [exact Hname|].
    cbn [Stored.priced]. split; [apply gtb_zero_not_leb, G | exact Hp]. }
  destruct (clean_cell _) as [[|c s]|x]; [discriminate | apply K | apply K].
Qed.

(** An entry of the fragment is clean when every entry before was. *)
Lemma set_stored (d : catalog) name v :
  Stored.clean_name name /\ Stored.priced v ->
  (forall n r, PyDict.get d n = Some r -> Stored.clean_name n /\ Stored.priced r) ->
  forall n r, PyDict.get (PyDict.set d name v) n = Some r ->
              Stored.clean_name n /\ Stored.priced r.
Proof.
  intros Hv Hd n r. rewrite get_set.
  destruct (String.eqb name n) eqn:E.
  - apply String.eqb_eq in E. subst n. intros H. injection H as <-. exact Hv.
  - apply Hd.
Qed.

Lemma process_rows_stored fieldnames phone_col msrp_col prepaid_col evs :
  forall st st',
    (forall n r, PyDict.get (StreamingCSVProcessor.devices st) n = Some r ->
                 Stored.clean_name n /\ Stored.priced r) ->
    StreamingCSVProcessor.process_rows fieldnames phone_col msrp_col prepaid_col evs st
      = Ok st' ->
    forall n r, PyDict.get (StreamingCSVProcessor.devices st') n = Some r ->
                Stored.clean_name n /\ Stored.priced r.
Proof.
  induction evs as [|ev rest IH]; intros st st' Hs H;
    cbn [StreamingCSVProcessor.process_rows] in H.
  - injection H as <-. exact Hs.
  - destruct ev as [[|f fs]|]; [eauto| |discriminate].
    eapply IH; [|exact H].
    unfold StreamingCSVProcessor.process_row.
    destruct (StreamingCSVProcessor.row_outcome _ _ _ _ _) as [[[n0 d0]|]|e] eqn:E;
      cbn [StreamingCSVProcessor.devices StreamingCSVProcessor.emit
           StreamingCSVProcessor.skip]; [|exact Hs|exact Hs].
    apply set_stored; [|exact Hs]. eapply row_outcome_stored, E.
Qed.

Lemma process_frame_rows_stored cols phone msrp prepaid rs :
  forall st st',
    (forall n r, PyDict.get (StreamingCSVProcessor.devices st) n = Some r ->
                 Stored.clean_name n /\ Stored.priced r) ->
    process_frame_rows float_repr cols phone msrp prepaid rs st = Ok st' ->
    forall n r, PyDict.get (StreamingCSVProcessor.devices st') n = Some r ->
                Stored.clean_name n /\ Stored.priced r.
Proof.
  induction rs as [|row rest IH]; intros st st' Hs H; cbn [process_frame_rows] in H.
  - injection H as <-. exact Hs.
  - destruct (process_frame_row float_repr cols phone msrp prepaid st row)
      as [st1|e] eqn:E1; cbn [bind] in H; [|discriminate].
    eapply IH; [|exact H].
    unfold process_frame_row in E1.
    destruct (frame_row_outcome _ _ _ _ _ _) as [[[n0 d0]|]|e] eqn:E.
    + injection E1 as <-. cbn [StreamingCSVProcessor.devices StreamingCSVProcessor.emit].
      apply set_stored; [|exact Hs]. eapply frame_row_outcome_stored, E.
    + injection E1 as <-. exact Hs.
    + destruct e; try discriminate; injection E1 as <-; exact Hs.
Qed.

Lemma process_frame_stored env st read st' result :
  process_frame float_repr env st read = (st', result) ->
  st' = st \/
  exists fragment,
    PyDict.nodup_keys fragment /\ st' = merge_and_save env st fragment /\
    forall n r, PyDict.get fragment n = Some r -> Stored.clean_name n /\ Stored.priced r.
Proof.
  unfold process_frame.
  destruct read as [df0|e]; [|intros H; injection H as <- _; auto].
  destruct (phone_col _) as [phone|]; [|intros H; injection H as <- _; auto].
  destruct (msrp_col _) as [msrp|]; [|intros H; injection H as <- _; auto].
  destruct (negb _ || negb _); [intros H; injection H as <- _; auto|].
  destruct (process_frame_rows _ _ _ _ _ _ _) as [ist|e] eqn:E;
    [|intros H; injection H as <- _; auto].
  pose proof (process_frame_rows_nodup _ _ _ _ _ _ StreamingCSVProcessor.initial _ I E) as Hn.
  assert (H0 : forall n r,
             PyDict.get (StreamingCSVProcessor.devices StreamingCSVProcessor.initial) n
             = Some r -> Stored.clean_name n /\ Stored.priced r)
    by (intros n r H; discriminate).
  pose proof (process_frame_rows_stored _ _ _ _ _ StreamingCSVProcessor.initial _ H0 E)
    as Hs.
  destruct (StreamingCSVProcessor.devices ist) as [|kv rest] eqn:Ed;
    [intros H; injection H as <- _; auto|].
  intros H. injection H as <- _. right. exists (kv :: rest). auto.
Qed.

Lemma process_price_sheet_stored path env st st' result :
  process_price_sheet float_repr path env st = (st', result) ->
  st' = st \/
  exists fragment,
    PyDict.nodup_keys fragment /\ st' = merge_and_save env st fragment /\
    forall n r, PyDict.get fragment n = Some r -> Stored.clean_name n /\ Stored.priced r.
Proof.
  unfold process_price_sheet.
  destruct (PyStr.endswith ".csv" path).
  - destruct (StreamingCSVProcessor.process_csv_stream (csv_read env))
      as [new p s pc mc ppc|cols|] eqn:E; try apply process_frame_stored.
    intros H. injection H as <- _. right. exists new.
    split; [eapply process_csv_stream_nodup, E|]. split; [reflexivity|].
    unfold StreamingCSVProcessor.process_csv_stream in E.
    destruct (StreamingCSVProcessor.header _) as [h|e]; [|discriminate].
    destruct (StreamingCSVProcessor._detect_phone_column _) as [pc'|]; [|discriminate].
    destruct (StreamingCSVProcessor._detect_msrp_column _) as [mc'|]; [|discriminate].
    destruct (negb _ || negb _); [discriminate|].
    destruct (StreamingCSVProcessor.process_rows _ _ _ _ _ _) as [ist|e] eqn:Er;
      [|discriminate].
    injection E as <- _ _ _ _ _.
    eapply process_rows_stored; [|exact Er].
    intros n r H. discriminate.
  - destruct (PyStr.endswith ".xlsx" path || PyStr.endswith ".xls" path).
    + apply process_frame_stored.
    + intros H. injection H as <- _. auto.
Qed.

End StoredFacts.

(** X20. What an ingestion puts into the catalog. After
    [process_price_sheet], by either reader and whatever it returns, every
    entry of the catalog is an entry that was there before, unchanged, or
    has a name that is not empty and has no white space at either end, and
    a record with an [msrp] that is not at most zero and a prepaid price
    that is absent or above zero. Such a name never keeps the device cache
    from building its indexes. *)
Theorem process_price_sheet_stores_clean_records
    (float_repr : PyFloat.float -> string) (path : string)
    (env : WebSalesTaxCalculator.sheet_env) (st : WebSalesTaxCalculator.state)
    (device_name : string) (d : device_data) :
  PyDict.get
    (WebSalesTaxCalculator.devices
       (fst (WebSalesTaxCalculator.process_price_sheet float_repr path env st)))
    device_name = Some d ->
  PyDict.get (WebSalesTaxCalculator.devices st) device_name = Some d \/
  (Stored.clean_name device_name /\ Stored.priced d /\ Indexable.key device_name = true).
Proof.
  intros H.
  destruct (WebSalesTaxCalculator.process_price_sheet float_repr path env st)
    as [st' result] eqn:E. cbn [fst] in H.
  destruct (process_price_sheet_stored float_repr path env st st' result E)
    as [->|(fragment & Hn & -> & Hs)]; [auto|].
  destruct (merge_and_save_devices env st fragment) as [Hd _].
  rewrite Hd, (get_update _ _ _ Hn) in H.
  destruct (PyDict.get fragment device_name) as [v|] eqn:Eg; [|auto].
  injection H as ->. right. destruct (Hs _ _ Eg) as [Hc Hp].
  split; [exact Hc|]. split; [exact Hp|].
  unfold Indexable.key. rewrite any_not_space.
  destruct Hc as [Ht Hstrip]. rewrite Ht. cbn [negb orb].
  destruct (PyStr.all_chars PyStr.isspace device_name) eqn:Ea; [|reflexivity].
  apply lstrip_empty in Ea. unfold PyStr.strip in Hstrip. rewrite Ea in Hstrip.
  cbn in Hstrip. subst device_name. discriminate.
Qed.

Lemma process_price_sheet_stores_clean_records_witness :
  let d := PriceRecord (Some Examples.price_799_99) None in
  PyDict.get (WebSalesTaxCalculator.devices Examples.old_state) "iPhone 15" = Some d \/
  (Stored.clean_name "iPhone 15" /\ Stored.priced d /\ Indexable.key "iPhone 15" = true).
Proof.
  apply (process_price_sheet_stores_clean_records Examples.no_repr "prices.csv"
           (Examples.upload_env Examples.new_price_file) Examples.old_state
           "iPhone 15" (PriceRecord (Some Examples.price_799_99) None)).
  vm_compute. reflexivity.
Defined.

(** ** The streaming reader: errors and short records *)

Lemma process_rows_reader_error fieldnames phone_col msrp_col prepaid_col evs :
  In StreamingCSVProcessor.ReaderError evs ->
  forall st,
    StreamingCSVProcessor.process_rows fieldnames phone_col msrp_col prepaid_col evs st
    = Raise CsvError.
Proof.
  induction evs as [|ev rest IH]; intros Hin st; [destruct Hin|].
  cbn [StreamingCSVProcessor.process_rows].
  destruct ev as [[|f fs]|]; [| |reflexivity];
    (destruct Hin as [Hin|Hin]; [discriminate | apply IH, Hin]).
Qed.

(** X21. The streaming reader keeps nothing of a file that it cannot read
    to the end. When reading a delimited file fails at any record, however
    many records were read before, the streaming result is a failure and
    [process_price_sheet] answers with what the frame path makes of the
    file: no record reaches the catalog through the streaming reader. *)
Theorem reader_error_leaves_file_to_frame_path
    (float_repr : PyFloat.float -> string) (path : string)
    (env : WebSalesTaxCalculator.sheet_env) (st : WebSalesTaxCalculator.state) :
  PyStr.endswith ".csv" path = true ->
  In StreamingCSVProcessor.ReaderError
     (StreamingCSVProcessor.records (WebSalesTaxCalculator.csv_read env)) ->
  WebSalesTaxCalculator.process_price_sheet float_repr path env st
  = WebSalesTaxCalculator.process_frame float_repr env st
      (WebSalesTaxCalculator.read_csv env).
Proof.
  intros Hp Hin. unfold WebSalesTaxCalculator.process_price_sheet. rewrite Hp.
  unfold StreamingCSVProcessor.process_csv_stream.
  destruct (StreamingCSVProcessor.header _) as [h|e]; [|reflexivity].
  destruct (StreamingCSVProcessor._detect_phone_column _) as [pc|]; [|reflexivity].
  destruct (StreamingCSVProcessor._detect_msrp_column _) as [mc|]; [|reflexivity].
  destruct (negb _ || negb _); [reflexivity|].
  rewrite (process_rows_reader_error _ _ _ _ _ Hin). reflexivity.
Qed.

Lemma reader_error_leaves_file_to_frame_path_witness :
  WebSalesTaxCalculator.process_price_sheet Examples.no_repr "prices.csv"
    MoreExamples.broken_upload Examples.old_state
  = WebSalesTaxCalculator.process_frame Examples.no_repr MoreExamples.broken_upload
      Examples.old_state (WebSalesTaxCalculator.read_csv MoreExamples.broken_upload).
Proof.
  apply (reader_error_leaves_file_to_frame_path Examples.no_repr "prices.csv"
           MoreExamples.broken_upload Examples.old_state).
  - reflexivity.
  - simpl. right. right. left. reflexivity.
Defined.

Lemma row_lookup_absent (fieldnames row : list string) (col : string) found :
  ~ In col fieldnames ->
  StreamingCSVProcessor.row_lookup fieldnames row col found = found.
Proof.
  revert row found. induction fieldnames as [|f fs IH]; intros row found Hn;
    cbn [StreamingCSVProcessor.row_lookup]; [reflexivity|].
  rewrite IH by (intros H; apply Hn; right; exact H).
  destruct (String.eqb f col) eqn:E; [|reflexivity].
  apply String.eqb_eq in E. subst f. exfalso. apply Hn. left. reflexivity.
Qed.

Lemma row_lookup_short (before after row : list string) (col : string) found :
  ~ In col after -> (List.length row <= List.length before)%nat ->
  StreamingCSVProcessor.row_lookup (before ++ col :: after) row col found = Some None.
Proof.
  intros Hn. revert row found. induction before as [|f fs IH]; intros row found Hl.
  - destruct row; [|cbn in Hl; lia].
    cbn [app StreamingCSVProcessor.row_lookup]. rewrite String.eqb_refl.
    apply row_lookup_absent, Hn.
  - cbn [app StreamingCSVProcessor.row_lookup]. apply IH.
    destruct row; cbn [tl List.length] in *; lia.
Qed.

(** X22. A record that ends before the column of the device names is not
    skipped for want of a name: the reader gives the missing field as
    [None], whose text is the name. When the price of the record parses to
    a value that is not at most zero, the record is stored under the
    device name [None]. *)
Theorem short_record_is_stored_under_None
    (before after row : list string) (phone_col msrp_col : string)
    (prepaid_col : option string) (msrp : PyFloat.float) :
  ~ In phone_col after ->
  (List.length row <= List.length before)%nat ->
  StreamingCSVProcessor._parse_price
    (PyStr.strip (StreamingCSVProcessor.row_get_str (before ++ phone_col :: after) row msrp_col))
    = Ok msrp ->
  PyFloat.leb msrp (PyFloat.of_int 0) = false ->
  exists prepaid,
    StreamingCSVProcessor.row_outcome (before ++ phone_col :: after) phone_col msrp_col
      prepaid_col row
    = Ok (Some ("None", PriceRecord (Some msrp) prepaid)).
Proof.
  intros Hn Hl Hp Hm.
  pose proof (row_outcome_cases (before ++ phone_col :: after) phone_col msrp_col
                prepaid_col row) as C.
  cbv zeta in C. unfold SkipRule.skipped, SkipRule.device_name, SkipRule.primary_price in C.
  unfold StreamingCSVProcessor.row_get_str at 1 3 in C.
  rewrite (row_lookup_short before after row phone_col None Hn Hl), Hp, Hm in C.
  exact C.
Qed.

Lemma short_record_is_stored_under_None_witness :
  exists prepaid,
    StreamingCSVProcessor.row_outcome (["MSRP"] ++ "Phone" :: []) "Phone" "MSRP" None
      ["799.99"]
    = Ok (Some ("None", PriceRecord (Some Examples.price_799_99) prepaid)).
Proof.
  apply (short_record_is_stored_under_None ["MSRP"] [] ["799.99"] "Phone" "MSRP" None
           Examples.price_799_99).
  - simpl. tauto.
  - simpl. lia.
  - vm_compute. reflexivity.
  - vm_compute. reflexivity.
Defined.

(** ** What a streaming result holds *)

Section StreamResultFacts.
Import StreamingCSVProcessor.

Lemma first_matching_in patterns fieldnames field :
  first_matching patterns fieldnames = Some field -> In field fieldnames.
Proof.
  induction fieldnames as [|f fs IH]; cbn [first_matching]; [discriminate|].
  destruct (any_pattern patterns _).
  - intros H. injection H as <-. left. reflexivity.
  - intros H. right. apply IH, H.
Qed.

Lemma item_or_none_in fieldnames i field :
  item_or_none fieldnames i = Some field -> In field fieldnames.
Proof.
  unfold item_or_none. destruct (Nat.ltb i (List.length fieldnames)); [|discriminate].
  apply nth_error_In.
Qed.

Lemma detected_in patterns fieldnames i field :
  match first_matching patterns fieldnames with
  | Some f => Some f
  | None => item_or_none fieldnames i
  end = Some field ->
  In field fieldnames.
Proof.
  destruct (first_matching patterns fieldnames) as [f|] eqn:E.
  - intros H. injection H as <-. eapply first_matching_in, E.
  - apply item_or_none_in.
Qed.

Lemma length_set {V : Type} (d : PyDict.dict V) k v :
  (List.length (PyDict.set d k v) <= S (List.length d))%nat.
Proof.
  induction d as [|[k0 v0] r IH]; cbn [PyDict.set List.length]; [lia|].
  destruct (String.eqb k0 k); cbn [List.length]; lia.
Qed.

Lemma process_rows_sizes fieldnames phone_col msrp_col prepaid_col evs :
  forall st st',
    process_rows fieldnames phone_col msrp_col prepaid_col evs st = Ok st' ->
    Z.of_nat (List.length (devices st')) - processed_count st'
      <= Z.of_nat (List.length (devices st)) - processed_count st /\
    skipped_count st <= skipped_count st'.
Proof.
  induction evs as [|ev rest IH]; intros st st' H; cbn [process_rows] in H.
  - injection H as <-. lia.
  - destruct ev as [[|f fs]|]; [apply IH, H| |discriminate].
    apply IH in H. revert H. unfold process_row.
    destruct (row_outcome _ _ _ _ _) as [[[n d]|]|e];
      cbn [devices processed_count skipped_count emit skip]; try lia.
    pose proof (length_set (devices st) n d). lia.
Qed.

End StreamResultFacts.

(** X23. What a successful streaming result holds. The file had a header,
    and the columns reported for the device names, the prices and the
    prepaid prices are fields of that header. The devices returned are no
    more than the records counted as processed, each name standing once
    however often the sheet has it. *)
Theorem process_csv_stream_success_is_coherent
    (file : StreamingCSVProcessor.csv_file) (new_devices : catalog)
    (processed skipped : Z) (phone msrp : string) (prepaid : option string) :
  StreamingCSVProcessor.process_csv_stream file
    = StreamingCSVProcessor.StreamOk new_devices processed skipped phone msrp prepaid ->
  exists fieldnames,
    StreamingCSVProcessor.header file = Ok (Some fieldnames) /\
    In phone fieldnames /\ In msrp fieldnames /\
    (forall c, prepaid = Some c -> In c fieldnames) /\
    Z.of_nat (List.length new_devices) <= processed /\
    0 <= skipped /\
    PyDict.nodup_keys new_devices.
Proof.
  intros H. pose proof (process_csv_stream_nodup _ _ _ _ _ _ _ H) as Hnd.
  unfold StreamingCSVProcessor.process_csv_stream in H.
  destruct (StreamingCSVProcessor.header file) as [[fieldnames|]|e];
    [| discriminate | discriminate].
  unfold StreamingCSVProcessor._detect_phone_column,
    StreamingCSVProcessor._detect_msrp_column,
    StreamingCSVProcessor._detect_prepaid_column in H.
  pose proof (detected_in StreamingCSVProcessor.phone_patterns fieldnames 1) as Hp.
  pose proof (detected_in StreamingCSVProcessor.msrp_patterns fieldnames 4) as Hm.
  pose proof (detected_in StreamingCSVProcessor.prepaid_patterns fieldnames 8) as Hpp.
  destruct (match StreamingCSVProcessor.first_matching
                    StreamingCSVProcessor.phone_patterns fieldnames with
            | Some f => Some f
            | None => StreamingCSVProcessor.item_or_none fieldnames 1
            end) as [pc|]; [|discriminate].
  destruct (match StreamingCSVProcessor.first_matching
                    StreamingCSVProcessor.msrp_patterns fieldnames with
            | Some f => Some f
            | None => StreamingCSVProcessor.item_or_none fieldnames 4
            end) as [mc|]; [|discriminate].
  destruct (negb _ || negb _); [discriminate|].
  destruct (StreamingCSVProcessor.process_rows _ _ _ _ _ _) as [st|e] eqn:Er;
    [|discriminate].
  injection H as <- <- <- <- <- <-.
  apply process_rows_sizes in Er. cbn in Er.
  exists fieldnames. repeat split; auto; lia.
Qed.

Lemma process_csv_stream_success_is_coherent_witness :
  exists fieldnames,
    StreamingCSVProcessor.header Examples.three_rows = Ok (Some fieldnames) /\
    In "Phone" fieldnames /\ In "MSRP" fieldnames /\
    (forall c, @None string = Some c -> In c fieldnames) /\
    Z.of_nat (List.length [("iPhone 15", PriceRecord (Some Examples.price_799_99) None)]) <= 1 /\
    0 <= 2 /\
    PyDict.nodup_keys [("iPhone 15", PriceRecord (Some Examples.price_799_99) None)].
Proof.
  apply (process_csv_stream_success_is_coherent Examples.three_rows
           [("iPhone 15", PriceRecord (Some Examples.price_799_99) None)]
           1 2 "Phone" "MSRP" None).
  vm_compute. reflexivity.
Defined.

(** ** Migration of the data files *)

Section MigrationFacts.
Context {A : Type}.
Import WebSalesTaxCalculator Migration.

Lemma exists_true (d : folder A) filename :
  exists_ d filename = true <-> d filename <> None.
Proof. unfold exists_. destruct (d filename); split; congruence. Qed.

Lemma exists_false (d : folder A) filename :
  exists_ d filename = false <-> d filename = None.
Proof. unfold exists_. destruct (d filename); split; congruence. Qed.

(** What the loop over the file names keeps true. *)
Lemma migrate_loop_inv (outcome : string -> move_outcome) (filenames : list string) :
  forall (fs : files A) (migrated : list string),
    let fs' := fst (migrate_loop outcome filenames fs migrated) in
    let migrated' := snd (migrate_loop outcome filenames fs migrated) in
    (forall f c, docs_folder fs f = Some c -> docs_folder fs' f = Some c) /\
    (forall f, current_dir fs' f = current_dir fs f \/
               (current_dir fs' f = None /\ docs_folder fs f = None /\
                docs_folder fs' f = current_dir fs f)) /\
    (forall f, In f migrated' ->
               In f migrated \/
               (In f filenames /\ current_dir fs f <> None /\ current_dir fs' f = None /\
                docs_folder fs f = None /\ docs_folder fs' f = current_dir fs f)) /\
    (forall f, ~ In f filenames ->
               current_dir fs' f = current_dir fs f /\ docs_folder fs' f = docs_folder fs f).
Proof.
  induction filenames as [|n rest IH]; intros fs migrated; cbv zeta.
  - cbn [migrate_loop fst snd]. repeat split; auto.
  - cbn [migrate_loop].
    destruct (exists_ (current_dir fs) n && negb (exists_ (docs_folder fs) n)) eqn:E.
    + apply andb_true_iff in E as [Ec Ed]. apply negb_true_iff in Ed.
      apply exists_true in Ec. apply exists_false in Ed.
      destruct (move (outcome n) n fs) as [fs1 moved] eqn:Em.
      specialize (IH fs1 (if moved then (migrated ++ [n])%list else migrated)).
      cbv zeta in IH. destruct IH as (Ia & Ib & Ic & Id).
      set (r := migrate_loop outcome rest fs1 _) in *.
      assert (Hother : forall f, f <> n ->
                current_dir fs1 f = current_dir fs f /\
                docs_folder fs1 f = docs_folder fs f).
      { intros f Hf. unfold move in Em.
        destruct (outcome n); injection Em as <- _;
          cbn [current_dir docs_folder]; unfold put;
          try (destruct (String.eqb n f) eqn:En;
               [apply String.eqb_eq in En; congruence|]); auto. }
      assert (Hn : (moved = true /\ current_dir fs1 n = None /\
                    docs_folder fs1 n = current_dir fs n) \/
                   (moved = false /\ current_dir fs1 n = current_dir fs n /\
                    (docs_folder fs1 n <> None \/ fs1 = fs))).
      { unfold move in Em.
        destruct (outcome n); injection Em as <- <-;
          cbn [current_dir docs_folder]; unfold put; rewrite ?String.eqb_refl.
        - left. auto.
        - right. auto.
        - right. split; [reflexivity|]. split; [reflexivity|]. left. discriminate.
        - right. split; [reflexivity|]. split; [reflexivity|]. left. exact Ec. }
      assert (Hdocs : forall f c, docs_folder fs f = Some c -> docs_folder fs1 f = Some c).
      { intros f c Hf. destruct (string_dec f n) as [->|Hne]; [congruence|].
        destruct (Hother f Hne) as [_ ->]. exact Hf. }
      split; [|split; [|split]].
      * intros f c Hf. apply Ia, Hdocs, Hf.
      * intros f. destruct (string_dec f n) as [->|Hne].
        -- destruct Hn as [(_ & Hc1 & Hd1)|(_ & Hc1 & Hd1)].
           ++ right. split; [|split; [exact Ed|]].
              ** destruct (Ib n) as [H|[H _]]; congruence.
              ** destruct (current_dir fs n) as [c|] eqn:Ecur; [|congruence].
                 apply Ia. exact Hd1.
           ++ destruct (Ib n) as [H|(H1 & H2 & H3)].
              ** left. congruence.
              ** destruct Hd1 as [Hd1|Hd1]; [congruence|]. subst fs1.
                 right. auto.
        -- destruct (Hother f Hne) as [Hc Hd]. rewrite <- Hc, <- Hd. apply Ib.
      * intros f Hin. destruct (Ic f Hin) as [Hm|(Hr & H1 & H2 & H3 & H4)].
        -- destruct moved; [|left; exact Hm].
           apply in_app_or in Hm as [Hm|[<-|[]]]; [left; exact Hm|].
           right. destruct Hn as [(_ & Hc1 & Hd1)|(Hf & _)]; [|discriminate].
           split; [left; reflexivity|]. split; [exact Ec|].
           split; [destruct (Ib n) as [H|[H _]]; congruence|].
           split; [exact Ed|].
           destruct (current_dir fs n) as [c|] eqn:Ecur; [|congruence].
           apply Ia. exact Hd1.
        -- right. destruct (string_dec f n) as [->|Hne].
           ++ destruct Hn as [(_ & Hc1 & _)|(_ & _ & [Hd1|Hd1])];
                [congruence | congruence | subst fs1].
              split; [left; reflexivity | auto].
           ++ destruct (Hother f Hne) as [Hc Hd]. rewrite <- Hc, <- Hd.
              split; [right; exact Hr | auto].
      * intros f Hnin.
        assert (Hne : f <> n) by (intros ->; apply Hnin; left; reflexivity).
        destruct (Hother f Hne) as [Hc Hd]. rewrite <- Hc, <- Hd.
        apply Id. intros H. apply Hnin. right. exact H.
    + specialize (IH fs migrated). cbv zeta in IH. destruct IH as (Ia & Ib & Ic & Id).
      split; [exact Ia|]. split; [exact Ib|]. split.
      * intros f Hin. destruct (Ic f Hin) as [H|(H & H')]; [left; exact H|].
        right. split; [right; exact H | exact H'].
      * intros f Hnin. apply Id. intros H. apply Hnin. right. exact H.
Qed.

End MigrationFacts.

(** X24. The migration of the data files overwrites nothing and loses
    nothing, however each move ends. A file that is in the Documents folder
    stays as it is; what a file of the program's folder held is afterwards
    still there or in the Documents folder; a file name is reported as
    migrated only when the file was in the program's folder and not in the
    Documents folder, and then it is gone from the first and whole in the
    second; no file other than the three data files is touched. *)
Theorem migrate_existing_files_overwrites_and_loses_nothing
    {A : Type} (outcome : string -> Migration.move_outcome) (fs : Migration.files A) :
  let fs' := fst (Migration.migrate_existing_files outcome fs) in
  let migrated_files := snd (Migration.migrate_existing_files outcome fs) in
  (forall f c, Migration.docs_folder fs f = Some c -> Migration.docs_folder fs' f = Some c) /\
  (forall f c, Migration.current_dir fs f = Some c ->
               Migration.current_dir fs' f = Some c \/ Migration.docs_folder fs' f = Some c) /\
  (forall f, In f migrated_files ->
             In f Migration.files_to_migrate /\
             Migration.current_dir fs f <> None /\ Migration.docs_folder fs f = None /\
             Migration.current_dir fs' f = None /\
             Migration.docs_folder fs' f = Migration.current_dir fs f) /\
  (forall f, ~ In f Migration.files_to_migrate ->
             Migration.current_dir fs' f = Migration.current_dir fs f /\
             Migration.docs_folder fs' f = Migration.docs_folder fs f).
Proof.
  cbv zeta. unfold Migration.migrate_existing_files.
  destruct (migrate_loop_inv outcome Migration.files_to_migrate fs []) as (Ia & Ib & Ic & Id).
  cbv zeta in Ia, Ib, Ic, Id.
  split; [exact Ia|]. split; [|split; [|exact Id]].
  - intros f c Hc. destruct (Ib f) as [H|(_ & _ & H)]; [left|right]; congruence.
  - intros f Hin. destruct (Ic f Hin) as [[]|H]. tauto.
Qed.
